(** * dm_mcp: the SQL security validator and the query result cache

    A shallow embedding of [src/database.py] (classes [QueryCache] and
    [SQLValidator], [DamengDatabase.execute_query] and the system queries
    built on it), of the enumeration [SecurityMode] and the validators of
    [src/config.py], of [normalize_data] of [src/main.py] and of
    [DocumentGenerator._get_field_value].

    Modelling conventions.
    - A Python [str] is a sequence of code points.  Which of them are
      whitespace or word characters, and what [str.upper] and [str.lower]
      return, comes from the Unicode tables of the interpreter, which are
      not part of the repository and change with its version.  The tier
      policies of the validator are therefore stated over any character set
      (modules [Charset] and [Text]): the classes and the upper-casing are
      parameters, and one whitespace class serves [str.strip], [str.split]
      and [\s], one word class serves [\w] and [\b], as in CPython.
    - The executable model (modules [Py], [Re], [SQLValidator] and all that
      follows) is the instance for ASCII text: there a [str] is a
      [list ascii] of code points below 128 ([Py.isascii]), and the classes
      and case mappings are the ASCII part of the tables.  Characters from
      128 on stand for the bytes of the non-ASCII literals of the source,
      which are only concatenated and compared; on them the classes and case
      mappings of [Py] are not those of Python.
    - A Python [dict] is an association list in insertion order without
      duplicate keys: assignment to a present key keeps its position, a new
      key goes to the end, [del] removes it.
    - [time.time()] readings are integers (ticks of the clock); every call of
      the source that reads the clock takes its reading as an argument.
    - A result list ([List[Dict[str, Any]]]) is an object on a heap and is
      passed around by reference, as Python does.
    - The database driver is outside the repository: a cursor is an oracle
      from the statement text to the outcome of [execute]/[fetchall]. *)

From Stdlib Require Import List Ascii String Bool Arith ZArith NArith Lia Sorted.
Import ListNotations.

Set Implicit Arguments.

(** ** Python strings *)

Module Py.

Definition str := list ascii.

Definition lit (s : string) : str := list_ascii_of_string s.

Definition str_eq_dec : forall a b : str, {a = b} + {a <> b} :=
  list_eq_dec ascii_dec.

Definition str_eqb (a b : str) : bool :=
  if str_eq_dec a b then true else false.

(** [s.isascii()]: every code point is below 128. *)
Definition isascii (s : str) : bool :=
  forallb (fun c => nat_of_ascii c <? 128) s.

(** [Py_UNICODE_ISSPACE] on the ASCII characters: TAB, LF, VT, FF, CR, FS,
    GS, RS, US, SPACE.  The whitespace beyond ASCII (U+0085, U+00A0, U+1680,
    U+2000 to U+200A, U+2028, U+2029, U+202F, U+205F, U+3000) is outside
    the ASCII instance. *)
Definition isspace (c : ascii) : bool :=
  let n := nat_of_ascii c in
  ((9 <=? n) && (n <=? 13)) || ((28 <=? n) && (n <=? 32)).

Definition islower (c : ascii) : bool :=
  let n := nat_of_ascii c in (97 <=? n) && (n <=? 122).

Definition isupper (c : ascii) : bool :=
  let n := nat_of_ascii c in (65 <=? n) && (n <=? 90).

Definition isdigit (c : ascii) : bool :=
  let n := nat_of_ascii c in (48 <=? n) && (n <=? 57).

(** The class [\w] of [re] on the ASCII characters: letters, digits and the
    underscore.  The letters and digits beyond ASCII are outside the ASCII
    instance. *)
Definition isword (c : ascii) : bool :=
  islower c || isupper c || isdigit c || (nat_of_ascii c =? 95).

(** [c.upper()] for an ASCII character [c]. *)
Definition upper_char (c : ascii) : ascii :=
  if islower c then ascii_of_nat (nat_of_ascii c - 32) else c.

(** [s.upper()] for ASCII text [s]; beyond ASCII [str.upper] also maps
    characters to ASCII letters (U+0131 to I, U+017F to S, U+00DF to SS). *)
Definition upper (s : str) : str := map upper_char s.

Fixpoint lstrip (s : str) : str :=
  match s with
  | [] => []
  | c :: s' => if isspace c then lstrip s' else s
  end.

Definition rstrip (s : str) : str := rev (lstrip (rev s)).

(** [s.strip()] *)
Definition strip (s : str) : str := rstrip (lstrip s).

(** [s.split()]: the maximal runs of non-whitespace characters.  [cur] is
    the run being read, in reverse. *)
Fixpoint split_from (cur : str) (s : str) : list str :=
  match s with
  | [] => match cur with [] => [] | _ => [rev cur] end
  | c :: s' =>
      if isspace c
      then match cur with
           | [] => split_from [] s'
           | _ => rev cur :: split_from [] s'
           end
      else split_from (c :: cur) s'
  end.

Definition split (s : str) : list str := split_from [] s.

(** [s.startswith(p)] *)
Fixpoint startswith (s p : str) {struct p} : bool :=
  match p, s with
  | [], _ => true
  | _ :: _, [] => false
  | a :: p', b :: s' => if ascii_dec a b then startswith s' p' else false
  end.

(** [s.startswith((p1, ..., pn))] *)
Definition startswith_any (s : str) (ps : list str) : bool :=
  existsb (startswith s) ps.

(** [needle in hay] for two strings. *)
Fixpoint contains (hay needle : str) : bool :=
  startswith hay needle ||
  match hay with
  | [] => false
  | _ :: hay' => contains hay' needle
  end.

(** [x in S] for a set of strings. *)
Definition mem (x : str) (S : list str) : bool := existsb (str_eqb x) S.

(** The list [ks] without the string [k]. *)
Definition others (k : str) (ks : list str) : list str :=
  filter (fun x => negb (str_eqb x k)) ks.

End Py.

(** ** [config.SecurityMode] *)

Inductive SecurityMode : Type :=
| READONLY
| LIMITED_WRITE
| FULL_ACCESS.

(** ** The character set of the interpreter *)

Module Charset.

(** What the validator uses of the characters of a [str]: equality, the
    whitespace class of [str.strip], [str.split] and [\s], the word class
    of [\w] and [\b], [str.upper], and the characters of the ASCII literals
    of the source. *)
Record t : Type := mk {
  char : Type;
  char_dec : forall a b : char, {a = b} + {a <> b};
  isspace : char -> bool;
  isword : char -> bool;
  upper : list char -> list char;
  chr : ascii -> char
}.

(** The upper-case ASCII letters are word characters. *)
Definition letters_are_words (U : t) : Prop :=
  forall c : ascii, Py.isupper c = true -> isword U (chr U c) = true.

(** The ASCII characters with the classes and the upper-casing of [Py]. *)
Definition ASCII : t :=
  mk ascii_dec Py.isspace Py.isword Py.upper (fun c : ascii => c).

End Charset.

(** ** The validator on text over any character set *)

Module Text.

Section Text.
Variable U : Charset.t.

Definition char : Type := Charset.char U.

(** A [str]: a sequence of characters. *)
Definition str := list char.

(** A literal of the source, all of whose characters are ASCII. *)
Definition lit (s : string) : str :=
  map (Charset.chr U) (list_ascii_of_string s).

Definition str_eq_dec : forall a b : str, {a = b} + {a <> b} :=
  list_eq_dec (Charset.char_dec U).

Definition str_eqb (a b : str) : bool :=
  if str_eq_dec a b then true else false.

(** [s.lstrip()] *)
Fixpoint lstrip (s : str) : str :=
  match s with
  | [] => []
  | c :: s' => if Charset.isspace U c then lstrip s' else s
  end.

(** [s.rstrip()] *)
Definition rstrip (s : str) : str := rev (lstrip (rev s)).

(** [s.strip()] *)
Definition strip (s : str) : str := rstrip (lstrip s).

(** [s.split()]: the maximal runs of non-whitespace characters.  [cur] is
    the run being read, in reverse. *)
Fixpoint split_from (cur : str) (s : str) : list str :=
  match s with
  | [] => match cur with [] => [] | _ => [rev cur] end
  | c :: s' =>
      if Charset.isspace U c
      then match cur with
           | [] => split_from [] s'
           | _ => rev cur :: split_from [] s'
           end
      else split_from (c :: cur) s'
  end.

Definition split (s : str) : list str := split_from [] s.

(** [s.startswith(p)] *)
Fixpoint startswith (s p : str) {struct p} : bool :=
  match p, s with
  | [], _ => true
  | _ :: _, [] => false
  | a :: p', b :: s' =>
      if Charset.char_dec U a b then startswith s' p' else false
  end.

(** [needle in hay] *)
Fixpoint contains (hay needle : str) : bool :=
  startswith hay needle ||
  match hay with
  | [] => false
  | _ :: hay' => contains hay' needle
  end.

(** [x in S] for a set of strings. *)
Definition mem (x : str) (S : list str) : bool := existsb (str_eqb x) S.

(** *** The fragment of [re] used by the validator *)

(** A pattern is a sequence of atoms: [\b], a literal word, or [c+] for a
    character class [c] ([\s+] and [\w+]). *)
Inductive atom : Type :=
| Bnd : atom
| Lit : str -> atom
| Plus : (char -> bool) -> atom.

Definition regex := list atom.

Definition word_at (c : option char) : bool :=
  match c with
  | None => false
  | Some a => Charset.isword U a
  end.

(** [\b] holds between [prev] and the head of [s] when exactly one of them
    is a word character. *)
Definition at_boundary (prev : option char) (s : str) : bool :=
  xorb (word_at prev) (word_at (hd_error s)).

(** Consume the literal [w] at the head of [s]. *)
Fixpoint eat (w : str) (prev : option char) (s : str)
  : option (option char * str) :=
  match w with
  | [] => Some (prev, s)
  | a :: w' =>
      match s with
      | [] => None
      | b :: s' =>
          if Charset.char_dec U a b then eat w' (Some b) s' else None
      end
  end.

(** [c+] followed by the continuation [k]: greedy, with backtracking.  [k]
    receives the last character read and the rest of the text. *)
Fixpoint plus (cls : char -> bool) (k : char -> str -> bool) (s : str)
  : bool :=
  match s with
  | [] => false
  | c :: s' => cls c && (plus cls k s' || k c s')
  end.

(** Match the pattern at the current position, [prev] being the character
    just before it. *)
Fixpoint match_here (p : regex) (prev : option char) (s : str) : bool :=
  match p with
  | [] => true
  | Bnd :: p' => at_boundary prev s && match_here p' prev s
  | Lit w :: p' =>
      match eat w prev s with
      | Some (prev', s') => match_here p' prev' s'
      | None => false
      end
  | Plus cls :: p' => plus cls (fun c s' => match_here p' (Some c) s') s
  end.

Fixpoint search_from (p : regex) (prev : option char) (s : str) : bool :=
  match_here p prev s ||
  match s with
  | [] => false
  | c :: s' => search_from p (Some c) s'
  end.

(** The truth value of [re.search(p, s)]. *)
Definition search (p : regex) (s : str) : bool := search_from p None s.

(** The character in front of the position reached after reading [w], when
    [prev] was in front before. *)
Fixpoint last_of (w : str) (prev : option char) : option char :=
  match w with
  | [] => prev
  | a :: w' => last_of w' (Some a)
  end.

(** What it means for a pattern to match at a position: [prev] is the
    character before it and [s] the text from it on. *)
Fixpoint matches (p : regex) (prev : option char) (s : str) : Prop :=
  match p with
  | [] => True
  | Bnd :: p' => at_boundary prev s = true /\ matches p' prev s
  | Lit w :: p' =>
      exists rest, s = w ++ rest /\ matches p' (last_of w prev) rest
  | Plus cls :: p' =>
      exists c run rest,
        s = (c :: run) ++ rest /\ forallb cls (c :: run) = true /\
        matches p' (last_of (c :: run) prev) rest
  end.

(** The pattern matches somewhere in the text. *)
Definition occurs (p : regex) (text : str) : Prop :=
  exists pre post, text = pre ++ post /\ matches p (last_of pre None) post.

(** *** [class SQLValidator] *)

Definition READONLY_OPERATIONS : list str :=
  [lit "SELECT"; lit "WITH"; lit "SHOW"; lit "DESCRIBE"; lit "EXPLAIN";
   lit "ANALYZE"].

Definition WRITE_OPERATIONS : list str := [lit "INSERT"; lit "UPDATE"].

Definition DANGEROUS_OPERATIONS : list str :=
  [lit "DELETE"; lit "DROP"; lit "CREATE"; lit "ALTER"; lit "TRUNCATE";
   lit "GRANT"; lit "REVOKE"].

Definition _extract_first_keyword (sql_upper : str) : str :=
  match split sql_upper with
  | [] => []
  | w :: _ => w
  end.

(** [\bW1\s+W2\b] *)
Definition clause (w1 w2 : string) : regex :=
  [Bnd; Lit (lit w1); Plus (Charset.isspace U); Lit (lit w2); Bnd].

Definition dangerous_patterns : list regex :=
  [clause "DROP" "TABLE";
   clause "TRUNCATE" "TABLE";
   clause "DELETE" "FROM";
   clause "INSERT" "INTO";
   [Bnd; Lit (lit "UPDATE"); Plus (Charset.isspace U);
    Plus (Charset.isword U); Plus (Charset.isspace U); Lit (lit "SET"); Bnd];
   clause "CREATE" "TABLE";
   clause "ALTER" "TABLE"].

Definition _validate_readonly (first_keyword sql_upper : str) : bool :=
  if negb (mem first_keyword READONLY_OPERATIONS) then false
  else if str_eqb first_keyword (lit "SELECT")
  then negb (existsb (fun pattern => search pattern sql_upper)
               dangerous_patterns)
  else
    let forbidden_in_readonly := WRITE_OPERATIONS ++ DANGEROUS_OPERATIONS in
    negb (existsb (fun forbidden => contains sql_upper forbidden)
            forbidden_in_readonly).

Definition _validate_limited_write (first_keyword sql_upper : str) : bool :=
  let allowed_operations := READONLY_OPERATIONS ++ WRITE_OPERATIONS in
  if negb (mem first_keyword allowed_operations) then false
  else negb (existsb (fun dangerous => contains sql_upper dangerous)
               DANGEROUS_OPERATIONS).

Definition validate_sql (sql : str) (security_mode : SecurityMode) : bool :=
  let sql_upper := strip (Charset.upper U sql) in
  let first_keyword := _extract_first_keyword sql_upper in
  match security_mode with
  | READONLY => _validate_readonly first_keyword sql_upper
  | LIMITED_WRITE => _validate_limited_write first_keyword sql_upper
  | FULL_ACCESS => true
  end.

(** *** The tier policies in the words of the specification *)

(** The keyword sets of the glossary. *)
Definition Read : list str :=
  [lit "SELECT"; lit "WITH"; lit "SHOW"; lit "DESCRIBE"; lit "EXPLAIN";
   lit "ANALYZE"].
Definition Write : list str := [lit "INSERT"; lit "UPDATE"].
Definition Dangerous : list str :=
  [lit "DELETE"; lit "DROP"; lit "CREATE"; lit "ALTER"; lit "TRUNCATE";
   lit "GRANT"; lit "REVOKE"].

(** The upper-cased, trimmed text. *)
Definition normalized (sql : str) : str := strip (Charset.upper U sql).

(** Blank or whitespace-only. *)
Definition blank (s : str) : Prop := forallb (Charset.isspace U) s = true.

Definition solid (s : str) : Prop :=
  forallb (fun c => negb (Charset.isspace U c)) s = true.

(** [kw] is the first whitespace-delimited token of [text]; it is empty
    when the text has no token. *)
Definition first_token (text kw : str) : Prop :=
  (blank text /\ kw = []) \/
  (exists ws rest,
      text = ws ++ kw ++ rest /\ blank ws /\ kw <> [] /\ solid kw /\
      blank (firstn 1 rest)).

(** The keyword occurs somewhere in the text. *)
Definition keyword_occurs (kw text : str) : Prop :=
  exists pre post, text = pre ++ kw ++ post.

(** One or more whitespace characters. *)
Definition gap (ws : str) : Prop := ws <> [] /\ blank ws.

(** The words [w1 w2], separated by whitespace, occur in the text as whole
    words. *)
Definition phrase_occurs (w1 w2 : string) (text : str) : Prop :=
  exists pre ws post,
    text = pre ++ lit w1 ++ ws ++ lit w2 ++ post /\ gap ws /\
    word_at (last_of pre None) = false /\ word_at (hd_error post) = false.

(** [UPDATE <word> SET] occurs in the text. *)
Definition update_set_occurs (text : str) : Prop :=
  exists pre ws1 ident ws2 post,
    text = pre ++ lit "UPDATE" ++ ws1 ++ ident ++ ws2 ++ lit "SET" ++ post /\
    gap ws1 /\ ident <> [] /\ forallb (Charset.isword U) ident = true /\
    gap ws2 /\
    word_at (last_of pre None) = false /\ word_at (hd_error post) = false.

(** One of the embedded dangerous clauses occurs in the text. *)
Definition embedded_clause (text : str) : Prop :=
  phrase_occurs "DROP" "TABLE" text \/
  phrase_occurs "TRUNCATE" "TABLE" text \/
  phrase_occurs "DELETE" "FROM" text \/
  phrase_occurs "INSERT" "INTO" text \/
  update_set_occurs text \/
  phrase_occurs "CREATE" "TABLE" text \/
  phrase_occurs "ALTER" "TABLE" text.

(** Acceptance under the tier [ReadOnly]. *)
Definition readonly_accepts (sql : str) : Prop :=
  exists kw,
    first_token (normalized sql) kw /\ In kw Read /\
    (kw = lit "SELECT" -> ~ embedded_clause (normalized sql)) /\
    (kw <> lit "SELECT" ->
     forall w, In w (Write ++ Dangerous) ->
               ~ keyword_occurs w (normalized sql)).

(** Acceptance under the tier [LimitedWrite]. *)
Definition limited_write_accepts (sql : str) : Prop :=
  exists kw,
    first_token (normalized sql) kw /\ In kw (Read ++ Write) /\
    forall w, In w Dangerous -> ~ keyword_occurs w (normalized sql).

End Text.

Arguments word_at [U] c.
Arguments Plus [U] _.

End Text.

(** ** The fragment of [re] used by the validator, on ASCII text *)

Module Re.
Import Py.

(** The patterns of [Text] over the ASCII characters: [\b], a literal word,
    or [c+] for a character class [c]. *)
Definition atom : Type := Text.atom Charset.ASCII.

Definition Bnd : atom := Text.Bnd Charset.ASCII.

Definition Lit (w : str) : atom := Text.Lit (U := Charset.ASCII) w.

Definition Plus (cls : ascii -> bool) : atom :=
  Text.Plus (U := Charset.ASCII) cls.

Definition regex := list atom.

Definition word_at (c : option ascii) : bool :=
  Text.word_at (U := Charset.ASCII) c.

Definition last_of (w : str) (prev : option ascii) : option ascii :=
  Text.last_of (U := Charset.ASCII) w prev.

(** The truth value of [re.search(p, s)]. *)
Definition search (p : regex) (s : str) : bool :=
  Text.search (U := Charset.ASCII) p s.

End Re.

(** ** [class SQLValidator] *)

Module SQLValidator.
Import Py Re.

Definition READONLY_OPERATIONS : list str :=
  [lit "SELECT"; lit "WITH"; lit "SHOW"; lit "DESCRIBE"; lit "EXPLAIN";
   lit "ANALYZE"].

Definition WRITE_OPERATIONS : list str := [lit "INSERT"; lit "UPDATE"].

Definition DANGEROUS_OPERATIONS : list str :=
  [lit "DELETE"; lit "DROP"; lit "CREATE"; lit "ALTER"; lit "TRUNCATE";
   lit "GRANT"; lit "REVOKE"].

Definition _extract_first_keyword (sql_upper : str) : str :=
  match split sql_upper with
  | [] => []
  | w :: _ => w
  end.

(** [\bW1\s+W2\b] *)
Definition clause (w1 w2 : string) : regex :=
  [Bnd; Lit (lit w1); Plus isspace; Lit (lit w2); Bnd].

Definition dangerous_patterns : list regex :=
  [clause "DROP" "TABLE";
   clause "TRUNCATE" "TABLE";
   clause "DELETE" "FROM";
   clause "INSERT" "INTO";
   [Bnd; Lit (lit "UPDATE"); Plus isspace; Plus isword; Plus isspace;
    Lit (lit "SET"); Bnd];
   clause "CREATE" "TABLE";
   clause "ALTER" "TABLE"].

Definition _validate_readonly (first_keyword sql_upper : str) : bool :=
  if negb (mem first_keyword READONLY_OPERATIONS) then false
  else if str_eqb first_keyword (lit "SELECT")
  then negb (existsb (fun pattern => search pattern sql_upper)
               dangerous_patterns)
  else
    let forbidden_in_readonly := WRITE_OPERATIONS ++ DANGEROUS_OPERATIONS in
    negb (existsb (fun forbidden => contains sql_upper forbidden)
            forbidden_in_readonly).

Definition _validate_limited_write (first_keyword sql_upper : str) : bool :=
  let allowed_operations := READONLY_OPERATIONS ++ WRITE_OPERATIONS in
  if negb (mem first_keyword allowed_operations) then false
  else negb (existsb (fun dangerous => contains sql_upper dangerous)
               DANGEROUS_OPERATIONS).

Definition validate_sql (sql : str) (security_mode : SecurityMode) : bool :=
  let sql_upper := strip (upper sql) in
  let first_keyword := _extract_first_keyword sql_upper in
  match security_mode with
  | READONLY => _validate_readonly first_keyword sql_upper
  | LIMITED_WRITE => _validate_limited_write first_keyword sql_upper
  | FULL_ACCESS => true
  end.

Definition get_error_message (sql : str) (security_mode : SecurityMode)
  : str :=
  let sql_upper := strip (upper sql) in
  let first_keyword := _extract_first_keyword sql_upper in
  match security_mode with
  | READONLY =>
      if mem first_keyword WRITE_OPERATIONS
      then lit "只读模式下禁止写入操作: " ++ first_keyword
      else if mem first_keyword DANGEROUS_OPERATIONS
      then lit "只读模式下禁止危险操作: " ++ first_keyword
      else lit "只读模式下不支持的操作: " ++ first_keyword
  | LIMITED_WRITE =>
      if mem first_keyword DANGEROUS_OPERATIONS
      then lit "限制写入模式下禁止危险操作: " ++ first_keyword
      else lit "限制写入模式下不支持的操作: " ++ first_keyword
  | FULL_ACCESS => lit "操作被安全策略禁止"
  end.

End SQLValidator.

(** ** [hashlib.md5] (RFC 1321) on byte strings *)

Module Hashlib.
Import Py.

Local Open Scope N_scope.

Definition w32 (x : N) : N := N.land x 0xffffffff.
Definition add32 (a b : N) : N := w32 (a + b).
Definition not32 (a : N) : N := N.lxor (w32 a) 0xffffffff.
Definition rotl32 (x n : N) : N :=
  w32 (N.lor (N.shiftl x n) (N.shiftr (w32 x) (32 - n))).

Definition shifts : list N :=
  [7; 12; 17; 22; 7; 12; 17; 22; 7; 12; 17; 22; 7; 12; 17; 22;
   5; 9; 14; 20; 5; 9; 14; 20; 5; 9; 14; 20; 5; 9; 14; 20;
   4; 11; 16; 23; 4; 11; 16; 23; 4; 11; 16; 23; 4; 11; 16; 23;
   6; 10; 15; 21; 6; 10; 15; 21; 6; 10; 15; 21; 6; 10; 15; 21].

Definition sines : list N :=
  [0xd76aa478; 0xe8c7b756; 0x242070db; 0xc1bdceee;
   0xf57c0faf; 0x4787c62a; 0xa8304613; 0xfd469501;
   0x698098d8; 0x8b44f7af; 0xffff5bb1; 0x895cd7be;
   0x6b901122; 0xfd987193; 0xa679438e; 0x49b40821;
   0xf61e2562; 0xc040b340; 0x265e5a51; 0xe9b6c7aa;
   0xd62f105d; 0x02441453; 0xd8a1e681; 0xe7d3fbc8;
   0x21e1cde6; 0xc33707d6; 0xf4d50d87; 0x455a14ed;
   0xa9e3e905; 0xfcefa3f8; 0x676f02d9; 0x8d2a4c8a;
   0xfffa3942; 0x8771f681; 0x6d9d6122; 0xfde5380c;
   0xa4beea44; 0x4bdecfa9; 0xf6bb4b60; 0xbebfbc70;
   0x289b7ec6; 0xeaa127fa; 0xd4ef3085; 0x04881d05;
   0xd9d4d039; 0xe6db99e5; 0x1fa27cf8; 0xc4ac5665;
   0xf4292244; 0x432aff97; 0xab9423a7; 0xfc93a039;
   0x655b59c3; 0x8f0ccc92; 0xffeff47d; 0x85845dd1;
   0x6fa87e4f; 0xfe2ce6e0; 0xa3014314; 0x4e0811a1;
   0xf7537e82; 0xbd3af235; 0x2ad7d2bb; 0xeb86d391].

(** The little-endian bytes of [x], [n] of them. *)
Fixpoint le_bytes (n : nat) (x : N) : list N :=
  match n with
  | O => []
  | S n' => N.land x 0xff :: le_bytes n' (N.shiftr x 8)
  end.

Fixpoint of_le_bytes (bs : list N) : N :=
  match bs with
  | [] => 0
  | b :: bs' => b + 256 * of_le_bytes bs'
  end.

(** Message padding: the bit 1, zeros up to 56 modulo 64, the bit length. *)
Definition pad (msg : list N) : list N :=
  let len := List.length msg in
  let zeros := ((64 + 55 - len mod 64) mod 64)%nat in
  msg ++ [0x80] ++ repeat 0 zeros
      ++ le_bytes 8 (N.land (8 * N.of_nat len) 0xffffffffffffffff).

(** Cut a list into groups of [k]; [fuel] bounds the number of groups. *)
Fixpoint groups {A : Type} (k fuel : nat) (l : list A) : list (list A) :=
  match fuel with
  | O => []
  | S fuel' =>
      match l with
      | [] => []
      | _ => firstn k l :: groups k fuel' (skipn k l)
      end
  end.

Record state : Type := mk_state { sa : N; sb : N; sc : N; sd : N }.

Definition initial : state :=
  mk_state 0x67452301 0xefcdab89 0x98badcfe 0x10325476.

Definition round (m : list N) (st : state) (i : nat) : state :=
  let '(mk_state a b c d) := st in
  let '(f, g) :=
    if (i <? 16)%nat then
      (N.lor (N.land b c) (N.land (not32 b) d), i)
    else if (i <? 32)%nat then
      (N.lor (N.land d b) (N.land (not32 d) c), ((5 * i + 1) mod 16)%nat)
    else if (i <? 48)%nat then
      (N.lxor (N.lxor b c) d, ((3 * i + 5) mod 16)%nat)
    else
      (N.lxor c (N.lor b (not32 d)), ((7 * i) mod 16)%nat) in
  let f' := add32 (add32 (add32 f a) (nth i sines 0)) (nth g m 0) in
  mk_state d (add32 b (rotl32 f' (nth i shifts 0))) b c.

Definition process (st : state) (chunk : list N) : state :=
  let m := map of_le_bytes (groups 4 16 chunk) in
  let '(mk_state a b c d) := fold_left (round m) (seq 0 64) st in
  mk_state (add32 (sa st) a) (add32 (sb st) b)
           (add32 (sc st) c) (add32 (sd st) d).

Definition digest (msg : list N) : list N :=
  let padded := pad msg in
  let st := fold_left process (groups 64 (List.length padded) padded) initial in
  le_bytes 4 (sa st) ++ le_bytes 4 (sb st)
    ++ le_bytes 4 (sc st) ++ le_bytes 4 (sd st).

Definition hex_digit (n : N) : ascii :=
  if n <? 10 then ascii_of_N (48 + n) else ascii_of_N (87 + n).

Definition hex (bs : list N) : str :=
  flat_map (fun b => [hex_digit (N.shiftr b 4); hex_digit (N.land b 0xf)]) bs.

(** [s.encode('utf-8')] on ASCII text. *)
Definition encode (s : str) : list N := map N_of_ascii s.

(** [hashlib.md5(s.encode('utf-8')).hexdigest()] *)
Definition md5_hexdigest (s : str) : str := hex (digest (encode s)).

End Hashlib.

Arguments Hashlib.md5_hexdigest : simpl never.

(** ** Python dictionaries, in insertion order *)

Module Dict.
Import Py.

Section Dict.
Variable V : Type.

Definition dict := list (str * V).

Definition empty : dict := [].

(** [d.get(k)] *)
Fixpoint get (d : dict) (k : str) : option V :=
  match d with
  | [] => None
  | (k', v) :: d' => if str_eqb k' k then Some v else get d' k
  end.

(** [k in d] *)
Definition mem (d : dict) (k : str) : bool :=
  match get d k with
  | Some _ => true
  | None => false
  end.

(** [d[k] = v] *)
Fixpoint set (d : dict) (k : str) (v : V) : dict :=
  match d with
  | [] => [(k, v)]
  | (k', v') :: d' =>
      if str_eqb k' k then (k', v) :: d' else (k', v') :: set d' k v
  end.

(** [del d[k]] *)
Definition del (d : dict) (k : str) : dict :=
  filter (fun kv => negb (str_eqb (fst kv) k)) d.

(** [d.keys()] *)
Definition keys (d : dict) : list str := map fst d.

(** [len(d)] *)
Definition len (d : dict) : Z := Z.of_nat (List.length d).

End Dict.

(** [min(k0 :: ks, key=f)]: the first of the elements whose key is least;
    a later element replaces the best one only when its key is strictly
    less.  [f] is the lookup [d[k]] in the dictionary whose keys are
    iterated, so it is defined on each of them. *)
Fixpoint min_by (f : str -> option Z) (best : str) (ks : list str) : str :=
  match ks with
  | [] => best
  | k :: ks' =>
      match f k, f best with
      | Some tk, Some tb => if (tk <? tb)%Z then min_by f k ks' else min_by f best ks'
      | _, _ => min_by f best ks'
      end
  end.

End Dict.

(** ** Result lists on the heap *)

Module Heap.
Import Py.

Inductive value : Type :=
| VNone : value
| VInt : Z -> value
| VStr : str -> value.

(** A row mapping [Dict[str, Any]]. *)
Definition row := list (str * value).

(** The address of a list object. *)
Definition ref := nat.

Definition heap := list (list row).

(** A fresh list object holding [rows]. *)
Definition alloc (h : heap) (rows : list row) : ref * heap :=
  (List.length h, h ++ [rows]).

Definition read (h : heap) (r : ref) : option (list row) := nth_error h r.

(** In-place mutation of the list object at [r] ([l[:] = rows],
    [l.append(x)], [l.clear()], ...). *)
Fixpoint write (h : heap) (r : ref) (rows : list row) : heap :=
  match h, r with
  | [], _ => []
  | _ :: h', O => rows :: h'
  | x :: h', S r' => x :: write h' r' rows
  end.

End Heap.

(** ** [class QueryCache] *)

Module QueryCache.
Import Py.

Local Open Scope Z_scope.

(** The value stored under a key: the dictionary with the fields
    ['data'], ['timestamp'], ['sql'] and ['schema']. *)
Record entry : Type := mk_entry {
  data : Heap.ref;
  timestamp : Z;
  sql : str;
  schema : option str
}.

Record t : Type := mk {
  cache : Dict.dict entry;
  max_size : Z;
  ttl : Z;
  access_times : Dict.dict Z
}.

(** [QueryCache(max_size, ttl)] *)
Definition init (max_size ttl : Z) : t :=
  mk (Dict.empty entry) max_size ttl (Dict.empty Z).

(** [schema or ''] *)
Definition schema_or_empty (schema : option str) : str :=
  match schema with
  | Some (c :: s) => c :: s
  | _ => []
  end.

Definition _generate_key (sql : str) (schema : option str) : str :=
  let key_data := sql ++ lit "_" ++ schema_or_empty schema in
  Hashlib.md5_hexdigest key_data.

Definition _remove (key : str) (c : t) : t :=
  let cache' := if Dict.mem (cache c) key then Dict.del (cache c) key
                else cache c in
  let access' := if Dict.mem (access_times c) key
                 then Dict.del (access_times c) key
                 else access_times c in
  mk cache' (max_size c) (ttl c) access'.

(** [min(self.access_times.keys(), key=lambda k: self.access_times[k])] *)
Definition oldest_key (c : t) : option str :=
  match Dict.keys (access_times c) with
  | [] => None
  | k0 :: ks => Some (Dict.min_by (Dict.get (access_times c)) k0 ks)
  end.

Definition _evict_oldest (c : t) : t :=
  match oldest_key c with
  | None => c
  | Some k => _remove k c
  end.

(** [get(sql, schema)]; [now1] is the clock at the expiry check, [now2] at
    the update of the access time. *)
Definition get (now1 now2 : Z) (sql : str) (schema : option str) (c : t)
  : option Heap.ref * t :=
  let key := _generate_key sql schema in
  match Dict.get (cache c) key with
  | None => (None, c)
  | Some e =>
      if now1 - timestamp e >? ttl c then (None, _remove key c)
      else (Some (data e),
            mk (cache c) (max_size c) (ttl c)
               (Dict.set (access_times c) key now2))
  end.

(** [set(sql, data, schema)]; [now1] is the clock read for ['timestamp'],
    [now2] the one read for the access time. *)
Definition set (now1 now2 : Z) (sql : str) (data : Heap.ref)
    (schema : option str) (c : t) : t :=
  let key := _generate_key sql schema in
  let c1 := if Dict.len (cache c) >=? max_size c then _evict_oldest c
            else c in
  mk (Dict.set (cache c1) key (mk_entry data now1 sql schema))
     (max_size c1) (ttl c1)
     (Dict.set (access_times c1) key now2).

Definition clear (c : t) : t :=
  mk (Dict.empty entry) (max_size c) (ttl c) (Dict.empty Z).

Record stats : Type := mk_stats {
  cache_size : Z;
  stats_max_size : Z;
  stats_ttl : Z;
  entries : list str
}.

Definition get_stats (c : t) : stats :=
  mk_stats (Dict.len (cache c)) (max_size c) (ttl c) (Dict.keys (cache c)).

(** The public operations, as data. *)
Inductive op : Type :=
| OpGet (now1 now2 : Z) (sql : str) (schema : option str)
| OpSet (now1 now2 : Z) (sql : str) (data : Heap.ref) (schema : option str)
| OpClear.

Definition step (c : t) (o : op) : t :=
  match o with
  | OpGet now1 now2 sql schema => snd (get now1 now2 sql schema c)
  | OpSet now1 now2 sql data schema => set now1 now2 sql data schema c
  | OpClear => clear c
  end.

(** The cache after a sequence of operations. *)
Definition run (ops : list op) (c : t) : t := fold_left step ops c.

(** One call of [set] with its clock readings. *)
Record request : Type := mk_request {
  r_sql : str;
  r_schema : option str;
  r_data : Heap.ref;
  r_stamp : Z;
  r_touch : Z
}.

Definition set_op (r : request) : op :=
  OpSet (r_stamp r) (r_touch r) (r_sql r) (r_data r) (r_schema r).

Definition key_of (r : request) : str := _generate_key (r_sql r) (r_schema r).

Definition entry_of (r : request) : entry :=
  mk_entry (r_data r) (r_stamp r) (r_sql r) (r_schema r).

End QueryCache.

Arguments QueryCache._generate_key : simpl never.

(** ** [class DamengDatabase]: [execute_query] *)

Module DamengDatabase.
Import Py.

(** The fields of [DamengConfig] read by [execute_query]. *)
Record config : Type := mk_config {
  security_mode : SecurityMode;
  max_result_rows : Z
}.

(** [self]: the cache, and the heap the result lists live on. *)
Record t : Type := mk {
  query_cache : QueryCache.t;
  heap : Heap.heap
}.

(** What the driver answers to [cur.execute(sql, params)]: an error raised
    by [connect], [execute] or [fetchall], or the rows of [fetchall] (after
    the conversion of [Decimal] values, lines 298-330) and [cur.rowcount]. *)
Inductive db_outcome : Type :=
| DbError : db_outcome
| DbDone : list Heap.row -> Z -> db_outcome.

Inductive exn : Type :=
| ValueError : str -> exn
| DriverError : exn.

Inductive result : Type :=
| Raise : exn -> result
| Return : Heap.ref -> result.

(** The calls [execute_query] makes on its collaborators, in order. *)
Inductive event : Type :=
| CacheGet : str -> event
| DbExecute : str -> event
| CacheSet : str -> Heap.ref -> event.

(** The four clock readings of one call: two in [get], two in [set]. *)
Record clock : Type := mk_clock {
  get_check : Z;
  get_touch : Z;
  set_stamp : Z;
  set_touch : Z
}.

Definition query_prefixes : list str :=
  [lit "SELECT"; lit "WITH"; lit "SHOW"; lit "DESCRIBE"; lit "EXPLAIN"].

(** [sql.upper().strip().startswith(('SELECT', 'WITH', 'SHOW', 'DESCRIBE',
    'EXPLAIN'))] *)
Definition is_query (sql : str) : bool :=
  startswith_any (strip (upper sql)) query_prefixes.

(** [l[:n]] *)
Definition slice_to (n : Z) (l : list Heap.row) : list Heap.row :=
  if (0 <=? n)%Z then firstn (Z.to_nat n) l
  else firstn (Z.to_nat (Z.of_nat (List.length l) + n)) l.

Definition truncate (cfg : config) (rows : list Heap.row) : list Heap.row :=
  if (Z.of_nat (List.length rows) >? max_result_rows cfg)%Z
  then slice_to (max_result_rows cfg) rows
  else rows.

Definition affected (n : Z) : list Heap.row :=
  [[(lit "affected_rows", Heap.VInt n);
    (lit "status", Heap.VStr (lit "success"))]].

Definition execute_query (cfg : config) (clk : clock) (db : str -> db_outcome)
    (sql : str) (use_cache : bool) (self : t)
  : result * t * list event :=
  if negb (SQLValidator.validate_sql sql (security_mode cfg)) then
    let error_msg := SQLValidator.get_error_message sql (security_mode cfg) in
    (Raise (ValueError (lit "SQL操作被安全策略禁止: " ++ error_msg)), self, [])
  else
    let '(cached_result, qc, tr) :=
      if use_cache && is_query sql then
        let '(r, qc) := QueryCache.get (get_check clk) (get_touch clk)
                          sql None (query_cache self) in
        (r, qc, [CacheGet sql])
      else (None, query_cache self, []) in
    match cached_result with
    | Some r => (Return r, mk qc (heap self), tr)
    | None =>
        match db sql with
        | DbError =>
            (Raise DriverError, mk qc (heap self), tr ++ [DbExecute sql])
        | DbDone fetched rowcount =>
            if is_query sql then
              let '(result_dicts, h) :=
                Heap.alloc (heap self) (truncate cfg fetched) in
              if use_cache then
                (Return result_dicts,
                 mk (QueryCache.set (set_stamp clk) (set_touch clk)
                       sql result_dicts None qc) h,
                 tr ++ [DbExecute sql; CacheSet sql result_dicts])
              else
                (Return result_dicts, mk qc h, tr ++ [DbExecute sql])
            else
              let '(r, h) := Heap.alloc (heap self) (affected rowcount) in
              (Return r, mk qc h, tr ++ [DbExecute sql])
        end
    end.

End DamengDatabase.

(** ** The tier policies in the words of the specification, on ASCII text *)

Module Policy.
Import Py Re.

(** The keyword sets of the glossary. *)
Definition Read : list str :=
  [lit "SELECT"; lit "WITH"; lit "SHOW"; lit "DESCRIBE"; lit "EXPLAIN";
   lit "ANALYZE"].
Definition Write : list str := [lit "INSERT"; lit "UPDATE"].
Definition Dangerous : list str :=
  [lit "DELETE"; lit "DROP"; lit "CREATE"; lit "ALTER"; lit "TRUNCATE";
   lit "GRANT"; lit "REVOKE"].

(** The upper-cased, trimmed text. *)
Definition normalized (sql : str) : str := strip (upper sql).

(** Blank or whitespace-only. *)
Definition blank (s : str) : Prop := forallb isspace s = true.

Definition solid (s : str) : Prop :=
  forallb (fun c => negb (isspace c)) s = true.

(** [kw] is the first whitespace-delimited token of [text]; it is empty
    when the text has no token. *)
Definition first_token (text kw : str) : Prop :=
  (blank text /\ kw = []) \/
  (exists ws rest,
      text = ws ++ kw ++ rest /\ blank ws /\ kw <> [] /\ solid kw /\
      blank (firstn 1 rest)).

(** The keyword occurs somewhere in the text. *)
Definition keyword_occurs (kw text : str) : Prop :=
  exists pre post, text = pre ++ kw ++ post.

(** One or more whitespace characters. *)
Definition gap (ws : str) : Prop := ws <> [] /\ blank ws.

(** The words [w1 w2], separated by whitespace, occur in the text as whole
    words. *)
Definition phrase_occurs (w1 w2 : string) (text : str) : Prop :=
  exists pre ws post,
    text = pre ++ lit w1 ++ ws ++ lit w2 ++ post /\ gap ws /\
    word_at (last_of pre None) = false /\ word_at (hd_error post) = false.

(** [UPDATE <word> SET] occurs in the text. *)
Definition update_set_occurs (text : str) : Prop :=
  exists pre ws1 ident ws2 post,
    text = pre ++ lit "UPDATE" ++ ws1 ++ ident ++ ws2 ++ lit "SET" ++ post /\
    gap ws1 /\ ident <> [] /\ forallb isword ident = true /\ gap ws2 /\
    word_at (last_of pre None) = false /\ word_at (hd_error post) = false.

(** One of the embedded dangerous clauses occurs in the text. *)
Definition embedded_clause (text : str) : Prop :=
  phrase_occurs "DROP" "TABLE" text \/
  phrase_occurs "TRUNCATE" "TABLE" text \/
  phrase_occurs "DELETE" "FROM" text \/
  phrase_occurs "INSERT" "INTO" text \/
  update_set_occurs text \/
  phrase_occurs "CREATE" "TABLE" text \/
  phrase_occurs "ALTER" "TABLE" text.

(** Acceptance under the tier [ReadOnly]. *)
Definition readonly_accepts (sql : str) : Prop :=
  exists kw,
    first_token (normalized sql) kw /\ In kw Read /\
    (kw = lit "SELECT" -> ~ embedded_clause (normalized sql)) /\
    (kw <> lit "SELECT" ->
     forall w, In w (Write ++ Dangerous) ->
               ~ keyword_occurs w (normalized sql)).

(** Acceptance under the tier [LimitedWrite]. *)
Definition limited_write_accepts (sql : str) : Prop :=
  exists kw,
    first_token (normalized sql) kw /\ In kw (Read ++ Write) /\
    forall w, In w Dangerous -> ~ keyword_occurs w (normalized sql).

End Policy.

(** ** The cache: invariant and vocabulary of the statements *)

Module CacheSpec.
Import Py QueryCache.

Local Open Scope Z_scope.

(** The two dictionaries hold the same keys, in the same order. *)
Definition wf (c : t) : Prop :=
  Dict.keys (cache c) = Dict.keys (access_times c) /\
  NoDup (Dict.keys (cache c)).

Definition size (c : t) : Z := Dict.len (cache c).

(** The time of the last access of a key held by the cache. *)
Definition last_access (c : t) (k : str) : Z :=
  match Dict.get (access_times c) k with
  | Some t => t
  | None => 0
  end.

(** [k] is the key of least last access, the first such key in the
    iteration order of [access_times]. *)
Definition least_recent (c : t) (k : str) : Prop :=
  exists before after,
    Dict.keys (access_times c) = before ++ k :: after /\
    (forall x, In x before -> last_access c k < last_access c x) /\
    (forall x, In x after -> last_access c k <= last_access c x).

(** The dictionaries built by inserting the requests in order. *)
Definition cache_of (rs : list request) : Dict.dict entry :=
  map (fun r => (key_of r, entry_of r)) rs.

Definition access_of (rs : list request) : Dict.dict Z :=
  map (fun r => (key_of r, r_touch r)) rs.

End CacheSpec.

(** ** [execute_query]: vocabulary of the statements *)

Module ExecSpec.
Import Py DamengDatabase.

(** The tier as the messages of [get_error_message] name it; there is no
    rejection, and no name, under [FULL_ACCESS]. *)
Definition tier_name (m : SecurityMode) : str :=
  match m with
  | READONLY => lit "只读模式"
  | LIMITED_WRITE => lit "限制写入模式"
  | FULL_ACCESS => lit ""
  end.

(** The categories of the message: forbidden write, forbidden dangerous
    operation, unsupported operation. *)
Definition categories : list str :=
  [lit "下禁止写入操作: "; lit "下禁止危险操作: "; lit "下不支持的操作: "].

Definition is_cache_event (e : event) : bool :=
  match e with
  | CacheGet _ | CacheSet _ _ => true
  | DbExecute _ => false
  end.

(** The rows of the entry cached for a statement, read from the heap. *)
Definition cached_payload (h : Heap.heap) (c : QueryCache.t) (sql : str)
    (schema : option str) : option (list Heap.row) :=
  match Dict.get (QueryCache.cache c) (QueryCache._generate_key sql schema)
  with
  | Some e => Heap.read h (QueryCache.data e)
  | None => None
  end.

End ExecSpec.

(** ** More of Python's [str] *)

Module PyMore.
Import Py.

(** [c.lower()] for an ASCII character [c]. *)
Definition lower_char (c : ascii) : ascii :=
  if isupper c then ascii_of_nat (nat_of_ascii c + 32) else c.

(** [s.lower()] for ASCII text [s]; beyond ASCII [str.lower] also maps a
    character to an ASCII letter (U+212A to k). *)
Definition lower (s : str) : str := map lower_char s.

(** [s.split(sep)] for a separator of one character: the pieces between
    the separators, empty pieces included. *)
Fixpoint split_on (sep : ascii) (s : str) : list str :=
  match s with
  | [] => [[]]
  | c :: s' =>
      if ascii_dec c sep then [] :: split_on sep s'
      else match split_on sep s' with
           | [] => [[c]]
           | w :: ws => (c :: w) :: ws
           end
  end.

(** [sep.join(parts)] *)
Fixpoint join (sep : str) (parts : list str) : str :=
  match parts with
  | [] => []
  | [w] => w
  | w :: ws => w ++ sep ++ join sep ws
  end.

Definition nl : str := ["010"%char].

(** The text in which each of the given lines follows a line break, as in a
    triple-quoted literal that opens with a line break. *)
Definition block (ls : list string) : str :=
  flat_map (fun l => nl ++ lit l) ls.

End PyMore.

(** ** The statements of the system queries of [DamengDatabase] *)

Module SystemSQL.
Import Py PyMore.

Local Open Scope string_scope.

(** The statement of [_is_schema_allowed] (line 398). *)
Definition test_sql : str :=
  block
    ["                SELECT USERNAME ";
     "                FROM ALL_USERS ";
     "                WHERE USERNAME = ?";
     "                "].

(** The statement of [get_all_tables] (line 373). *)
Definition all_tables_sql : str :=
  block
    ["        SELECT ";
     "            OWNER AS schemaname,";
     "            TABLE_NAME AS tablename,";
     "            OWNER AS tableowner,";
     "            'YES' AS hasindexes,";
     "            'NO' AS hasrules,";
     "            'NO' AS hastriggers,";
     "            'NO' AS rowsecurity";
     "        FROM ALL_TABLES ";
     "        WHERE OWNER = ? ";
     "        ORDER BY TABLE_NAME";
     "        "].

(** The statement of [get_table_indexes] (line 503). *)
Definition indexes_sql : str :=
  block
    ["            SELECT ";
     "                INDEX_NAME as indexname,";
     "                'CREATE INDEX ' || INDEX_NAME || ' ON ' || TABLE_NAME as indexdef,";
     "                CASE WHEN UNIQUENESS = 'UNIQUE' THEN 'YES' ELSE 'NO' END as is_unique";
     "            FROM USER_INDEXES ";
     "            WHERE TABLE_NAME = ?";
     "            ORDER BY INDEX_NAME";
     "            "].

(** The statement of [get_table_constraints] (line 527). *)
Definition constraints_sql : str :=
  block
    ["            SELECT ";
     "                cons.CONSTRAINT_NAME as constraint_name,";
     "                cons.CONSTRAINT_TYPE as constraint_type,";
     "                cc.COLUMN_NAME as column_name,";
     "                CASE ";
     "                    WHEN cons.CONSTRAINT_TYPE = 'R' THEN";
     "                        ref_cons.OWNER||'.'||ref_cons.TABLE_NAME||'.'||ref_cc.COLUMN_NAME";
     "                    ELSE NULL";
     "                END as foreign_key_references";
     "            FROM USER_CONSTRAINTS cons";
     "            LEFT JOIN USER_CONS_COLUMNS cc ON cons.CONSTRAINT_NAME = cc.CONSTRAINT_NAME";
     "            LEFT JOIN USER_CONSTRAINTS ref_cons ON cons.R_CONSTRAINT_NAME = ref_cons.CONSTRAINT_NAME";
     "            LEFT JOIN USER_CONS_COLUMNS ref_cc ON ref_cons.CONSTRAINT_NAME = ref_cc.CONSTRAINT_NAME";
     "            WHERE cons.TABLE_NAME = ?";
     "            ORDER BY cons.CONSTRAINT_TYPE, cons.CONSTRAINT_NAME";
     "            "].

End SystemSQL.

(** ** [config.py]: [SecurityMode] values and [DamengConfig] *)

Module Config.
Import Py PyMore.

(** [mode.value] *)
Definition value (m : SecurityMode) : str :=
  match m with
  | READONLY => lit "readonly"
  | LIMITED_WRITE => lit "limited_write"
  | FULL_ACCESS => lit "full_access"
  end.

(** [SecurityMode(v)]: the member with the value [v]; [None] stands for the
    [ValueError] of the enumeration. *)
Definition of_value (v : str) : option SecurityMode :=
  if str_eqb v (lit "readonly") then Some READONLY
  else if str_eqb v (lit "limited_write") then Some LIMITED_WRITE
  else if str_eqb v (lit "full_access") then Some FULL_ACCESS
  else None.

(** [validate_security_mode(v)] for a string [v] (a member of the
    enumeration is a string too); the error carries the message. *)
Definition validate_security_mode (v : str) : SecurityMode + str :=
  match of_value (lower v) with
  | Some m => inl m
  | None =>
      inr (lit "无效的安全模式: " ++ v
           ++ lit "，支持的模式: ['readonly', 'limited_write', 'full_access']")
  end.

(** The fields of [DamengConfig] that the access control reads. *)
Record DamengConfig : Type := mk {
  security_mode : SecurityMode;
  allowed_schemas : list str;
  enable_query_log : bool;
  max_result_rows : Z
}.

(** [validate_schemas(v)] *)
Definition validate_schemas (v : list str) : list str + str :=
  match v with
  | [] => inr (lit "至少需要指定一个允许访问的模式")
  | _ => inl v
  end.

(** The converter of [DAMENG_ALLOWED_SCHEMAS] in [from_env]:
    [lambda x: x.split(",")]. *)
Definition schemas_of_env (x : str) : list str := split_on ","%char x.

Definition is_readonly_mode (c : DamengConfig) : bool :=
  match security_mode c with
  | READONLY => true
  | _ => false
  end.

Definition is_write_allowed (c : DamengConfig) : bool :=
  match security_mode c with
  | LIMITED_WRITE | FULL_ACCESS => true
  | READONLY => false
  end.

Definition is_dangerous_operation_allowed (c : DamengConfig) : bool :=
  match security_mode c with
  | FULL_ACCESS => true
  | _ => false
  end.

Definition is_all_schemas_allowed (c : DamengConfig) : bool :=
  mem (lit "*") (allowed_schemas c).

Definition is_auto_discover_schemas (c : DamengConfig) : bool :=
  mem (lit "auto") (allowed_schemas c).

Definition should_validate_schema (c : DamengConfig) : bool :=
  negb (is_all_schemas_allowed c || is_auto_discover_schemas c).

(** The part of the configuration that [execute_query] reads. *)
Definition exec_config (c : DamengConfig) : DamengDatabase.config :=
  DamengDatabase.mk_config (security_mode c) (max_result_rows c).

End Config.

(** ** [class DamengDatabase]: the system queries *)

Module Metadata.
Import Py PyMore DamengDatabase SystemSQL.

(** The tuple [params] of a call. *)
Definition params := list Heap.value.

(** The clock readings of one call of [execute_query] and what the driver
    answers to its statement and parameters. *)
Record call : Type := mk_call {
  call_clock : clock;
  call_db : str -> params -> db_outcome
}.

Definition DEFAULT_SCHEMA : str := lit "SYSDBA".

Definition execute_safe_query (cfg : config) (w : call) (sql : str)
    (ps : params) (self : t) : result * t * list event :=
  if negb (SQLValidator.validate_sql sql READONLY) then
    (Raise (ValueError (lit "系统查询必须是只读操作")), self, [])
  else
    execute_query cfg (call_clock w) (fun s => call_db w s ps) sql true self.

(** [len(result)] for the list object [r]. *)
Definition len_at (h : Heap.heap) (r : Heap.ref) : nat :=
  match Heap.read h r with
  | Some rows => List.length rows
  | None => 0
  end.

Definition _is_schema_allowed (cfg : Config.DamengConfig) (w : call)
    (schema : str) (self : t) : bool * t * list event :=
  if Config.is_all_schemas_allowed cfg then (true, self, [])
  else if Config.is_auto_discover_schemas cfg then
    match execute_safe_query (Config.exec_config cfg) w test_sql
            [Heap.VStr schema] self with
    | (Return result, self', tr) =>
        ((0 <? len_at (heap self') result)%nat, self', tr)
    | (Raise _, self', tr) => (false, self', tr)
    end
  else (mem schema (Config.allowed_schemas cfg), self, []).

(** [_get_allowed_schemas_display()]; [repr_list] is [str] on a list of
    strings. *)
Definition _get_allowed_schemas_display (repr_list : list str -> str)
    (cfg : Config.DamengConfig) : str :=
  if Config.is_all_schemas_allowed cfg then lit "所有模式(*)"
  else if Config.is_auto_discover_schemas cfg then lit "自动发现(auto)"
  else repr_list (Config.allowed_schemas cfg).

Definition schema_or_default (schema : option str) : str :=
  match schema with
  | None => DEFAULT_SCHEMA
  | Some s => s
  end.

Definition not_allowed_message (repr_list : list str -> str)
    (cfg : Config.DamengConfig) (schema : str) : str :=
  lit "不允许访问模式: " ++ schema ++ lit "，允许的模式: "
    ++ _get_allowed_schemas_display repr_list cfg.

(** [get_all_tables(schema)]; [w1] is the call of the schema check, [w2]
    the call of the query. *)
Definition get_all_tables (repr_list : list str -> str)
    (cfg : Config.DamengConfig) (w1 w2 : call) (schema : option str)
    (self : t) : result * t * list event :=
  let schema := schema_or_default schema in
  let '(allowed, self1, tr1) := _is_schema_allowed cfg w1 schema self in
  if negb allowed then
    (Raise (ValueError (not_allowed_message repr_list cfg schema)),
     self1, tr1)
  else
    let '(res, self2, tr2) :=
      execute_safe_query (Config.exec_config cfg) w2 all_tables_sql
        [Heap.VStr schema] self1 in
    (res, self2, tr1 ++ tr2).

(** The body shared by [get_table_indexes] and [get_table_constraints]:
    the schema check, then the query inside [try], any exception giving a
    fresh empty list. *)
Definition query_or_empty (sql : str) (repr_list : list str -> str)
    (cfg : Config.DamengConfig) (w1 w2 : call) (table_name : str)
    (schema : option str) (self : t) : result * t * list event :=
  let schema := schema_or_default schema in
  let '(allowed, self1, tr1) := _is_schema_allowed cfg w1 schema self in
  if negb allowed then
    (Raise (ValueError (not_allowed_message repr_list cfg schema)),
     self1, tr1)
  else
    match execute_safe_query (Config.exec_config cfg) w2 sql
            [Heap.VStr table_name] self1 with
    | (Return r, self2, tr2) => (Return r, self2, tr1 ++ tr2)
    | (Raise _, self2, tr2) =>
        let '(r, h) := Heap.alloc (heap self2) [] in
        (Return r, DamengDatabase.mk (query_cache self2) h, tr1 ++ tr2)
    end.

Definition get_table_indexes := query_or_empty indexes_sql.

Definition get_table_constraints := query_or_empty constraints_sql.

(** [get_cache_info()] *)
Definition get_cache_info (self : t) : QueryCache.stats :=
  QueryCache.get_stats (query_cache self).

(** [clear_cache()] *)
Definition clear_cache (self : t) : t :=
  DamengDatabase.mk (QueryCache.clear (query_cache self)) (heap self).

End Metadata.

(** ** [main.py]: [normalize_data] *)

Module Main.
Import Py PyMore.

Section Normalize.
Variable V : Type.

(** The body of the inner loop: the field under its own name, then under
    its lower-case name. *)
Definition normalize_step (normalized_item : Dict.dict V) (kv : str * V)
  : Dict.dict V :=
  Dict.set (Dict.set normalized_item (fst kv) (snd kv))
           (lower (fst kv)) (snd kv).

(** The body of the outer loop: the row built from the fields of [item] in
    their order. *)
Definition normalize_item (item : Dict.dict V) : Dict.dict V :=
  fold_left normalize_step item (Dict.empty V).

Definition normalize_data (data_list : list (Dict.dict V))
  : list (Dict.dict V) :=
  map normalize_item data_list.

End Normalize.

End Main.

(** ** [class DocumentGenerator]: [_get_field_value] *)

Module DocumentGenerator.
Import Py PyMore.

Section FieldValue.
(** The values of a row, with what the function asks of them: [v is None],
    the truth value of [v] and [str(v)]. *)
Variable V : Type.
Variable is_none : V -> bool.
Variable truthy : V -> bool.
Variable to_str : V -> str.

(** [data.get(name, None)], [None] when the value is [None]. *)
Definition lookup (data : Dict.dict V) (name : str) : option V :=
  match Dict.get data name with
  | Some v => if is_none v then None else Some v
  | None => None
  end.

Definition _get_field_value (data : Dict.dict V) (field_name : str)
    (default : str) : str :=
  match lookup data (lower field_name) with
  | Some value => if truthy value then to_str value else default
  | None =>
      match lookup data (upper field_name) with
      | Some value => if truthy value then to_str value else default
      | None =>
          match lookup data field_name with
          | Some value => if truthy value then to_str value else default
          | None => default
          end
      end
  end.

End FieldValue.

End DocumentGenerator.

(** ** More vocabulary for the cache *)

Module CacheMoreSpec.
Import Py QueryCache.

Local Open Scope Z_scope.

(** Every entry stored under [key] was created at [created]. *)
Definition stamped (key : str) (created : Z) (c : t) : Prop :=
  forall e, Dict.get (cache c) key = Some e -> timestamp e = created.

End CacheMoreSpec.

(** * Properties *)

(** ** The validator on text over any character set *)

Module TextFacts.
Import Text.

Section Facts.
Variable U : Charset.t.
Hypothesis Hword : Charset.letters_are_words U.

Lemma cs_str_eqb_eq (a b : str U) : str_eqb a b = true <-> a = b.
Proof.
  unfold str_eqb. destruct (str_eq_dec a b); split; congruence.
Qed.

Lemma cs_str_eqb_neq (a b : str U) : str_eqb a b = false <-> a <> b.
Proof.
  unfold str_eqb. destruct (str_eq_dec a b); split; congruence.
Qed.

Lemma cs_mem_In (x : str U) (S : list (str U)) : mem x S = true <-> In x S.
Proof.
  unfold mem. rewrite existsb_exists. split.
  - intros [y [Hy Heq]]. apply cs_str_eqb_eq in Heq. subst. exact Hy.
  - intros H. exists x. split; [exact H | apply cs_str_eqb_eq; reflexivity].
Qed.

Lemma cs_startswith_prefix (p s : str U) :
  startswith s p = true <-> exists post, s = p ++ post.
Proof.
  revert s. induction p as [|a p IH]; intros s; simpl.
  - split; [intros _; exists s; reflexivity | reflexivity].
  - destruct s as [|b s].
    + split; [discriminate | intros [post H]; discriminate].
    + destruct (Charset.char_dec U a b) as [->|Hne].
      * rewrite IH. split; intros [post H]; exists post.
        -- simpl. rewrite H. reflexivity.
        -- simpl in H. congruence.
      * split; [discriminate | intros [post H]; simpl in H; congruence].
Qed.

(** [needle in hay] holds exactly when [hay] splits around [needle]. *)
Lemma cs_contains_occurs (needle hay : str U) :
  contains hay needle = true <->
  exists pre post, hay = pre ++ needle ++ post.
Proof.
  induction hay as [|c hay IH].
  - simpl. rewrite orb_false_r, cs_startswith_prefix. split.
    + intros [post H]. exists [], post. exact H.
    + intros [pre [post H]]. destruct pre as [|x pre]; [|discriminate].
      exists post. exact H.
  - cbn [contains]. rewrite orb_true_iff, IH, cs_startswith_prefix. split.
    + intros [[post H] | [pre [post H]]].
      * exists [], post. exact H.
      * exists (c :: pre), post. simpl. rewrite H. reflexivity.
    + intros [pre [post H]]. destruct pre as [|x pre].
      * left. exists post. exact H.
      * right. exists pre, post. simpl in H. congruence.
Qed.

Lemma cs_last_of_app (u v : str U) (prev : option (char U)) :
  last_of (u ++ v) prev = last_of v (last_of u prev).
Proof.
  revert prev. induction u as [|a u IH]; intros prev; simpl; auto.
Qed.

Lemma cs_eat_spec (w : str U) (prev q : option (char U)) (s s' : str U) :
  eat w prev s = Some (q, s') <-> s = w ++ s' /\ q = last_of w prev.
Proof.
  revert prev s. induction w as [|a w IH]; intros prev s; simpl.
  - split.
    + intros H. inversion H. auto.
    + intros [-> ->]. reflexivity.
  - destruct s as [|b s].
    + split; [discriminate | intros [H _]; discriminate].
    + destruct (Charset.char_dec U a b) as [->|Hne].
      * rewrite IH. split; intros [H1 H2]; split; congruence.
      * split; [discriminate | intros [H _]; congruence].
Qed.

Lemma cs_eat_none (w : str U) (prev : option (char U)) (s : str U) :
  eat w prev s = None -> forall rest, s <> w ++ rest.
Proof.
  intros H rest Heq.
  assert (E : eat w prev s = Some (last_of w prev, rest))
    by (apply cs_eat_spec; auto).
  congruence.
Qed.

Lemma cs_plus_spec (cls : char U -> bool) (k : char U -> str U -> bool) (s : str U) :
  plus cls k s = true <->
  exists c run rest,
    s = (c :: run) ++ rest /\ forallb cls (c :: run) = true /\
    match last_of run (Some c) with
    | Some d => k d rest = true
    | None => False
    end.
Proof.
  induction s as [|c s IH]; simpl.
  - split; [discriminate | intros [c [run [rest [H _]]]]; discriminate].
  - rewrite andb_true_iff, orb_true_iff, IH. split.
    + intros [Hc [[c' [run [rest [Hs [Hall Hk]]]]] | Hk]].
      * exists c, (c' :: run), rest. subst s. simpl in *.
        rewrite Hc. auto.
      * exists c, [], s. simpl. rewrite Hc. auto.
    + intros [c0 [run [rest [Hs [Hall Hk]]]]].
      simpl in Hs. injection Hs as <- ->.
      simpl in Hall. apply andb_true_iff in Hall. destruct Hall as [Hc Hall].
      split; [exact Hc|].
      destruct run as [|c' run].
      * right. exact Hk.
      * left. exists c', run, rest. simpl in *. auto.
Qed.

Lemma cs_last_of_cons_some (run : str U) (c : char U) :
  exists d, last_of run (Some c) = Some d.
Proof.
  revert c. induction run as [|a run IH]; intros c; simpl; eauto.
Qed.

Lemma cs_match_here_matches (p : regex U) :
  forall prev s, match_here p prev s = true <-> matches p prev s.
Proof.
  induction p as [|a p IH]; intros prev s.
  - simpl. tauto.
  - destruct a as [|w|cls].
    + simpl. rewrite andb_true_iff, IH. tauto.
    + simpl. destruct (eat w prev s) as [[q s']|] eqn:E.
      * apply cs_eat_spec in E. destruct E as [-> ->].
        rewrite IH. split.
        -- intros H. exists s'. auto.
        -- intros [rest [Heq H]]. apply app_inv_head in Heq. subst. exact H.
      * split; [discriminate|].
        intros [rest [Heq _]]. exfalso.
        exact (@cs_eat_none w prev s E rest Heq).
    + cbn [match_here matches]. rewrite cs_plus_spec.
      split; intros [c [run [rest [Hs [Hall Hm]]]]];
        exists c, run, rest; (split; [exact Hs|]); (split; [exact Hall|]);
        cbn [last_of] in *;
        destruct (cs_last_of_cons_some run c) as [d Hd]; rewrite Hd in *;
        apply IH; exact Hm.
Qed.

Lemma cs_search_from_occurs (p : regex U) (s : str U) :
  forall prev,
    search_from p prev s = true <->
    exists pre post, s = pre ++ post /\ matches p (last_of pre prev) post.
Proof.
  induction s as [|c s IH]; intros prev; simpl.
  - rewrite orb_false_r, cs_match_here_matches. split.
    + intros H. exists [], []. auto.
    + intros [pre [post [Hs H]]].
      symmetry in Hs. apply app_eq_nil in Hs. destruct Hs as [-> ->].
      exact H.
  - rewrite orb_true_iff, cs_match_here_matches, IH. split.
    + intros [H | [pre [post [Hs H]]]].
      * exists [], (c :: s). auto.
      * exists (c :: pre), post. subst s. auto.
    + intros [pre [post [Hs H]]]. destruct pre as [|x pre].
      * left. simpl in *. subst post. exact H.
      * right. simpl in Hs. injection Hs as <- ->.
        exists pre, post. auto.
Qed.

(** [re.search] finds a match exactly when the pattern occurs. *)
Lemma cs_search_occurs (p : regex U) (text : str U) :
  search p text = true <-> occurs p text.
Proof. apply cs_search_from_occurs. Qed.

Lemma cs_split_from_blank (ws s : str U) :
  blank ws -> split_from [] (ws ++ s) = split_from [] s.
Proof.
  unfold blank. induction ws as [|c ws IH]; simpl; [reflexivity|].
  intros H. apply andb_true_iff in H. destruct H as [Hc Hws].
  rewrite Hc. apply IH, Hws.
Qed.

Lemma cs_split_from_solid (kw : str U) :
  forall cur s, solid kw ->
    split_from cur (kw ++ s) = split_from (rev kw ++ cur) s.
Proof.
  unfold solid. induction kw as [|c kw IH]; intros cur s H; simpl.
  - reflexivity.
  - simpl in H. apply andb_true_iff in H. destruct H as [Hc Hkw].
    apply negb_true_iff in Hc. rewrite Hc.
    rewrite IH by exact Hkw. rewrite <- app_assoc. reflexivity.
Qed.

Lemma cs_split_blank (s : str U) : blank s -> split s = [].
Proof.
  intros H. unfold split.
  rewrite <- (app_nil_r s), cs_split_from_blank by exact H. reflexivity.
Qed.

(** A token of the text is the first keyword the code extracts. *)
Lemma cs_first_token_extract (text kw : str U) :
  first_token text kw -> _extract_first_keyword text = kw.
Proof.
  unfold _extract_first_keyword.
  intros [[Hb ->] | [ws [rest [-> [Hws [Hne [Hsolid Hrest]]]]]]].
  - rewrite cs_split_blank by exact Hb. reflexivity.
  - unfold split. rewrite cs_split_from_blank by exact Hws.
    rewrite cs_split_from_solid by exact Hsolid. rewrite app_nil_r.
    assert (Hrev : rev kw <> []).
    { intros E. apply Hne. rewrite <- (rev_involutive kw), E. reflexivity. }
    destruct rest as [|c rest]; simpl.
    + destruct (rev kw) eqn:E; [congruence|].
      rewrite <- E, rev_involutive. reflexivity.
    + unfold blank in Hrest. simpl in Hrest.
      rewrite andb_true_r in Hrest. rewrite Hrest.
      destruct (rev kw) eqn:E; [congruence|].
      rewrite <- E, rev_involutive. reflexivity.
Qed.

Lemma cs_split_from_token (s : str U) :
  forall cur, solid cur ->
    (cur = [] /\ blank s /\ split_from cur s = []) \/
    (exists ws kw rest w ws',
        split_from cur s = w :: ws' /\
        w = rev cur ++ kw /\ w <> [] /\ solid kw /\
        s = ws ++ kw ++ rest /\ blank ws /\ (cur <> [] -> ws = []) /\
        blank (firstn 1 rest)).
Proof.
  induction s as [|c s IH]; intros cur Hcur.
  - destruct cur as [|a cur].
    + left. auto.
    + right. exists [], [], [], (rev (a :: cur)), [].
      rewrite app_nil_r. simpl. repeat split; auto.
      intros E. apply (f_equal (@List.length (char U))) in E.
      rewrite length_app in E. simpl in E. lia.
  - simpl. destruct ((Charset.isspace U) c) eqn:Hc.
    + destruct cur as [|a cur].
      * destruct (IH [] Hcur) as [[_ [Hb E]] | [ws [kw [rest [w [ws' H]]]]]].
        -- left. unfold blank. simpl. rewrite Hc. auto.
        -- right. destruct H as [E [Hw [Hne [Hs [Heq [Hws [_ Hr]]]]]]].
           exists (c :: ws), kw, rest, w, ws'. subst s.
           repeat split; auto.
           ++ unfold blank. simpl. rewrite Hc. exact Hws.
           ++ congruence.
      * right. exists [], [], (c :: s), (rev (a :: cur)), (split_from [] s).
        rewrite app_nil_r. repeat split; auto.
        -- intros E. apply (f_equal (@List.length (char U))) in E.
           simpl in E. rewrite length_app in E. simpl in E. lia.
        -- unfold blank. simpl. rewrite Hc. reflexivity.
    + assert (Hcur' : solid (c :: cur)).
      { unfold solid. simpl. rewrite Hc. exact Hcur. }
      destruct (IH (c :: cur) Hcur')
        as [[E _] | [ws [kw [rest [w [ws' H]]]]]]; [discriminate|].
      destruct H as [E [Hw [Hne [Hs [Heq [Hws [Hnil Hr]]]]]]].
      right. exists [], (c :: kw), rest, w, ws'.
      assert (ws = []) by (apply Hnil; discriminate). subst ws.
      simpl in Heq. subst s.
      repeat split; auto.
      * rewrite Hw. simpl. rewrite <- app_assoc. reflexivity.
      * unfold solid. simpl. rewrite Hc. exact Hs.
Qed.

(** The first keyword the code extracts is the first token of the text. *)
Lemma cs_extract_first_token (text : str U) :
  first_token text (_extract_first_keyword text).
Proof.
  unfold _extract_first_keyword, split.
  destruct (cs_split_from_token text (cur := [])) as
    [[_ [Hb E]] | [ws [kw [rest [w [ws' H]]]]]]; [reflexivity | |].
  - rewrite E. left. auto.
  - destruct H as [E [Hw [Hne [Hs [Heq [Hws [_ Hr]]]]]]].
    rewrite E. simpl in Hw. subst w.
    right. exists ws, rest. auto.
Qed.

Lemma cs_boundary_before_word (prev : option (char U)) (s : str U) :
  word_at (hd_error s) = true ->
  (at_boundary prev s = true <-> word_at prev = false).
Proof.
  unfold at_boundary. intros ->. destruct (word_at prev); simpl; intuition.
Qed.

Lemma cs_boundary_after_word (prev : option (char U)) (s : str U) :
  word_at prev = true ->
  (at_boundary prev s = true <-> word_at (hd_error s) = false).
Proof.
  unfold at_boundary. intros ->.
  destruct (word_at (hd_error s)); simpl; intuition.
Qed.

Lemma cs_hd_error_word_app (w r : str U) :
  word_at (hd_error w) = true -> word_at (hd_error (w ++ r)) = true.
Proof. destruct w; simpl; [discriminate | auto]. Qed.

Lemma cs_gap_run (ws : str U) :
  gap ws <-> exists c run, ws = c :: run /\ forallb (Charset.isspace U) (c :: run) = true.
Proof.
  unfold gap, blank. split.
  - intros [Hne Hb]. destruct ws as [|c run]; [congruence|]. eauto.
  - intros [c [run [-> H]]]. split; [discriminate | exact H].
Qed.

(** The pattern [\bW1\s+W2\b] occurs exactly when the phrase does. *)
Lemma cs_clause_phrase (w1 w2 : string) (text : str U) :
  word_at (hd_error (lit U w1)) = true ->
  (forall q, word_at (last_of (lit U w2) q) = true) ->
  occurs (clause U w1 w2) text <-> phrase_occurs w1 w2 text.
Proof.
  intros H1 H2. unfold occurs, phrase_occurs, clause.
  cbn [matches]. split.
  - intros [pre [post [-> [Hb [r1 [-> [c [run [r2 [-> [Hsp
             [r3 [-> [He _]]]]]]]]]]]]]].
    apply cs_boundary_before_word in Hb; [|apply cs_hd_error_word_app, H1].
    apply cs_boundary_after_word in He; [|apply H2].
    exists pre, (c :: run), r3. repeat split; auto; discriminate.
  - intros [pre [ws [post [-> [Hg [Hb He]]]]]].
    apply cs_gap_run in Hg. destruct Hg as [c [run [-> Hsp]]].
    exists pre, (lit U w1 ++ (c :: run) ++ lit U w2 ++ post).
    split; [reflexivity|]. split.
    { apply cs_boundary_before_word;
        [apply cs_hd_error_word_app, H1 | exact Hb]. }
    exists ((c :: run) ++ lit U w2 ++ post). split; [reflexivity|].
    exists c, run, (lit U w2 ++ post). split; [reflexivity|].
    split; [exact Hsp|].
    exists post. split; [reflexivity|]. split; [|exact I].
    apply cs_boundary_after_word; [apply H2 | exact He].
Qed.

(** The pattern [\bUPDATE\s+\w+\s+SET\b] in the same reading. *)
Lemma cs_update_pattern_occurs (text : str U) :
  occurs [Bnd U; Lit (lit U "UPDATE"); Plus (Charset.isspace U); Plus (Charset.isword U);
          Plus (Charset.isspace U); Lit (lit U "SET"); Bnd U] text <->
  update_set_occurs text.
Proof.
  assert (HU : forall r : str U,
             word_at (hd_error (lit U "UPDATE" ++ r)) = true)
    by (intros r; apply Hword; reflexivity).
  assert (HT : forall q, word_at (last_of (lit U "SET") q) = true)
    by (intros q; apply Hword; reflexivity).
  unfold occurs, update_set_occurs. cbn [matches]. split.
  - intros (pre & post & -> & Hb & r1 & -> & c1 & run1 & r2 & -> & Hsp1
             & c2 & run2 & r3 & -> & Hw & c3 & run3 & r4 & -> & Hsp3
             & r5 & -> & He & _).
    apply cs_boundary_before_word in Hb; [|apply HU].
    apply cs_boundary_after_word in He; [|apply HT].
    exists pre, (c1 :: run1), (c2 :: run2), (c3 :: run3), r5.
    repeat split; auto; discriminate.
  - intros [pre [ws1 [ident [ws2 [post [-> [Hg1 [Hne [Hw [Hg2 [Hb He]]]]]]]]]]].
    apply cs_gap_run in Hg1. destruct Hg1 as [c1 [run1 [-> Hsp1]]].
    apply cs_gap_run in Hg2. destruct Hg2 as [c3 [run3 [-> Hsp3]]].
    destruct ident as [|c2 run2]; [congruence|].
    exists pre. eexists. split; [reflexivity|]. split.
    { apply cs_boundary_before_word; [apply HU | exact Hb]. }
    eexists. split; [reflexivity|].
    exists c1, run1. eexists. split; [reflexivity|]. split; [exact Hsp1|].
    exists c2, run2. eexists. split; [reflexivity|]. split; [exact Hw|].
    exists c3, run3. eexists. split; [reflexivity|]. split; [exact Hsp3|].
    exists post. split; [reflexivity|]. split; [|exact I].
    apply cs_boundary_after_word; [apply HT | exact He].
Qed.

Lemma cs_dangerous_patterns_embedded (text : str U) :
  existsb (fun pattern => search pattern text) (dangerous_patterns U) = true
  <-> embedded_clause text.
Proof.
  unfold dangerous_patterns, embedded_clause.
  cbn [existsb]. rewrite !orb_true_iff, !cs_search_occurs.
  rewrite cs_update_pattern_occurs.
  rewrite !cs_clause_phrase by (intros; apply Hword; reflexivity).
  intuition discriminate.
Qed.

Lemma cs_negb_existsb_none (A : Type) (f : A -> bool) (P : A -> Prop)
    (l : list A) :
  (forall x, f x = true <-> P x) ->
  negb (existsb f l) = true <-> forall x, In x l -> ~ P x.
Proof.
  intros Hf. rewrite negb_true_iff. split.
  - intros H x Hin Hp.
    assert (E : existsb f l = true).
    { apply existsb_exists. exists x. split; [exact Hin | apply Hf, Hp]. }
    congruence.
  - intros H. destruct (existsb f l) eqn:E; [|reflexivity].
    apply existsb_exists in E. destruct E as [x [Hin Hx]].
    exfalso. apply (H x Hin). apply Hf, Hx.
Qed.

Lemma cs_validate_readonly_accepts (sql : str U) :
  validate_sql sql READONLY = true <-> readonly_accepts sql.
Proof.
  unfold validate_sql, _validate_readonly, readonly_accepts.
  fold (normalized sql).
  set (text := normalized sql).
  set (kw := _extract_first_keyword text).
  assert (Hdanger :
    negb (existsb (fun pattern => search pattern text) (dangerous_patterns U))
      = true <-> ~ embedded_clause text).
  { rewrite negb_true_iff, <- cs_dangerous_patterns_embedded.
    destruct (existsb _ (dangerous_patterns U)); split; congruence. }
  assert (Hforbidden :
    negb (existsb (fun forbidden => contains text forbidden)
            (WRITE_OPERATIONS U ++ DANGEROUS_OPERATIONS U)) = true <->
    forall w, In w (Write U ++ Dangerous U) -> ~ keyword_occurs w text).
  { apply cs_negb_existsb_none. intros w. apply cs_contains_occurs. }
  split.
  - intros H. exists kw.
    split; [apply cs_extract_first_token|].
    destruct (mem kw (READONLY_OPERATIONS U)) eqn:Hmem; [|discriminate].
    split; [apply cs_mem_In, Hmem|]. cbn [negb] in H.
    destruct (str_eqb kw (lit U "SELECT")) eqn:Hsel.
    + apply cs_str_eqb_eq in Hsel. split; [|congruence].
      intros _. apply Hdanger, H.
    + apply cs_str_eqb_neq in Hsel. split; [congruence|].
      intros _. apply Hforbidden, H.
  - intros [kw' [Htok [Hin [Hsel Hother]]]].
    apply cs_first_token_extract in Htok. fold kw in Htok. subst kw'.
    apply cs_mem_In in Hin. change (Read U) with (READONLY_OPERATIONS U) in Hin.
    rewrite Hin. cbn [negb].
    destruct (str_eqb kw (lit U "SELECT")) eqn:E.
    + apply cs_str_eqb_eq in E. apply Hdanger, Hsel, E.
    + apply cs_str_eqb_neq in E. apply Hforbidden, Hother, E.
Qed.

Lemma cs_validate_limited_write_accepts (sql : str U) :
  validate_sql sql LIMITED_WRITE = true <-> limited_write_accepts sql.
Proof.
  unfold validate_sql, _validate_limited_write, limited_write_accepts.
  fold (normalized sql).
  set (text := normalized sql).
  set (kw := _extract_first_keyword text).
  assert (Hdanger :
    negb (existsb (fun dangerous => contains text dangerous)
            (DANGEROUS_OPERATIONS U)) = true <->
    forall w, In w (Dangerous U) -> ~ keyword_occurs w text).
  { apply cs_negb_existsb_none. intros w. apply cs_contains_occurs. }
  split.
  - intros H. exists kw.
    split; [apply cs_extract_first_token|].
    destruct (mem kw (READONLY_OPERATIONS U ++ WRITE_OPERATIONS U)) eqn:Hmem;
      [|discriminate].
    split; [apply cs_mem_In, Hmem|]. apply Hdanger, H.
  - intros [kw' [Htok [Hin Hnone]]].
    apply cs_first_token_extract in Htok. fold kw in Htok. subst kw'.
    apply cs_mem_In in Hin.
    change (Read U ++ Write U)
      with (READONLY_OPERATIONS U ++ WRITE_OPERATIONS U) in Hin.
    rewrite Hin. cbn [negb]. apply Hdanger, Hnone.
Qed.

End Facts.

(** The ASCII characters form a character set of this kind, and on it the
    validator is the executable one. *)
Lemma ascii_letters_are_words : Charset.letters_are_words Charset.ASCII.
Proof.
  intros c Hc. cbn [Charset.isword Charset.chr Charset.ASCII].
  unfold Py.isword. rewrite Hc. rewrite orb_true_r. reflexivity.
Qed.

Lemma ascii_validate_sql (sql : Py.str) (m : SecurityMode) :
  SQLValidator.validate_sql sql m
  = validate_sql (U := Charset.ASCII) sql m.
Proof. reflexivity. Qed.

End TextFacts.

(** ** Strings *)

Module PyFacts.
Import Py.

Example upper_strip_example :
  strip (upper (lit "  select * from t ")) = lit "SELECT * FROM T".
Proof. reflexivity. Qed.

Example split_example :
  split (lit " drop   table t ") = [lit "drop"; lit "table"; lit "t"].
Proof. reflexivity. Qed.

Example md5_empty :
  Hashlib.md5_hexdigest (lit "") = lit "d41d8cd98f00b204e9800998ecf8427e".
Proof. vm_compute. reflexivity. Qed.

Example md5_abc :
  Hashlib.md5_hexdigest (lit "abc") = lit "900150983cd24fb0d6963f7d28e17f72".
Proof. vm_compute. reflexivity. Qed.

Example md5_two_blocks :
  Hashlib.md5_hexdigest
    (lit "12345678901234567890123456789012345678901234567890123456789012345678901234567890")
  = lit "57edf4a22be3c955ac49da2e2107b67a".
Proof. vm_compute. reflexivity. Qed.

Lemma str_eqb_eq (a b : str) : str_eqb a b = true <-> a = b.
Proof. exact (@TextFacts.cs_str_eqb_eq Charset.ASCII a b). Qed.

Lemma str_eqb_refl (a : str) : str_eqb a a = true.
Proof. apply str_eqb_eq. reflexivity. Qed.

Lemma str_eqb_neq (a b : str) : str_eqb a b = false <-> a <> b.
Proof. exact (@TextFacts.cs_str_eqb_neq Charset.ASCII a b). Qed.

Lemma mem_In (x : str) (S : list str) : mem x S = true <-> In x S.
Proof. exact (@TextFacts.cs_mem_In Charset.ASCII x S). Qed.

Lemma startswith_prefix (p s : str) :
  startswith s p = true <-> exists post, s = p ++ post.
Proof. exact (@TextFacts.cs_startswith_prefix Charset.ASCII p s). Qed.

(** [needle in hay] holds exactly when [hay] splits around [needle]. *)
Lemma contains_occurs (needle hay : str) :
  contains hay needle = true <->
  exists pre post, hay = pre ++ needle ++ post.
Proof. exact (@TextFacts.cs_contains_occurs Charset.ASCII needle hay). Qed.

Lemma isspace_not_islower (c : ascii) : isspace c = true -> islower c = false.
Proof.
  unfold isspace, islower. intros H.
  apply orb_true_iff in H.
  rewrite !andb_true_iff, !Nat.leb_le in H.
  apply andb_false_iff. rewrite !Nat.leb_gt. lia.
Qed.

Lemma isspace_upper_char (c : ascii) : isspace (upper_char c) = isspace c.
Proof.
  unfold upper_char. destruct (islower c) eqn:Hl; [|reflexivity].
  assert (Hc : isspace c = false).
  { destruct (isspace c) eqn:Hs; [|reflexivity].
    apply isspace_not_islower in Hs. congruence. }
  rewrite Hc. unfold islower in Hl.
  apply andb_true_iff in Hl. rewrite !Nat.leb_le in Hl.
  unfold isspace. rewrite nat_ascii_embedding by lia.
  apply orb_false_iff. rewrite !andb_false_iff, !Nat.leb_gt. lia.
Qed.

Lemma forallb_isspace_upper (s : str) :
  forallb isspace (upper s) = forallb isspace s.
Proof.
  induction s as [|c s IH]; simpl; [reflexivity|].
  rewrite isspace_upper_char, IH. reflexivity.
Qed.

Lemma lstrip_blank (s : str) : forallb isspace s = true -> lstrip s = [].
Proof.
  induction s as [|c s IH]; simpl; [reflexivity|].
  intros H. apply andb_true_iff in H. destruct H as [Hc Hs].
  rewrite Hc. apply IH, Hs.
Qed.

Lemma strip_blank (s : str) : forallb isspace s = true -> strip s = [].
Proof.
  intros H. unfold strip. rewrite (lstrip_blank _ H). reflexivity.
Qed.

End PyFacts.

(** ** The patterns on ASCII text *)

Module ReFacts.
Import Py Re PyFacts.

Example clause_whole_words :
  search (SQLValidator.clause "DROP" "TABLE") (lit "SELECT 1; DROP  TABLE T")
    = true /\
  search (SQLValidator.clause "DROP" "TABLE") (lit "SELECT BACKDROP TABLES")
    = false /\
  search (SQLValidator.clause "DROP" "TABLE") (lit "SELECT DROP_TABLE")
    = false.
Proof. repeat split. Qed.

End ReFacts.

Module PolicyFacts.
Import Py Re PyFacts ReFacts Policy.

(** A token of the text is the first keyword the code extracts. *)
Lemma first_token_extract (text kw : str) :
  first_token text kw -> SQLValidator._extract_first_keyword text = kw.
Proof. exact (@TextFacts.cs_first_token_extract Charset.ASCII text kw). Qed.

(** The first keyword the code extracts is the first token of the text. *)
Lemma extract_first_token (text : str) :
  first_token text (SQLValidator._extract_first_keyword text).
Proof. exact (@TextFacts.cs_extract_first_token Charset.ASCII text). Qed.

End PolicyFacts.

(** ** The validator *)

Module ValidatorFacts.
Import Py Re PyFacts ReFacts Policy PolicyFacts.
Import SQLValidator.

Lemma leading_keyword_blank (sql : str) :
  blank sql -> _extract_first_keyword (normalized sql) = [].
Proof.
  intros H. unfold normalized.
  rewrite strip_blank by (rewrite forallb_isspace_upper; exact H).
  reflexivity.
Qed.

Lemma validate_readonly_accepts (sql : str) :
  validate_sql sql READONLY = true <-> readonly_accepts sql.
Proof.
  exact (@TextFacts.cs_validate_readonly_accepts Charset.ASCII
           TextFacts.ascii_letters_are_words sql).
Qed.

Lemma validate_limited_write_accepts (sql : str) :
  validate_sql sql LIMITED_WRITE = true <-> limited_write_accepts sql.
Proof.
  exact (@TextFacts.cs_validate_limited_write_accepts Charset.ASCII sql).
Qed.

End ValidatorFacts.

Import Py.

(** C1. Under the tier ReadOnly the validator accepts a statement exactly
    when its leading keyword (the first whitespace-delimited token of the
    upper-cased, trimmed text) is in the Read set and, for the keyword
    SELECT, none of the embedded dangerous clauses (DROP TABLE, TRUNCATE
    TABLE, DELETE FROM, INSERT INTO, UPDATE <word> SET, CREATE TABLE, ALTER
    TABLE, as whole words with one or more whitespace characters between
    them) occurs in the normalized text, and, for another Read keyword, no
    Write or Dangerous keyword occurs anywhere in it.  This holds for text
    over every character set in which the upper-case ASCII letters are word
    characters, whatever its whitespace class, its word class and its
    upper-casing are; the executable validator is the instance for ASCII
    text.  ReadOnly accepts "SELECT * FROM T" and rejects "DELETE FROM T",
    "DROP TABLE T" and "SELECT * FROM T; DROP TABLE T". *)
Theorem readonly_tier_policy :
  (forall (U : Charset.t) (sql : Text.str U),
      Charset.letters_are_words U ->
      (Text.validate_sql sql READONLY = true <->
       Text.readonly_accepts sql)) /\
  (forall sql : str,
      SQLValidator.validate_sql sql READONLY
      = Text.validate_sql (U := Charset.ASCII) sql READONLY) /\
  SQLValidator.validate_sql (lit "SELECT * FROM T") READONLY = true /\
  SQLValidator.validate_sql (lit "DELETE FROM T") READONLY = false /\
  SQLValidator.validate_sql (lit "DROP TABLE T") READONLY = false /\
  SQLValidator.validate_sql (lit "SELECT * FROM T; DROP TABLE T") READONLY
    = false.
Proof.
  split.
  { intros U sql Hword. apply TextFacts.cs_validate_readonly_accepts, Hword. }
  split; [intros sql; apply TextFacts.ascii_validate_sql|].
  repeat split; vm_compute; reflexivity.
Qed.

Lemma readonly_tier_policy_witness :
  Charset.letters_are_words Charset.ASCII /\
  Text.readonly_accepts (U := Charset.ASCII) (lit "SELECT * FROM T") /\
  ~ Text.readonly_accepts (U := Charset.ASCII)
      (lit "SELECT * FROM T; DROP TABLE T").
Proof.
  pose proof TextFacts.ascii_letters_are_words as H.
  split; [exact H|]. split.
  - apply (proj1 readonly_tier_policy Charset.ASCII (lit "SELECT * FROM T") H).
    vm_compute. reflexivity.
  - intros A.
    apply (proj1 readonly_tier_policy Charset.ASCII
             (lit "SELECT * FROM T; DROP TABLE T") H) in A.
    vm_compute in A. discriminate A.
Defined.

(** C2. Under the tier LimitedWrite the validator accepts a statement
    exactly when its leading keyword is in the union of the Read and Write
    sets and no keyword of the Dangerous set occurs anywhere in the
    upper-cased text.  This holds for text over every character set,
    whatever its whitespace class and its upper-casing are; the executable
    validator is the instance for ASCII text.  LimitedWrite accepts
    "INSERT INTO T VALUES (1)" and "UPDATE T SET X=1" and rejects
    "DELETE FROM T" and "GRANT SELECT ON T TO U". *)
Theorem limited_write_tier_policy :
  (forall (U : Charset.t) (sql : Text.str U),
      Text.validate_sql sql LIMITED_WRITE = true <->
      Text.limited_write_accepts sql) /\
  (forall sql : str,
      SQLValidator.validate_sql sql LIMITED_WRITE
      = Text.validate_sql (U := Charset.ASCII) sql LIMITED_WRITE) /\
  SQLValidator.validate_sql (lit "INSERT INTO T VALUES (1)") LIMITED_WRITE
    = true /\
  SQLValidator.validate_sql (lit "UPDATE T SET X=1") LIMITED_WRITE = true /\
  SQLValidator.validate_sql (lit "DELETE FROM T") LIMITED_WRITE = false /\
  SQLValidator.validate_sql (lit "GRANT SELECT ON T TO U") LIMITED_WRITE
    = false.
Proof.
  split.
  { intros U sql. apply TextFacts.cs_validate_limited_write_accepts. }
  split; [intros sql; apply TextFacts.ascii_validate_sql|].
  repeat split; vm_compute; reflexivity.
Qed.

(** C6. A blank or whitespace-only statement has an empty leading keyword
    and is rejected under ReadOnly and under LimitedWrite, while FullAccess
    accepts it; FullAccess accepts every statement, "DROP TABLE T"
    included. *)
Theorem blank_statement_verdicts (sql : str) (Hblank : Policy.blank sql) :
  SQLValidator._extract_first_keyword (Policy.normalized sql) = [] /\
  SQLValidator.validate_sql sql READONLY = false /\
  SQLValidator.validate_sql sql LIMITED_WRITE = false /\
  SQLValidator.validate_sql sql FULL_ACCESS = true /\
  (forall s : str, SQLValidator.validate_sql s FULL_ACCESS = true) /\
  SQLValidator.validate_sql (lit "DROP TABLE T") FULL_ACCESS = true.
Proof.
  pose proof (ValidatorFacts.leading_keyword_blank Hblank) as Hkw.
  split; [exact Hkw|].
  unfold SQLValidator.validate_sql. fold (Policy.normalized sql).
  rewrite Hkw. repeat split.
Qed.

Lemma blank_statement_verdicts_witness :
  Policy.blank [" "; "009"; "010"; " "]%char /\
  SQLValidator.validate_sql [" "; "009"; "010"; " "]%char READONLY = false /\
  SQLValidator.validate_sql [" "; "009"; "010"; " "]%char LIMITED_WRITE
    = false /\
  SQLValidator.validate_sql [" "; "009"; "010"; " "]%char FULL_ACCESS = true.
Proof.
  assert (H : Policy.blank [" "; "009"; "010"; " "]%char) by reflexivity.
  split; [exact H|].
  destruct (blank_statement_verdicts H) as (_ & H1 & H2 & H3 & _).
  auto.
Defined.

(** ** Dictionaries *)

Module DictFacts.
Import Py PyFacts.

Lemma others_In (k x : str) (ks : list str) :
  In x (others k ks) <-> In x ks /\ x <> k.
Proof.
  unfold others. rewrite filter_In, negb_true_iff, str_eqb_neq. tauto.
Qed.

Lemma others_absent (k : str) (ks : list str) :
  ~ In k ks -> others k ks = ks.
Proof.
  induction ks as [|x ks IH]; simpl; intros H; [reflexivity|].
  destruct (str_eqb x k) eqn:E.
  - apply str_eqb_eq in E. subst. exfalso. apply H. left. reflexivity.
  - simpl. rewrite IH; [reflexivity|]. intros Hin. apply H. right. exact Hin.
Qed.

Lemma others_length (k : str) (ks : list str) :
  NoDup ks -> In k ks -> S (List.length (others k ks)) = List.length ks.
Proof.
  induction 1 as [|x ks Hx Hnd IH]; simpl; intros Hin; [contradiction|].
  destruct (str_eqb x k) eqn:E; simpl.
  - apply str_eqb_eq in E. subst x.
    rewrite others_absent by exact Hx. reflexivity.
  - apply str_eqb_neq in E. destruct Hin as [->|Hin]; [congruence|].
    rewrite IH by exact Hin. reflexivity.
Qed.

Lemma others_NoDup (k : str) (ks : list str) : NoDup ks -> NoDup (others k ks).
Proof. apply NoDup_filter. Qed.

Lemma NoDup_snoc (k : str) (ks : list str) :
  NoDup ks -> ~ In k ks -> NoDup (ks ++ [k]).
Proof.
  induction 1 as [|x ks Hx Hnd IH]; simpl; intros Hk.
  - constructor; [intros [] | constructor].
  - constructor.
    + rewrite in_app_iff. simpl. intros [H | [H | []]]; [auto|].
      subst. apply Hk. left. reflexivity.
    + apply IH. intros H. apply Hk. right. exact H.
Qed.

Section Facts.
Variable V : Type.
Implicit Types (d : Dict.dict V) (k : str) (v : V).

Lemma get_set_same d k v : Dict.get (Dict.set d k v) k = Some v.
Proof.
  induction d as [|[k' v'] d IH]; simpl.
  - rewrite str_eqb_refl. reflexivity.
  - destruct (str_eqb k' k) eqn:E; simpl; rewrite E; auto.
Qed.

Lemma get_set_other d k k' v :
  k <> k' -> Dict.get (Dict.set d k v) k' = Dict.get d k'.
Proof.
  intros Hne. induction d as [|[k0 v0] d IH]; simpl.
  - apply str_eqb_neq in Hne. rewrite Hne. reflexivity.
  - destruct (str_eqb k0 k) eqn:E; simpl.
    + apply str_eqb_eq in E. subst k0.
      apply str_eqb_neq in Hne. rewrite Hne. reflexivity.
    + rewrite IH. reflexivity.
Qed.

Lemma get_del_same d k : Dict.get (Dict.del d k) k = None.
Proof.
  unfold Dict.del. induction d as [|[k' v'] d IH]; simpl; [reflexivity|].
  destruct (str_eqb k' k) eqn:E; simpl; [exact IH|].
  rewrite E. exact IH.
Qed.

Lemma get_del_other d k k' :
  k <> k' -> Dict.get (Dict.del d k) k' = Dict.get d k'.
Proof.
  intros Hne. unfold Dict.del.
  induction d as [|[k0 v0] d IH]; simpl; [reflexivity|].
  destruct (str_eqb k0 k) eqn:E; simpl.
  - apply str_eqb_eq in E. subst k0.
    apply str_eqb_neq in Hne. rewrite Hne. exact IH.
  - rewrite IH. reflexivity.
Qed.

Lemma mem_keys d k : Dict.mem d k = true <-> In k (Dict.keys d).
Proof.
  unfold Dict.mem. induction d as [|[k' v'] d IH]; simpl.
  - split; [discriminate | contradiction].
  - destruct (str_eqb k' k) eqn:E.
    + apply str_eqb_eq in E. tauto.
    + apply str_eqb_neq in E. rewrite IH. tauto.
Qed.

Lemma not_mem_keys d k : Dict.mem d k = false <-> ~ In k (Dict.keys d).
Proof.
  rewrite <- mem_keys. destruct (Dict.mem d k); split; congruence.
Qed.

Lemma get_keys d k : In k (Dict.keys d) -> exists v, Dict.get d k = Some v.
Proof.
  intros H. apply mem_keys in H. unfold Dict.mem in H.
  destruct (Dict.get d k) as [v|]; [eauto | discriminate].
Qed.

Lemma get_none_keys d k : Dict.get d k = None -> ~ In k (Dict.keys d).
Proof.
  intros H Hin. destruct (get_keys _ _ Hin) as [v Hv]. congruence.
Qed.

Lemma keys_set d k v :
  Dict.keys (Dict.set d k v) =
  if Dict.mem d k then Dict.keys d else Dict.keys d ++ [k].
Proof.
  unfold Dict.mem. induction d as [|[k' v'] d IH]; simpl; [reflexivity|].
  destruct (str_eqb k' k) eqn:E; simpl; [reflexivity|].
  rewrite IH. destruct (Dict.get d k); reflexivity.
Qed.

Lemma keys_del d k : Dict.keys (Dict.del d k) = others k (Dict.keys d).
Proof.
  unfold Dict.del, others, Dict.keys.
  induction d as [|[k' v'] d IH]; simpl; [reflexivity|].
  destruct (str_eqb k' k); simpl; rewrite IH; reflexivity.
Qed.

Lemma len_keys d : Dict.len d = Z.of_nat (List.length (Dict.keys d)).
Proof. unfold Dict.len, Dict.keys. rewrite length_map. reflexivity. Qed.

End Facts.

(** [min] returns the first of the least elements. *)
Lemma min_by_first_least (f : str -> option Z) (g : str -> Z) :
  forall ks best,
    (forall x, In x (best :: ks) -> f x = Some (g x)) ->
    exists before after,
      best :: ks = before ++ Dict.min_by f best ks :: after /\
      (forall x, In x before -> (g (Dict.min_by f best ks) < g x)%Z) /\
      (forall x, In x after -> (g (Dict.min_by f best ks) <= g x)%Z).
Proof.
  induction ks as [|k ks IH]; intros best Hf.
  - exists [], []. simpl. repeat split; contradiction.
  - simpl. rewrite (Hf k), (Hf best) by (simpl; auto).
    destruct (g k <? g best)%Z eqn:E.
    + apply Z.ltb_lt in E.
      destruct (IH k) as (l1 & l2 & Heq & H1 & H2).
      { intros x Hx. apply Hf. right. exact Hx. }
      set (r := Dict.min_by f k ks) in *.
      exists (best :: l1), l2. rewrite Heq. repeat split; auto.
      intros x [<- | Hx]; [|auto].
      assert (Hk : In k (l1 ++ r :: l2)) by (rewrite <- Heq; left; auto).
      apply in_app_iff in Hk. destruct Hk as [Hk | [Hk | Hk]].
      * specialize (H1 _ Hk). lia.
      * rewrite Hk. exact E.
      * specialize (H2 _ Hk). lia.
    + apply Z.ltb_ge in E.
      destruct (IH best) as (l1 & l2 & Heq & H1 & H2).
      { intros x [<- | Hx]; apply Hf; simpl; auto. }
      set (r := Dict.min_by f best ks) in *.
      destruct l1 as [|b l1]; simpl in Heq.
      * injection Heq as Hb Hks. exists [], (k :: l2).
        rewrite <- Hb, Hks. split; [reflexivity|]. split; [contradiction|].
        intros x [<- | Hx]; [exact E | rewrite Hb; auto].
      * injection Heq as Hb Hks. subst b.
        exists (best :: k :: l1), l2. rewrite Hks.
        repeat split; auto.
        intros x [<- | [<- | Hx]].
        -- apply H1. left. reflexivity.
        -- assert (g r < g best)%Z by (apply H1; left; reflexivity). lia.
        -- apply H1. right. exact Hx.
Qed.

End DictFacts.

(** ** The cache *)

Module CacheFacts.
Import Py PyFacts DictFacts QueryCache CacheSpec.

Local Open Scope Z_scope.

Lemma remove_cache_keys (k : str) (c : t) :
  Dict.keys (cache (_remove k c)) = others k (Dict.keys (cache c)).
Proof.
  unfold _remove. simpl. destruct (Dict.mem (cache c) k) eqn:E.
  - apply keys_del.
  - apply not_mem_keys in E. rewrite others_absent; auto.
Qed.

Lemma remove_access_keys (k : str) (c : t) :
  Dict.keys (access_times (_remove k c)) =
  others k (Dict.keys (access_times c)).
Proof.
  unfold _remove. simpl. destruct (Dict.mem (access_times c) k) eqn:E.
  - apply keys_del.
  - apply not_mem_keys in E. rewrite others_absent; auto.
Qed.

Lemma remove_cache_get_same (k : str) (c : t) :
  Dict.get (cache (_remove k c)) k = None.
Proof.
  unfold _remove. simpl. destruct (Dict.mem (cache c) k) eqn:E.
  - apply get_del_same.
  - unfold Dict.mem in E. destruct (Dict.get (cache c) k); congruence.
Qed.

Lemma remove_access_get_same (k : str) (c : t) :
  Dict.get (access_times (_remove k c)) k = None.
Proof.
  unfold _remove. simpl. destruct (Dict.mem (access_times c) k) eqn:E.
  - apply get_del_same.
  - unfold Dict.mem in E. destruct (Dict.get (access_times c) k); congruence.
Qed.

Lemma remove_cache_get_other (k k' : str) (c : t) :
  k <> k' -> Dict.get (cache (_remove k c)) k' = Dict.get (cache c) k'.
Proof.
  intros H. unfold _remove. simpl. destruct (Dict.mem (cache c) k).
  - apply get_del_other, H.
  - reflexivity.
Qed.

Lemma remove_access_get_other (k k' : str) (c : t) :
  k <> k' ->
  Dict.get (access_times (_remove k c)) k' = Dict.get (access_times c) k'.
Proof.
  intros H. unfold _remove. simpl. destruct (Dict.mem (access_times c) k).
  - apply get_del_other, H.
  - reflexivity.
Qed.

Lemma wf_remove (k : str) (c : t) : wf c -> wf (_remove k c).
Proof.
  intros [Hk Hnd]. split.
  - rewrite remove_cache_keys, remove_access_keys, Hk. reflexivity.
  - rewrite remove_cache_keys. apply others_NoDup, Hnd.
Qed.

Lemma size_remove (k : str) (c : t) :
  wf c -> In k (Dict.keys (cache c)) -> size (_remove k c) = size c - 1.
Proof.
  intros [_ Hnd] Hin. unfold size.
  rewrite !len_keys, remove_cache_keys.
  rewrite <- (@others_length k _ Hnd Hin). lia.
Qed.

Lemma size_remove_le (k : str) (c : t) : size (_remove k c) <= size c.
Proof.
  unfold size. rewrite !len_keys, remove_cache_keys.
  apply inj_le. unfold others. apply filter_length_le.
Qed.

Lemma last_access_get (c : t) (k : str) :
  In k (Dict.keys (access_times c)) ->
  Dict.get (access_times c) k = Some (last_access c k).
Proof.
  intros H. unfold last_access.
  destruct (get_keys _ _ H) as [v ->]. reflexivity.
Qed.

Lemma oldest_key_least_recent (c : t) (k : str) :
  oldest_key c = Some k -> least_recent c k.
Proof.
  unfold oldest_key, least_recent.
  destruct (Dict.keys (access_times c)) as [|k0 ks] eqn:E; [discriminate|].
  intros H. injection H as <-.
  apply min_by_first_least.
  intros x Hx. apply last_access_get. rewrite E. exact Hx.
Qed.

Lemma oldest_key_some (c : t) :
  Dict.keys (access_times c) <> [] -> exists k, oldest_key c = Some k.
Proof.
  unfold oldest_key. destruct (Dict.keys (access_times c)); [congruence|].
  eauto.
Qed.

Lemma least_recent_In (c : t) (k : str) :
  least_recent c k -> In k (Dict.keys (access_times c)).
Proof.
  intros (l1 & l2 & -> & _). apply in_app_iff. right. left. reflexivity.
Qed.

Lemma wf_evict (c : t) : wf c -> wf (_evict_oldest c).
Proof.
  intros H. unfold _evict_oldest.
  destruct (oldest_key c); [apply wf_remove, H | exact H].
Qed.

Lemma wf_init (max_size ttl : Z) : wf (init max_size ttl).
Proof. split; [reflexivity | constructor]. Qed.

Lemma wf_clear (c : t) : wf (clear c).
Proof. split; [reflexivity | constructor]. Qed.

Lemma wf_insert (c : t) (k : str) (e : entry) (now : Z) :
  wf c ->
  wf (mk (Dict.set (cache c) k e) (max_size c) (ttl c)
         (Dict.set (access_times c) k now)).
Proof.
  intros [Hk Hnd]. unfold wf. simpl. rewrite !keys_set.
  assert (Hm : Dict.mem (access_times c) k = Dict.mem (cache c) k).
  { destruct (Dict.mem (cache c) k) eqn:E.
    - apply mem_keys. rewrite <- Hk. apply mem_keys, E.
    - apply not_mem_keys. rewrite <- Hk. apply not_mem_keys, E. }
  rewrite Hm. destruct (Dict.mem (cache c) k) eqn:E.
  - auto.
  - rewrite Hk. split; [reflexivity|]. rewrite <- Hk.
    apply NoDup_snoc; [exact Hnd | apply not_mem_keys, E].
Qed.

Lemma wf_set (now1 now2 : Z) (sql : str) (data : Heap.ref)
    (schema : option str) (c : t) :
  wf c -> wf (set now1 now2 sql data schema c).
Proof.
  intros H. unfold set.
  destruct (Dict.len (cache c) >=? max_size c);
    apply wf_insert; [apply wf_evict, H | exact H].
Qed.

Lemma wf_get (now1 now2 : Z) (sql : str) (schema : option str) (c : t) :
  wf c -> wf (snd (get now1 now2 sql schema c)).
Proof.
  intros H. unfold get.
  destruct (Dict.get (cache c) (_generate_key sql schema)) as [e|] eqn:E;
    [|exact H].
  destruct (now1 - timestamp e >? ttl c); simpl; [apply wf_remove, H|].
  destruct H as [Hk Hnd]. split; simpl; [|exact Hnd].
  rewrite keys_set.
  assert (Hin : In (_generate_key sql schema) (Dict.keys (cache c))).
  { apply mem_keys. unfold Dict.mem. rewrite E. reflexivity. }
  rewrite Hk in Hin. apply mem_keys in Hin. rewrite Hin. exact Hk.
Qed.

Lemma wf_step (c : t) (o : op) : wf c -> wf (step c o).
Proof.
  destruct o; simpl; intros H.
  - apply wf_get, H.
  - apply wf_set, H.
  - apply wf_clear.
Qed.

Lemma max_size_step (c : t) (o : op) : max_size (step c o) = max_size c.
Proof.
  destruct o as [n1 n2 s sc | n1 n2 s d sc |]; simpl; try reflexivity.
  - unfold get. destruct (Dict.get _ _) as [e|]; [|reflexivity].
    destruct (_ >? _); reflexivity.
  - unfold set, _evict_oldest.
    destruct (_ >=? _); [|reflexivity].
    destruct (oldest_key c); reflexivity.
Qed.

Lemma size_insert (c : t) (k : str) (e : entry) (now : Z) :
  size (mk (Dict.set (cache c) k e) (max_size c) (ttl c)
           (Dict.set (access_times c) k now)) =
  if Dict.mem (cache c) k then size c else size c + 1.
Proof.
  unfold size. simpl. rewrite !len_keys, keys_set.
  destruct (Dict.mem (cache c) k); [reflexivity|].
  rewrite length_app. simpl. lia.
Qed.

Lemma size_nonneg (c : t) : 0 <= size c.
Proof. unfold size, Dict.len. lia. Qed.

Lemma nonempty_keys (c : t) :
  wf c -> 1 <= size c -> Dict.keys (access_times c) <> [].
Proof.
  intros [Hk _] Hs. rewrite <- Hk. unfold size in Hs.
  rewrite len_keys in Hs. destruct (Dict.keys (cache c)); [simpl in Hs; lia|].
  discriminate.
Qed.

(** A full cache of positive capacity has an oldest key, and evicting it
    frees one place. *)
Lemma evict_full (c : t) :
  wf c -> 1 <= max_size c -> size c = max_size c ->
  exists k,
    oldest_key c = Some k /\ least_recent c k /\
    In k (Dict.keys (cache c)) /\ _evict_oldest c = _remove k c /\
    size (_remove k c) = max_size c - 1.
Proof.
  intros Hwf Hcap Hfull.
  destruct (@oldest_key_some c) as [k Hk].
  { apply nonempty_keys; [exact Hwf | lia]. }
  pose proof (oldest_key_least_recent _ Hk) as Hlr.
  assert (Hin : In k (Dict.keys (cache c))).
  { destruct Hwf as [-> _]. apply least_recent_In, Hlr. }
  exists k. repeat split; auto.
  - unfold _evict_oldest. rewrite Hk. reflexivity.
  - rewrite size_remove by assumption. lia.
Qed.

Lemma size_set (now1 now2 : Z) (sql : str) (data : Heap.ref)
    (schema : option str) (c : t) :
  wf c -> 1 <= max_size c -> size c <= max_size c ->
  size (set now1 now2 sql data schema c) <= max_size c.
Proof.
  intros Hwf Hcap Hsize. unfold set. fold (size c).
  destruct (size c >=? max_size c) eqn:E.
  - assert (Hfull : size c = max_size c) by lia.
    destruct (evict_full Hwf Hcap Hfull) as (k & _ & _ & _ & -> & Hs).
    rewrite size_insert. destruct (Dict.mem _ _); lia.
  - rewrite size_insert. destruct (Dict.mem _ _); lia.
Qed.

Lemma size_get (now1 now2 : Z) (sql : str) (schema : option str) (c : t) :
  size (snd (get now1 now2 sql schema c)) <= size c.
Proof.
  unfold get. destruct (Dict.get _ _) as [e|]; [|simpl; lia].
  destruct (_ >? _); simpl; [apply size_remove_le | unfold size; simpl; lia].
Qed.

Lemma size_step (c : t) (o : op) :
  wf c -> 1 <= max_size c -> size c <= max_size c ->
  size (step c o) <= max_size c.
Proof.
  intros Hwf Hcap Hsize. destruct o as [n1 n2 s sc | n1 n2 s d sc |]; simpl.
  - pose proof (size_get n1 n2 s sc c). lia.
  - apply size_set; assumption.
  - unfold size, clear, Dict.len. simpl. lia.
Qed.

Lemma wf_run (ops : list op) : forall c, wf c -> wf (run ops c).
Proof.
  induction ops as [|o ops IH]; intros c H; simpl; [exact H|].
  apply IH, wf_step, H.
Qed.

Lemma max_size_run (ops : list op) :
  forall c, max_size (run ops c) = max_size c.
Proof.
  induction ops as [|o ops IH]; intros c; simpl; [reflexivity|].
  rewrite IH. apply max_size_step.
Qed.

Lemma size_run (ops : list op) :
  forall c, wf c -> 1 <= max_size c -> size c <= max_size c ->
            size (run ops c) <= max_size c.
Proof.
  induction ops as [|o ops IH]; intros c Hwf Hcap Hsize; simpl; [exact Hsize|].
  rewrite <- (max_size_step c o). apply IH.
  - apply wf_step, Hwf.
  - rewrite max_size_step. exact Hcap.
  - rewrite max_size_step. apply size_step; assumption.
Qed.

(** *** Filling an empty cache up to its capacity *)

Lemma set_absent (V : Type) (d : Dict.dict V) (k : str) (v : V) :
  ~ In k (Dict.keys d) -> Dict.set d k v = d ++ [(k, v)].
Proof.
  induction d as [|[k' v'] d IH]; simpl; intros H; [reflexivity|].
  destruct (str_eqb k' k) eqn:E.
  - apply str_eqb_eq in E. subst. exfalso. apply H. left. reflexivity.
  - rewrite IH; [reflexivity|]. intros Hin. apply H. right. exact Hin.
Qed.

Lemma del_absent (V : Type) (d : Dict.dict V) (k : str) :
  ~ In k (Dict.keys d) -> Dict.del d k = d.
Proof.
  unfold Dict.del. induction d as [|[k' v'] d IH]; simpl; intros H;
    [reflexivity|].
  destruct (str_eqb k' k) eqn:E.
  - apply str_eqb_eq in E. subst. exfalso. apply H. left. reflexivity.
  - simpl. rewrite IH; [reflexivity|]. intros Hin. apply H. right. exact Hin.
Qed.

Lemma del_head (V : Type) (d : Dict.dict V) (k : str) (v : V) :
  ~ In k (Dict.keys d) -> Dict.del ((k, v) :: d) k = d.
Proof.
  intros H. unfold Dict.del. simpl. rewrite str_eqb_refl. simpl.
  apply del_absent, H.
Qed.

Lemma min_by_best (f : str -> option Z) (best : str) (tb : Z) (ks : list str) :
  f best = Some tb ->
  (forall x, In x ks -> exists tx, f x = Some tx /\ tb <= tx) ->
  Dict.min_by f best ks = best.
Proof.
  intros Hb. induction ks as [|k ks IH]; intros H; simpl; [reflexivity|].
  destruct (H k) as [tk [Hk Hle]]; [left; reflexivity|].
  rewrite Hk, Hb.
  assert (E : (tk <? tb) = false) by (apply Z.ltb_ge; exact Hle).
  rewrite E. apply IH. intros x Hx. apply H. right. exact Hx.
Qed.

Lemma keys_cache_of (rs : list request) :
  Dict.keys (cache_of rs) = map key_of rs.
Proof. unfold Dict.keys, cache_of. rewrite map_map. reflexivity. Qed.

Lemma keys_access_of (rs : list request) :
  Dict.keys (access_of rs) = map key_of rs.
Proof. unfold Dict.keys, access_of. rewrite map_map. reflexivity. Qed.

Lemma get_access_of (rs : list request) (r : request) :
  NoDup (map key_of rs) -> In r rs ->
  Dict.get (access_of rs) (key_of r) = Some (r_touch r).
Proof.
  induction rs as [|r0 rs IH]; simpl; intros Hnd Hin; [contradiction|].
  inversion Hnd as [|? ? Hnotin Hnd']. subst.
  destruct Hin as [-> | Hin].
  - rewrite str_eqb_refl. reflexivity.
  - destruct (str_eqb (key_of r0) (key_of r)) eqn:E.
    + apply str_eqb_eq in E. exfalso. apply Hnotin. rewrite E.
      apply in_map, Hin.
    + apply IH; assumption.
Qed.

(** Requests with fresh, distinct keys that fit into the free places are
    appended in order; nothing is evicted. *)
Lemma run_fill (rs : list request) :
  forall c,
    wf c ->
    NoDup (Dict.keys (cache c) ++ map key_of rs) ->
    size c + Z.of_nat (List.length rs) <= max_size c ->
    run (map set_op rs) c =
    mk (cache c ++ cache_of rs) (max_size c) (ttl c)
       (access_times c ++ access_of rs).
Proof.
  induction rs as [|r rs IH]; intros c Hwf Hnd Hsize.
  - simpl. rewrite !app_nil_r. destruct c. reflexivity.
  - cbn [map run fold_left]. fold (run (map set_op rs)).
    assert (Hfresh : ~ In (key_of r) (Dict.keys (cache c))).
    { intros Hin. apply NoDup_remove_2 in Hnd. apply Hnd.
      apply in_app_iff. left. exact Hin. }
    assert (Hstep : step c (set_op r) =
                    mk (cache c ++ [(key_of r, entry_of r)]) (max_size c)
                       (ttl c) (access_times c ++ [(key_of r, r_touch r)])).
    { cbn [step set_op]. unfold set. fold (size c).
      assert (E : (size c >=? max_size c) = false).
      { cbn [List.length] in Hsize. lia. }
      rewrite E. fold (key_of r). fold (entry_of r).
      rewrite !set_absent; [reflexivity | | exact Hfresh].
      destruct Hwf as [<- _]. exact Hfresh. }
    rewrite Hstep. rewrite IH.
    + cbn [cache max_size ttl access_times].
      rewrite <- !app_assoc. reflexivity.
    + rewrite <- Hstep. apply wf_step, Hwf.
    + cbn [cache]. unfold Dict.keys. rewrite map_app. cbn [map fst].
      rewrite <- app_assoc. exact Hnd.
    + unfold size, Dict.len in *. cbn [cache max_size].
      rewrite length_app. cbn [List.length] in *. lia.
Qed.

Lemma run_fill_init (capacity ttl0 : Z) (rs : list request) :
  NoDup (map key_of rs) -> Z.of_nat (List.length rs) <= capacity ->
  run (map set_op rs) (init capacity ttl0) =
  mk (cache_of rs) capacity ttl0 (access_of rs).
Proof.
  intros Hnd Hlen. rewrite run_fill.
  - reflexivity.
  - apply wf_init.
  - exact Hnd.
  - unfold size, Dict.len. simpl. lia.
Qed.

Lemma sorted_prefix (l1 l2 : list Z) :
  StronglySorted Z.lt (l1 ++ l2) -> StronglySorted Z.lt l1.
Proof.
  induction l1 as [|x l1 IH]; simpl; intros H; [constructor|].
  apply StronglySorted_inv in H. destruct H as [Hs Hx].
  constructor; [apply IH, Hs|]. apply Forall_app in Hx. tauto.
Qed.

(** With strictly increasing access times the first request is the oldest. *)
Lemma oldest_of_increasing (capacity ttl0 : Z) (first : request)
    (rs : list request) :
  NoDup (map key_of (first :: rs)) ->
  StronglySorted Z.lt (map r_touch (first :: rs)) ->
  oldest_key (mk (cache_of (first :: rs)) capacity ttl0
                 (access_of (first :: rs))) = Some (key_of first).
Proof.
  intros Hnd Hsorted. unfold oldest_key. cbn [access_times].
  rewrite keys_access_of. cbn [map]. f_equal.
  apply min_by_best with (tb := r_touch first).
  - apply get_access_of; [exact Hnd | left; reflexivity].
  - intros x Hx. apply in_map_iff in Hx. destruct Hx as [r [<- Hr]].
    exists (r_touch r). split.
    + apply get_access_of; [exact Hnd | right; exact Hr].
    + cbn [map] in Hsorted. apply StronglySorted_inv in Hsorted.
      destruct Hsorted as [_ Hall]. rewrite Forall_forall in Hall.
      assert (r_touch first < r_touch r) by (apply Hall, in_map, Hr). lia.
Qed.

(** The overflowing insert: the first key goes, the new one is appended. *)
Lemma overflow_insert (capacity ttl0 : Z) (first last : request)
    (middle : list request) :
  Z.of_nat (List.length (first :: middle)) = capacity ->
  NoDup (map key_of (first :: middle ++ [last])) ->
  StronglySorted Z.lt (map r_touch (first :: middle ++ [last])) ->
  step (mk (cache_of (first :: middle)) capacity ttl0
           (access_of (first :: middle))) (set_op last) =
  mk (cache_of (middle ++ [last])) capacity ttl0
     (access_of (middle ++ [last])).
Proof.
  intros Hlen Hnd Hsorted.
  assert (Hnd1 : NoDup (map key_of (first :: middle))).
  { change (first :: middle ++ [last]) with ((first :: middle) ++ [last])
      in Hnd.
    rewrite map_app in Hnd. apply NoDup_app_remove_r in Hnd. exact Hnd. }
  assert (Hs1 : StronglySorted Z.lt (map r_touch (first :: middle))).
  { change (first :: middle ++ [last]) with ((first :: middle) ++ [last])
      in Hsorted.
    rewrite map_app in Hsorted. apply sorted_prefix in Hsorted.
    exact Hsorted. }
  cbn [step set_op]. unfold set. cbn [cache max_size].
  assert (E : (Dict.len (cache_of (first :: middle)) >=? capacity) = true).
  { unfold Dict.len, cache_of. rewrite length_map. lia. }
  rewrite E. unfold _evict_oldest.
  rewrite (oldest_of_increasing capacity ttl0 Hnd1 Hs1).
  assert (Hfirst : ~ In (key_of first) (map key_of (middle ++ [last]))).
  { cbn [map] in Hnd. inversion Hnd. assumption. }
  assert (Hfirst' : ~ In (key_of first) (map key_of middle)).
  { intros H. apply Hfirst. rewrite map_app. apply in_app_iff. auto. }
  assert (Hlast : ~ In (key_of last) (map key_of middle)).
  { cbn [map] in Hnd. inversion Hnd as [|? ? _ Hnd2]. subst.
    rewrite map_app in Hnd2. cbn [map] in Hnd2.
    apply NoDup_remove_2 in Hnd2. rewrite app_nil_r in Hnd2. exact Hnd2. }
  unfold _remove. cbn [cache access_times max_size ttl].
  assert (M1 : Dict.mem (cache_of (first :: middle)) (key_of first) = true).
  { apply mem_keys. rewrite keys_cache_of. left. reflexivity. }
  assert (M2 : Dict.mem (access_of (first :: middle)) (key_of first) = true).
  { apply mem_keys. rewrite keys_access_of. left. reflexivity. }
  rewrite M1, M2.
  change (cache_of (first :: middle))
    with ((key_of first, entry_of first) :: cache_of middle).
  change (access_of (first :: middle))
    with ((key_of first, r_touch first) :: access_of middle).
  rewrite !del_head
    by (rewrite ?keys_cache_of, ?keys_access_of; exact Hfirst').
  fold (key_of last). fold (entry_of last).
  rewrite !set_absent
    by (rewrite ?keys_cache_of, ?keys_access_of; exact Hlast).
  unfold cache_of, access_of. rewrite !map_app. reflexivity.
Qed.

Lemma run_app (ops1 ops2 : list op) (c : t) :
  run (ops1 ++ ops2) c = run ops2 (run ops1 c).
Proof. unfold run. apply fold_left_app. Qed.

Lemma ttl_set (now1 now2 : Z) (sql : str) (data : Heap.ref)
    (schema : option str) (c : t) :
  ttl (set now1 now2 sql data schema c) = ttl c.
Proof.
  unfold set, _evict_oldest. destruct (_ >=? _); [|reflexivity].
  destruct (oldest_key c); reflexivity.
Qed.

Lemma get_cache_set (now1 now2 : Z) (sql : str) (data : Heap.ref)
    (schema : option str) (c : t) :
  Dict.get (cache (set now1 now2 sql data schema c))
           (_generate_key sql schema) =
  Some (mk_entry data now1 sql schema).
Proof. unfold set. cbn [cache]. apply get_set_same. Qed.

Lemma ttl_step (c : t) (o : op) : ttl (step c o) = ttl c.
Proof.
  destruct o as [n1 n2 s sc | n1 n2 s d sc |]; simpl.
  - unfold get. destruct (Dict.get _ _) as [e|]; [|reflexivity].
    destruct (_ >? _); reflexivity.
  - exact (ttl_set n1 n2 s d sc c).
  - reflexivity.
Qed.

Lemma ttl_run (ops : list op) : forall c, ttl (run ops c) = ttl c.
Proof.
  induction ops as [|o ops IH]; intros c; simpl; [reflexivity|].
  rewrite IH. apply ttl_step.
Qed.

(** [get] after [set] on the same key. *)
Lemma get_after_set (created touched now now' : Z) (sql sql' : str)
    (data : Heap.ref) (schema schema' : option str) (c : t) :
  _generate_key sql' schema' = _generate_key sql schema ->
  let key := _generate_key sql schema in
  let c1 := set created touched sql data schema c in
  get now now' sql' schema' c1 =
  if now - created >? ttl c then (None, _remove key c1)
  else (Some data,
        mk (cache c1) (max_size c1) (ttl c1)
           (Dict.set (access_times c1) key now')).
Proof.
  intros Hkey key c1. unfold get. rewrite Hkey. fold key.
  unfold c1, key. rewrite get_cache_set, ttl_set. reflexivity.
Qed.

End CacheFacts.

(** C3 (as amended).  Starting from an empty cache, after every sequence of
    the public operations get, set and clear the keys of [access_times] are
    keys of [cache], whatever the capacity and the ttl; when the capacity is
    at least 1 the number of stored entries is at most the capacity. *)
Theorem cache_invariant (capacity ttl : Z) (ops : list QueryCache.op) :
  let c := QueryCache.run ops (QueryCache.init capacity ttl) in
  incl (Dict.keys (QueryCache.access_times c))
       (Dict.keys (QueryCache.cache c)) /\
  ((1 <= capacity)%Z -> (Dict.len (QueryCache.cache c) <= capacity)%Z).
Proof.
  intros c.
  assert (Hwf : CacheSpec.wf c)
    by (apply CacheFacts.wf_run, CacheFacts.wf_init).
  split.
  - destruct Hwf as [<- _]. apply incl_refl.
  - intros Hcap.
    change capacity with (QueryCache.max_size (QueryCache.init capacity ttl)).
    apply CacheFacts.size_run.
    + apply CacheFacts.wf_init.
    + exact Hcap.
    + simpl. unfold CacheSpec.size, Dict.len. simpl. lia.
Qed.

Lemma cache_invariant_witness :
  (1 <= 2)%Z /\
  (Dict.len
     (QueryCache.cache
        (QueryCache.run
           [QueryCache.OpSet 1 1 (lit "SELECT 1") 0%nat None;
            QueryCache.OpSet 2 2 (lit "SELECT 2") 1%nat None;
            QueryCache.OpGet 3 3 (lit "SELECT 1") None;
            QueryCache.OpSet 4 4 (lit "SELECT 3") 2%nat None]
           (QueryCache.init 2 300))) <= 2)%Z.
Proof.
  assert (H : (1 <= 2)%Z) by lia.
  split; [exact H|].
  exact (proj2 (cache_invariant 2 300 _) H).
Defined.

(** C3, the claim as stated, fails for the capacity 0: one [set] on the
    empty cache leaves one entry. *)
Lemma cache_bound_fails_at_capacity_zero :
  let c := QueryCache.run [QueryCache.OpSet 1 1 (lit "SELECT 1") 0 None]
             (QueryCache.init 0 300) in
  Dict.len (QueryCache.cache c) = 1%Z /\
  ~ (Dict.len (QueryCache.cache c) <= 0)%Z.
Proof.
  assert (E : Dict.len
                (QueryCache.cache
                   (QueryCache.run
                      [QueryCache.OpSet 1 1 (lit "SELECT 1") 0 None]
                      (QueryCache.init 0 300))) = 1%Z)
    by (vm_compute; reflexivity).
  cbv zeta. rewrite E. split; [reflexivity | lia].
Qed.

(** C4 (as amended).  When the capacity is at least 1 and [set] is called on
    a cache holding exactly capacity entries, it first evicts exactly one
    entry, the one whose last access is least (the first such key in
    iteration order), and then inserts.  Consequently, inserting
    capacity + 1 distinct keys with strictly increasing access times leaves
    exactly capacity entries, and the key least recently touched before the
    overflowing insert is the only one absent afterwards. *)
Theorem set_at_capacity_evicts_least_recent :
  (forall (capacity ttl : Z) (ops : list QueryCache.op) (now1 now2 : Z)
          (sql : str) (data : Heap.ref) (schema : option str),
      let c := QueryCache.run ops (QueryCache.init capacity ttl) in
      let key := QueryCache._generate_key sql schema in
      (1 <= capacity)%Z ->
      Dict.len (QueryCache.cache c) = capacity ->
      exists k,
        CacheSpec.least_recent c k /\
        let c' := QueryCache._remove k c in
        Dict.len (QueryCache.cache c') = (capacity - 1)%Z /\
        Dict.get (QueryCache.cache c') k = None /\
        Dict.get (QueryCache.access_times c') k = None /\
        (forall k', k' <> k ->
           Dict.get (QueryCache.cache c') k' =
           Dict.get (QueryCache.cache c) k' /\
           Dict.get (QueryCache.access_times c') k' =
           Dict.get (QueryCache.access_times c) k') /\
        QueryCache.set now1 now2 sql data schema c =
        QueryCache.mk
          (Dict.set (QueryCache.cache c') key
             (QueryCache.mk_entry data now1 sql schema))
          capacity ttl
          (Dict.set (QueryCache.access_times c') key now2)) /\
  (forall (capacity ttl : Z) (before : list QueryCache.request)
          (last : QueryCache.request),
      (1 <= capacity)%Z ->
      Z.of_nat (List.length before) = capacity ->
      NoDup (map QueryCache.key_of (before ++ [last])) ->
      StronglySorted Z.lt (map QueryCache.r_touch (before ++ [last])) ->
      let full := QueryCache.run (map QueryCache.set_op before)
                    (QueryCache.init capacity ttl) in
      let c := QueryCache.run (map QueryCache.set_op (before ++ [last]))
                 (QueryCache.init capacity ttl) in
      Dict.len (QueryCache.cache c) = capacity /\
      exists k,
        CacheSpec.least_recent full k /\
        forall r, In r (before ++ [last]) ->
          (In (QueryCache.key_of r) (Dict.keys (QueryCache.cache c)) <->
           QueryCache.key_of r <> k)).
Proof.
  split.
  - intros capacity ttl ops now1 now2 sql data schema c key Hcap Hfull.
    assert (Hwf : CacheSpec.wf c)
      by (apply CacheFacts.wf_run, CacheFacts.wf_init).
    assert (Hmax : QueryCache.max_size c = capacity)
      by (unfold c; rewrite CacheFacts.max_size_run; reflexivity).
    assert (Httl : QueryCache.ttl c = ttl)
      by (unfold c; rewrite CacheFacts.ttl_run; reflexivity).
    destruct (@CacheFacts.evict_full c) as (k & Hk & Hlr & Hin & Hev & Hs);
      [exact Hwf | lia | unfold CacheSpec.size; lia |].
    exists k. split; [exact Hlr|]. cbv zeta.
    split; [unfold CacheSpec.size in Hs; lia|].
    split; [apply CacheFacts.remove_cache_get_same|].
    split; [apply CacheFacts.remove_access_get_same|].
    split.
    + intros k' Hne. split.
      * apply CacheFacts.remove_cache_get_other. congruence.
      * apply CacheFacts.remove_access_get_other. congruence.
    + unfold QueryCache.set. rewrite Hfull, Hmax, Z.geb_leb, Z.leb_refl.
      rewrite Hev. rewrite <- Hmax at 1. rewrite <- Httl at 1. reflexivity.
  - intros capacity ttl before last Hcap Hlen Hnd Hsorted full c.
    destruct before as [|first middle]; [simpl in Hlen; lia|].
    assert (Hnd1 : NoDup (map QueryCache.key_of (first :: middle))).
    { rewrite map_app in Hnd. apply NoDup_app_remove_r in Hnd. exact Hnd. }
    assert (Efull : full =
                    QueryCache.mk (CacheSpec.cache_of (first :: middle))
                      capacity ttl
                      (CacheSpec.access_of (first :: middle))).
    { unfold full. apply CacheFacts.run_fill_init; [exact Hnd1 | lia]. }
    assert (Ec : c =
                 QueryCache.mk (CacheSpec.cache_of (middle ++ [last]))
                   capacity ttl
                   (CacheSpec.access_of (middle ++ [last]))).
    { unfold c. rewrite map_app, CacheFacts.run_app. fold full.
      rewrite Efull. cbn [map QueryCache.run fold_left].
      apply CacheFacts.overflow_insert; assumption. }
    split.
    + rewrite Ec. cbn [QueryCache.cache]. unfold Dict.len, CacheSpec.cache_of.
      rewrite length_map, length_app. cbn [List.length] in *. lia.
    + exists (QueryCache.key_of first). split.
      * apply CacheFacts.oldest_key_least_recent. rewrite Efull.
        apply CacheFacts.oldest_of_increasing; [exact Hnd1|].
        rewrite map_app in Hsorted. apply CacheFacts.sorted_prefix in Hsorted.
        exact Hsorted.
      * intros r Hr. rewrite Ec. cbn [QueryCache.cache].
        rewrite CacheFacts.keys_cache_of.
        cbn [app map] in Hnd. inversion Hnd as [|? ? Hnotin Hnd2]. subst.
        split.
        -- intros Hin Heq. apply Hnotin. rewrite <- Heq. exact Hin.
        -- intros Hne. cbn [app] in Hr. destruct Hr as [<- | Hr];
             [congruence | apply in_map, Hr].
Qed.

Lemma set_at_capacity_evicts_least_recent_witness :
  let r1 := QueryCache.mk_request (lit "SELECT 1") None 0 1 1 in
  let r2 := QueryCache.mk_request (lit "SELECT 2") None 1 2 2 in
  let r3 := QueryCache.mk_request (lit "SELECT 3") None 2 3 3 in
  (1 <= 2)%Z /\
  NoDup (map QueryCache.key_of ([r1; r2] ++ [r3])) /\
  StronglySorted Z.lt (map QueryCache.r_touch ([r1; r2] ++ [r3])) /\
  Dict.len
    (QueryCache.cache
       (QueryCache.run (map QueryCache.set_op ([r1; r2] ++ [r3]))
          (QueryCache.init 2 300))) = 2%Z.
Proof.
  intros r1 r2 r3.
  assert (H1 : (1 <= 2)%Z) by lia.
  assert (H2 : Z.of_nat (List.length [r1; r2]) = 2%Z) by reflexivity.
  assert (H3 : NoDup (map QueryCache.key_of ([r1; r2] ++ [r3]))).
  { assert (E : map QueryCache.key_of ([r1; r2] ++ [r3]) =
                [lit "7283ee3fe8246a9210fb01a1307f0ce5";
                 lit "2498be3c0cc7ace939845eed5767109e";
                 lit "5df85581bbadeb43184caef268bb1093"])
      by (vm_compute; reflexivity).
    rewrite E. repeat constructor; simpl; intuition discriminate. }
  assert (H4 : StronglySorted Z.lt
                 (map QueryCache.r_touch ([r1; r2] ++ [r3]))).
  { simpl. repeat constructor; lia. }
  split; [exact H1|]. split; [exact H3|]. split; [exact H4|].
  exact (proj1 (proj2 set_at_capacity_evicts_least_recent
                  2%Z 300%Z [r1; r2] r3 H1 H2 H3 H4)).
Defined.

(** C4, the claim as stated, fails for the capacity 0: the empty cache holds
    exactly capacity entries, [set] evicts nothing, and after the insert of
    capacity + 1 = 1 key one entry is stored and none is absent. *)
Lemma no_eviction_at_capacity_zero :
  let c := QueryCache.init 0 300 in
  let c' := QueryCache.set 1 1 (lit "SELECT 1") 0 None c in
  Dict.len (QueryCache.cache c) = QueryCache.max_size c /\
  QueryCache._evict_oldest c = c /\
  Dict.len (QueryCache.cache c') = 1%Z /\
  Dict.len (QueryCache.cache c') <> QueryCache.max_size c' /\
  Dict.keys (QueryCache.cache c') =
    [QueryCache._generate_key (lit "SELECT 1") None].
Proof.
  cbv zeta. repeat split; try (vm_compute; reflexivity).
  vm_compute. discriminate.
Qed.

(** C5. After [set(sql, payload, namespace)] the call [get(sql, namespace)]
    at a time [now] with [now - createdAt <= ttl] returns the stored payload
    and sets the last access of the key to the current time; with
    [now - createdAt > ttl] it returns [None] and removes the entry from both
    dictionaries. *)
Theorem set_get_round_trip (c : QueryCache.t) (sql : str)
    (payload : Heap.ref) (namespace : option str)
    (created touched now now' : Z) :
  let key := QueryCache._generate_key sql namespace in
  let c1 := QueryCache.set created touched sql payload namespace c in
  let after := QueryCache.get now now' sql namespace c1 in
  ((now - created <= QueryCache.ttl c)%Z ->
   fst after = Some payload /\
   QueryCache.cache (snd after) = QueryCache.cache c1 /\
   QueryCache.access_times (snd after) =
     Dict.set (QueryCache.access_times c1) key now' /\
   Dict.get (QueryCache.access_times (snd after)) key = Some now') /\
  ((now - created > QueryCache.ttl c)%Z ->
   fst after = None /\
   snd after = QueryCache._remove key c1 /\
   Dict.get (QueryCache.cache (snd after)) key = None /\
   Dict.get (QueryCache.access_times (snd after)) key = None).
Proof.
  intros key c1 after.
  assert (E := @CacheFacts.get_after_set created touched now now' sql sql
                 payload namespace namespace c eq_refl).
  cbv zeta in E. fold key c1 after in E.
  split; intros H.
  - assert (G : (now - created >? QueryCache.ttl c)%Z = false) by lia.
    rewrite G in E. rewrite E. cbn [fst snd QueryCache.cache
                                    QueryCache.access_times].
    repeat split. apply DictFacts.get_set_same.
  - assert (G : (now - created >? QueryCache.ttl c)%Z = true) by lia.
    rewrite G in E. rewrite E. cbn [fst snd].
    repeat split.
    + apply CacheFacts.remove_cache_get_same.
    + apply CacheFacts.remove_access_get_same.
Qed.

Lemma set_get_round_trip_witness :
  let c := QueryCache.init 100 300 in
  let c1 := QueryCache.set 1000 1000 (lit "SELECT 1") 7 None c in
  ((1300 - 1000 <= QueryCache.ttl c)%Z /\
   fst (QueryCache.get 1300 1300 (lit "SELECT 1") None c1) = Some 7) /\
  ((1301 - 1000 > QueryCache.ttl c)%Z /\
   fst (QueryCache.get 1301 1301 (lit "SELECT 1") None c1) = None).
Proof.
  intros c c1.
  assert (H1 : (1300 - 1000 <= QueryCache.ttl c)%Z) by (simpl; lia).
  assert (H2 : (1301 - 1000 > QueryCache.ttl c)%Z) by (simpl; lia).
  split; (split; [assumption|]).
  - exact (proj1 (proj1 (set_get_round_trip c (lit "SELECT 1") 7 None
                           1000 1000 1300 1300) H1)).
  - exact (proj1 (proj2 (set_get_round_trip c (lit "SELECT 1") 7 None
                           1000 1000 1301 1301) H2)).
Defined.

(** C10. The cache key is the md5 digest of [sql + "_" + namespace], the
    namespace counting as empty when it is [None] or [""].  So [get] and
    [set] with the namespaces [None] and [""] address the same entry, and
    two pairs (sql, namespace) whose concatenations coincide, such as
    ("A_", "") and ("A", "_"), share one entry and overwrite each other. *)
Theorem cache_key_concatenation :
  (forall (sql : str) (namespace : option str),
      QueryCache._generate_key sql namespace =
      Hashlib.md5_hexdigest
        (sql ++ lit "_" ++ match namespace with
                           | Some n => n
                           | None => lit ""
                           end)) /\
  (forall (sql : str) (c : QueryCache.t) (now now' t1 t2 : Z)
          (p : Heap.ref),
      QueryCache._generate_key sql None =
      QueryCache._generate_key sql (Some (lit "")) /\
      QueryCache.get now now' sql None c =
      QueryCache.get now now' sql (Some (lit "")) c /\
      Dict.keys (QueryCache.cache (QueryCache.set t1 t2 sql p None c)) =
      Dict.keys
        (QueryCache.cache (QueryCache.set t1 t2 sql p (Some (lit "")) c))) /\
  (forall (sql1 ns1 sql2 ns2 : str),
      sql1 ++ lit "_" ++ ns1 = sql2 ++ lit "_" ++ ns2 ->
      QueryCache._generate_key sql1 (Some ns1) =
      QueryCache._generate_key sql2 (Some ns2) /\
      forall (c : QueryCache.t) (now now' t1 t2 t3 t4 : Z)
             (p1 p2 : Heap.ref),
        (now - t3 <= QueryCache.ttl c)%Z ->
        fst (QueryCache.get now now' sql1 (Some ns1)
               (QueryCache.set t3 t4 sql2 p2 (Some ns2)
                  (QueryCache.set t1 t2 sql1 p1 (Some ns1) c))) = Some p2) /\
  QueryCache._generate_key (lit "A_") (Some (lit "")) =
  QueryCache._generate_key (lit "A") (Some (lit "_")).
Proof.
  assert (Hkey : forall sql namespace,
             QueryCache._generate_key sql namespace =
             Hashlib.md5_hexdigest
               (sql ++ lit "_" ++ match namespace with
                                  | Some n => n
                                  | None => lit ""
                                  end)).
  { intros sql [[|a n]|]; reflexivity. }
  split; [exact Hkey|]. split; [|split].
  - intros sql c now now' t1 t2 p.
    assert (E : QueryCache._generate_key sql None =
                QueryCache._generate_key sql (Some (lit "")))
      by reflexivity.
    split; [exact E|]. split.
    + unfold QueryCache.get. rewrite E. reflexivity.
    + unfold QueryCache.set. cbn [QueryCache.cache].
      rewrite !DictFacts.keys_set, E. reflexivity.
  - intros sql1 ns1 sql2 ns2 Hcat.
    assert (E : QueryCache._generate_key sql1 (Some ns1) =
                QueryCache._generate_key sql2 (Some ns2))
      by (rewrite !Hkey, Hcat; reflexivity).
    split; [exact E|].
    intros c now now' t1 t2 t3 t4 p1 p2 Hfresh.
    rewrite (@CacheFacts.get_after_set t3 t4 now now' sql2 sql1 p2
               (Some ns2) (Some ns1) _ E).
    rewrite CacheFacts.ttl_set.
    assert (G : (now - t3 >? QueryCache.ttl c)%Z = false) by lia.
    rewrite G. reflexivity.
  - rewrite !Hkey. reflexivity.
Qed.

Lemma cache_key_concatenation_witness :
  let c := QueryCache.init 100 300 in
  lit "A_" ++ lit "_" ++ lit "" = lit "A" ++ lit "_" ++ lit "_" /\
  (10 - 2 <= QueryCache.ttl c)%Z /\
  fst (QueryCache.get 10 10 (lit "A_") (Some (lit ""))
         (QueryCache.set 2 2 (lit "A") 8 (Some (lit "_"))
            (QueryCache.set 1 1 (lit "A_") 7 (Some (lit "")) c))) = Some 8.
Proof.
  intros c.
  assert (H1 : lit "A_" ++ lit "_" ++ lit "" = lit "A" ++ lit "_" ++ lit "_")
    by reflexivity.
  assert (H2 : (10 - 2 <= QueryCache.ttl c)%Z) by (simpl; lia).
  split; [exact H1|]. split; [exact H2|].
  exact (proj2 (proj1 (proj2 (proj2 cache_key_concatenation))
                  (lit "A_") (lit "") (lit "A") (lit "_") H1)
           c 10%Z 10%Z 1%Z 1%Z 2%Z 2%Z 7 8 H2).
Defined.

(** ** [execute_query] *)

Module ExecFacts.
Import SQLValidator DamengDatabase ExecSpec.

Lemma error_message_names_tier (sql : str) (m : SecurityMode) :
  validate_sql sql m = false ->
  exists category,
    In category categories /\
    get_error_message sql m =
    tier_name m ++ category
      ++ _extract_first_keyword (strip (upper sql)).
Proof.
  intros Hrej. unfold get_error_message. destruct m.
  - destruct (mem _ WRITE_OPERATIONS).
    + exists (lit "下禁止写入操作: "). split; [simpl; auto | reflexivity].
    + destruct (mem _ DANGEROUS_OPERATIONS).
      * exists (lit "下禁止危险操作: "). split; [simpl; auto | reflexivity].
      * exists (lit "下不支持的操作: "). split; [simpl; auto | reflexivity].
  - destruct (mem _ DANGEROUS_OPERATIONS).
    + exists (lit "下禁止危险操作: "). split; [simpl; auto | reflexivity].
    + exists (lit "下不支持的操作: "). split; [simpl; auto | reflexivity].
  - discriminate.
Qed.

(** The category of the message is chosen from the leading keyword. *)
Lemma error_message_category (sql : str) (m : SecurityMode) :
  validate_sql sql m = false ->
  let kw := _extract_first_keyword (strip (upper sql)) in
  (m = READONLY -> In kw Policy.Write ->
   get_error_message sql m = tier_name m ++ lit "下禁止写入操作: " ++ kw) /\
  (In kw Policy.Dangerous ->
   get_error_message sql m = tier_name m ++ lit "下禁止危险操作: " ++ kw) /\
  ((m = READONLY -> ~ In kw Policy.Write) -> ~ In kw Policy.Dangerous ->
   get_error_message sql m = tier_name m ++ lit "下不支持的操作: " ++ kw).
Proof.
  intros Hrej kw.
  assert (Hm : m <> FULL_ACCESS)
    by (intros ->; unfold validate_sql in Hrej; discriminate Hrej).
  unfold get_error_message. fold kw.
  change WRITE_OPERATIONS with Policy.Write.
  change DANGEROUS_OPERATIONS with Policy.Dangerous.
  clearbody kw.
  destruct (mem kw Policy.Write) eqn:Ew;
    destruct (mem kw Policy.Dangerous) eqn:Ed.
  - apply PyFacts.mem_In in Ew. simpl in Ew.
    destruct Ew as [<-|[<-|[]]]; vm_compute in Ed; discriminate Ed.
  - apply PyFacts.mem_In in Ew.
    assert (Hd : ~ In kw Policy.Dangerous).
    { intros H. apply PyFacts.mem_In in H. congruence. }
    destruct m; [| |congruence].
    + split; [reflexivity|]. split; [contradiction|].
      intros H. exfalso. exact (H eq_refl Ew).
    + split; [discriminate|]. split; [contradiction|]. reflexivity.
  - apply PyFacts.mem_In in Ed.
    destruct m; [| |congruence];
      (split; [intros _ H; apply PyFacts.mem_In in H; congruence|]);
      (split; [reflexivity|]); intros _ H; contradiction.
  - assert (Hw : ~ In kw Policy.Write).
    { intros H. apply PyFacts.mem_In in H. congruence. }
    assert (Hd : ~ In kw Policy.Dangerous).
    { intros H. apply PyFacts.mem_In in H. congruence. }
    destruct m; [| |congruence];
      (split; [intros _ H; contradiction|]);
      (split; [intros H; contradiction|]); reflexivity.
Qed.

Lemma read_write (h : Heap.heap) :
  forall (r : Heap.ref) (rows : list Heap.row),
    (r < List.length h)%nat -> Heap.read (Heap.write h r rows) r = Some rows.
Proof.
  unfold Heap.read. induction h as [|x h IH]; intros r rows Hr; simpl in *.
  - lia.
  - destruct r as [|r]; simpl; [reflexivity|]. apply IH. lia.
Qed.

End ExecFacts.

(** C8 (as amended).  For a statement the validator rejects under the
    configured tier, [execute_query] raises a [ValueError] before any access
    to the cache or to the database and leaves the cache, both
    dictionaries, as it was.  The message names the tier and the leading
    keyword of the statement, under a category chosen from that keyword
    alone: a forbidden write for a Write keyword under ReadOnly, a forbidden
    dangerous operation for a Dangerous keyword, an unsupported operation
    for every other keyword. *)
Theorem rejected_statement_raises (cfg : DamengDatabase.config)
    (clk : DamengDatabase.clock) (db : str -> DamengDatabase.db_outcome)
    (sql : str) (use_cache : bool) (self : DamengDatabase.t)
    (Hrejected :
       SQLValidator.validate_sql sql (DamengDatabase.security_mode cfg)
       = false) :
  let mode := DamengDatabase.security_mode cfg in
  let kw := SQLValidator._extract_first_keyword (strip (upper sql)) in
  let '(res, self', trace) :=
    DamengDatabase.execute_query cfg clk db sql use_cache self in
  res = DamengDatabase.Raise
          (DamengDatabase.ValueError
             (lit "SQL操作被安全策略禁止: "
                ++ SQLValidator.get_error_message sql mode)) /\
  (exists category,
      In category ExecSpec.categories /\
      SQLValidator.get_error_message sql mode =
      ExecSpec.tier_name mode ++ category ++ kw) /\
  (mode = READONLY -> In kw Policy.Write ->
   SQLValidator.get_error_message sql mode =
   ExecSpec.tier_name mode ++ lit "下禁止写入操作: " ++ kw) /\
  (In kw Policy.Dangerous ->
   SQLValidator.get_error_message sql mode =
   ExecSpec.tier_name mode ++ lit "下禁止危险操作: " ++ kw) /\
  ((mode = READONLY -> ~ In kw Policy.Write) -> ~ In kw Policy.Dangerous ->
   SQLValidator.get_error_message sql mode =
   ExecSpec.tier_name mode ++ lit "下不支持的操作: " ++ kw) /\
  trace = [] /\
  self' = self /\
  QueryCache.cache (DamengDatabase.query_cache self') =
    QueryCache.cache (DamengDatabase.query_cache self) /\
  QueryCache.access_times (DamengDatabase.query_cache self') =
    QueryCache.access_times (DamengDatabase.query_cache self).
Proof.
  intros mode kw. unfold DamengDatabase.execute_query. rewrite Hrejected.
  cbn [negb]. split; [reflexivity|].
  split; [apply ExecFacts.error_message_names_tier, Hrejected|].
  destruct (ExecFacts.error_message_category _ _ Hrejected) as (A & B & C).
  split; [exact A|]. split; [exact B|]. split; [exact C|].
  repeat split.
Qed.

Lemma rejected_statement_raises_witness :
  let cfg := DamengDatabase.mk_config READONLY 1000 in
  let clk := DamengDatabase.mk_clock 1 1 1 1 in
  let db := fun _ : str => DamengDatabase.DbDone [] 1 in
  let self := DamengDatabase.mk (QueryCache.init 100 300) [] in
  SQLValidator.validate_sql (lit "drop table t") READONLY = false /\
  DamengDatabase.execute_query cfg clk db (lit "drop table t") true self =
  (DamengDatabase.Raise
     (DamengDatabase.ValueError
        (lit "SQL操作被安全策略禁止: 只读模式下禁止危险操作: DROP")),
   self, []).
Proof.
  intros cfg clk db self.
  assert (H : SQLValidator.validate_sql (lit "drop table t")
                (DamengDatabase.security_mode cfg) = false)
    by (vm_compute; reflexivity).
  split; [exact H|].
  pose proof (@rejected_statement_raises cfg clk db (lit "drop table t")
                true self H) as R.
  cbv zeta in R.
  destruct (DamengDatabase.execute_query cfg clk db (lit "drop table t")
              true self) as [[res self'] trace].
  destruct R as (-> & _ & _ & _ & _ & -> & -> & _). reflexivity.
Defined.

(** C8 as stated does not hold: the message need not name the offending
    keyword or its category.  "SELECT * FROM T; DROP TABLE T" is rejected
    under ReadOnly for the embedded DROP TABLE, "SELECT * FROM T" alone
    being accepted; the message reports SELECT as an unsupported operation
    and mentions neither DROP nor a dangerous operation. *)
Lemma rejection_message_omits_offending_keyword :
  let cfg := DamengDatabase.mk_config READONLY 1000 in
  let clk := DamengDatabase.mk_clock 1 1 1 1 in
  let db := fun _ : str => DamengDatabase.DbDone [] 1 in
  let self := DamengDatabase.mk (QueryCache.init 100 300) [] in
  let sql := lit "SELECT * FROM T; DROP TABLE T" in
  SQLValidator.validate_sql (lit "SELECT * FROM T") READONLY = true /\
  SQLValidator.validate_sql sql READONLY = false /\
  exists msg,
    DamengDatabase.execute_query cfg clk db sql true self =
    (DamengDatabase.Raise (DamengDatabase.ValueError msg), self, []) /\
    msg = lit "SQL操作被安全策略禁止: 只读模式下不支持的操作: SELECT" /\
    contains msg (lit "DROP") = false /\
    contains msg (lit "危险") = false.
Proof.
  intros cfg clk db self sql.
  split; [vm_compute; reflexivity|]. split; [vm_compute; reflexivity|].
  exists (lit "SQL操作被安全策略禁止: 只读模式下不支持的操作: SELECT").
  split; [vm_compute; reflexivity|]. split; [reflexivity|].
  split; vm_compute; reflexivity.
Qed.

(** C7 (as amended).  For every validated statement whose upper-cased,
    trimmed text starts with one of SELECT, WITH, SHOW, DESCRIBE, EXPLAIN,
    [execute_query] with caching enabled consults the cache ([get]) before
    it dispatches to the database and, on a successful read, writes the
    result back into the cache ([set]); a validated statement without such a
    prefix never reads from or populates the cache. *)
Theorem caching_follows_query_prefix (cfg : DamengDatabase.config)
    (clk : DamengDatabase.clock) (db : str -> DamengDatabase.db_outcome)
    (sql : str) (self : DamengDatabase.t)
    (Hvalid :
       SQLValidator.validate_sql sql (DamengDatabase.security_mode cfg)
       = true) :
  let looked :=
    QueryCache.get (DamengDatabase.get_check clk)
      (DamengDatabase.get_touch clk) sql None
      (DamengDatabase.query_cache self) in
  let '(res, self', trace) :=
    DamengDatabase.execute_query cfg clk db sql true self in
  (DamengDatabase.is_query sql = true ->
   hd_error trace = Some (DamengDatabase.CacheGet sql) /\
   (forall r, fst looked = Some r ->
      res = DamengDatabase.Return r /\
      trace = [DamengDatabase.CacheGet sql] /\
      DamengDatabase.query_cache self' = snd looked) /\
   (fst looked = None -> db sql = DamengDatabase.DbError ->
      res = DamengDatabase.Raise DamengDatabase.DriverError /\
      trace = [DamengDatabase.CacheGet sql; DamengDatabase.DbExecute sql] /\
      DamengDatabase.query_cache self' = snd looked) /\
   (forall rows n,
      fst looked = None -> db sql = DamengDatabase.DbDone rows n ->
      exists r,
        res = DamengDatabase.Return r /\
        trace = [DamengDatabase.CacheGet sql; DamengDatabase.DbExecute sql;
                 DamengDatabase.CacheSet sql r] /\
        Heap.read (DamengDatabase.heap self') r =
          Some (DamengDatabase.truncate cfg rows) /\
        DamengDatabase.query_cache self' =
          QueryCache.set (DamengDatabase.set_stamp clk)
            (DamengDatabase.set_touch clk) sql r None (snd looked))) /\
  (DamengDatabase.is_query sql = false ->
   trace = [DamengDatabase.DbExecute sql] /\
   existsb ExecSpec.is_cache_event trace = false /\
   DamengDatabase.query_cache self' = DamengDatabase.query_cache self).
Proof.
  intros looked. unfold DamengDatabase.execute_query. rewrite Hvalid.
  cbn [negb andb]. fold looked.
  destruct (DamengDatabase.is_query sql) eqn:Hq.
  - destruct looked as [[r|] qc] eqn:Hl; cbn [fst snd].
    + split; [|discriminate]. intros _.
      split; [reflexivity|]. split; [|split].
      * intros r' Hr. injection Hr as <-. auto.
      * discriminate.
      * discriminate.
    + destruct (db sql) as [|rows n] eqn:Hdb.
      * split; [|discriminate]. intros _.
        split; [reflexivity|]. split; [discriminate|].
        split; [auto | discriminate].
      * cbn [Heap.alloc]. split; [|discriminate]. intros _.
        split; [reflexivity|]. split; [discriminate|].
        split; [discriminate|].
        intros rows' n' _ Hd. injection Hd as <- <-.
        exists (List.length (DamengDatabase.heap self)).
        split; [reflexivity|]. split; [reflexivity|].
        split; [|reflexivity].
        cbn [DamengDatabase.heap]. unfold Heap.read.
        rewrite nth_error_app2 by lia. rewrite Nat.sub_diag. reflexivity.
  - destruct (db sql) as [|rows n]; cbn [Heap.alloc];
      (split; [discriminate|]); intros _; repeat split.
Qed.

Lemma caching_follows_query_prefix_witness :
  let cfg := DamengDatabase.mk_config READONLY 1000 in
  let clk := DamengDatabase.mk_clock 1 2 3 4 in
  let db := fun _ : str => DamengDatabase.DbDone [[(lit "x", Heap.VInt 1)]] 1 in
  let self := DamengDatabase.mk (QueryCache.init 100 300) [] in
  let sql := lit "select 1" in
  SQLValidator.validate_sql sql READONLY = true /\
  DamengDatabase.is_query sql = true /\
  hd_error (snd (DamengDatabase.execute_query cfg clk db sql true self)) =
    Some (DamengDatabase.CacheGet sql).
Proof.
  intros cfg clk db self sql.
  assert (H : SQLValidator.validate_sql sql
                (DamengDatabase.security_mode cfg) = true)
    by (vm_compute; reflexivity).
  assert (Hq : DamengDatabase.is_query sql = true) by (vm_compute; reflexivity).
  split; [exact H|]. split; [exact Hq|].
  pose proof (@caching_follows_query_prefix cfg clk db sql self H) as R.
  cbv zeta in R.
  destruct (DamengDatabase.execute_query cfg clk db sql true self)
    as [[res self'] trace].
  destruct R as [R _]. destruct (R Hq) as [Hhd _]. exact Hhd.
Defined.

(** C7, the claim as stated, fails in both directions.  "ANALYZE T" is
    accepted under ReadOnly and its leading keyword is in the Read set, yet
    [execute_query] goes to the database without a [get] and stores nothing.
    Under FullAccess "SELECT* FROM T" has the leading keyword "SELECT*",
    which is in no set, yet the cache is read and populated. *)
Lemma caching_ignores_analyze_and_keyword :
  let clk := DamengDatabase.mk_clock 1 2 3 4 in
  let db := fun _ : str => DamengDatabase.DbDone [] 0 in
  let self := DamengDatabase.mk (QueryCache.init 100 300) [] in
  (SQLValidator.validate_sql (lit "ANALYZE T") READONLY = true /\
   In (SQLValidator._extract_first_keyword (strip (upper (lit "ANALYZE T"))))
      Policy.Read /\
   let '(_, self', trace) :=
     DamengDatabase.execute_query (DamengDatabase.mk_config READONLY 1000)
       clk db (lit "ANALYZE T") true self in
   trace = [DamengDatabase.DbExecute (lit "ANALYZE T")] /\
   QueryCache.cache (DamengDatabase.query_cache self') = []) /\
  (SQLValidator.validate_sql (lit "SELECT* FROM T") FULL_ACCESS = true /\
   ~ In (SQLValidator._extract_first_keyword
           (strip (upper (lit "SELECT* FROM T")))) Policy.Read /\
   let '(_, self', trace) :=
     DamengDatabase.execute_query (DamengDatabase.mk_config FULL_ACCESS 1000)
       clk db (lit "SELECT* FROM T") true self in
   trace = [DamengDatabase.CacheGet (lit "SELECT* FROM T");
            DamengDatabase.DbExecute (lit "SELECT* FROM T");
            DamengDatabase.CacheSet (lit "SELECT* FROM T") 0] /\
   Dict.keys (QueryCache.cache (DamengDatabase.query_cache self')) =
     [QueryCache._generate_key (lit "SELECT* FROM T") None]).
Proof.
  cbv zeta. split.
  - split; [vm_compute; reflexivity|]. split.
    + vm_compute. right. right. right. right. right. left. reflexivity.
    + vm_compute. split; reflexivity.
  - split; [reflexivity|]. split.
    + intros H. apply PyFacts.mem_In in H. vm_compute in H. discriminate.
    + vm_compute. split; reflexivity.
Qed.

(** C9 (as amended).  On a cache hit [get] returns the stored payload
    object itself, the reference that [set] was given, and not a copy: a
    mutation of the returned list by the caller alters the cached entry. *)
Theorem get_returns_stored_object (c : QueryCache.t) (now now' : Z)
    (sql : str) (schema : option str) (r : Heap.ref)
    (Hhit : fst (QueryCache.get now now' sql schema c) = Some r) :
  let c' := snd (QueryCache.get now now' sql schema c) in
  let key := QueryCache._generate_key sql schema in
  (exists e, Dict.get (QueryCache.cache c) key = Some e /\
             QueryCache.data e = r) /\
  (exists e, Dict.get (QueryCache.cache c') key = Some e /\
             QueryCache.data e = r) /\
  forall (h : Heap.heap) (rows : list Heap.row),
    (r < List.length h)%nat ->
    ExecSpec.cached_payload (Heap.write h r rows) c' sql schema = Some rows.
Proof.
  intros c' key. unfold c', QueryCache.get in *. fold key in Hhit |- *.
  destruct (Dict.get (QueryCache.cache c) key) as [e|] eqn:E;
    [|discriminate].
  destruct (now - QueryCache.timestamp e >? QueryCache.ttl c)%Z;
    [discriminate|].
  cbn [fst snd] in *. injection Hhit as Hr.
  split; [exists e; auto|]. split; [exists e; auto|].
  intros h rows Hlt. unfold ExecSpec.cached_payload.
  cbn [QueryCache.cache]. fold key. rewrite E, Hr.
  apply ExecFacts.read_write, Hlt.
Qed.

Lemma get_returns_stored_object_witness :
  let c := QueryCache.set 1 1 (lit "SELECT 1") 0 None
             (QueryCache.init 100 300) in
  let h : Heap.heap := [[[(lit "x", Heap.VInt 1)]]] in
  fst (QueryCache.get 2 2 (lit "SELECT 1") None c) = Some 0 /\
  ExecSpec.cached_payload (Heap.write h 0 [])
    (snd (QueryCache.get 2 2 (lit "SELECT 1") None c))
    (lit "SELECT 1") None = Some [].
Proof.
  intros c h.
  assert (H : fst (QueryCache.get 2 2 (lit "SELECT 1") None c) = Some 0)
    by (vm_compute; reflexivity).
  split; [exact H|].
  apply (proj2 (proj2 (get_returns_stored_object c 2 2 (lit "SELECT 1")
                         None H))).
  simpl. lia.
Defined.

(** C9, the claim as stated, fails: the list returned on a hit is the cached
    object, so clearing it through the returned reference empties the cached
    entry. *)
Lemma get_exposes_cached_payload :
  let c := QueryCache.set 1 1 (lit "SELECT 1") 0 None
             (QueryCache.init 100 300) in
  let h : Heap.heap := [[[(lit "x", Heap.VInt 1)]]] in
  let '(returned, c') := QueryCache.get 2 2 (lit "SELECT 1") None c in
  returned = Some 0 /\
  ExecSpec.cached_payload h c' (lit "SELECT 1") None
    = Some [[(lit "x", Heap.VInt 1)]] /\
  ExecSpec.cached_payload (Heap.write h 0 []) c' (lit "SELECT 1") None
    = Some [] /\
  ExecSpec.cached_payload (Heap.write h 0 []) c' (lit "SELECT 1") None
    <> ExecSpec.cached_payload h c' (lit "SELECT 1") None.
Proof.
  vm_compute. repeat split; discriminate.
Qed.

(** ** More on strings *)

Module PyMoreFacts.
Import Py PyMore PyFacts.

Lemma upper_char_idem (c : ascii) : upper_char (upper_char c) = upper_char c.
Proof. destruct c as [[] [] [] [] [] [] [] []]; reflexivity. Qed.

Lemma upper_lower_char (c : ascii) : upper_char (lower_char c) = upper_char c.
Proof. destruct c as [[] [] [] [] [] [] [] []]; reflexivity. Qed.

Lemma lower_upper_char (c : ascii) : lower_char (upper_char c) = lower_char c.
Proof. destruct c as [[] [] [] [] [] [] [] []]; reflexivity. Qed.

Lemma lower_char_idem (c : ascii) : lower_char (lower_char c) = lower_char c.
Proof. destruct c as [[] [] [] [] [] [] [] []]; reflexivity. Qed.

Lemma upper_idem (s : str) : upper (upper s) = upper s.
Proof.
  unfold upper. rewrite map_map. apply map_ext. apply upper_char_idem.
Qed.

Lemma upper_lower (s : str) : upper (lower s) = upper s.
Proof.
  unfold upper, lower. rewrite map_map. apply map_ext. apply upper_lower_char.
Qed.

Lemma lower_upper (s : str) : lower (upper s) = lower s.
Proof.
  unfold upper, lower. rewrite map_map. apply map_ext. apply lower_upper_char.
Qed.

Lemma lower_idem (s : str) : lower (lower s) = lower s.
Proof.
  unfold lower. rewrite map_map. apply map_ext. apply lower_char_idem.
Qed.

Lemma lstrip_app (s t : str) :
  lstrip (s ++ t) = if forallb isspace s then lstrip t else lstrip s ++ t.
Proof.
  induction s as [|c s IH]; simpl; [reflexivity|].
  destruct (isspace c); simpl; [exact IH | reflexivity].
Qed.

Lemma lstrip_blank_app (ws s : str) :
  forallb isspace ws = true -> lstrip (ws ++ s) = lstrip s.
Proof. intros H. rewrite lstrip_app, H. reflexivity. Qed.

Lemma forallb_rev (A : Type) (f : A -> bool) (l : list A) :
  forallb f (rev l) = forallb f l.
Proof.
  induction l as [|x l IH]; simpl; [reflexivity|].
  rewrite forallb_app, IH. simpl. rewrite andb_true_r. apply andb_comm.
Qed.

Lemma rstrip_app_blank (s ws : str) :
  forallb isspace ws = true -> rstrip (s ++ ws) = rstrip s.
Proof.
  intros H. unfold rstrip. rewrite rev_app_distr.
  rewrite lstrip_blank_app by (rewrite forallb_rev; exact H). reflexivity.
Qed.

Lemma rstrip_blank (s : str) : forallb isspace s = true -> rstrip s = [].
Proof.
  intros H. unfold rstrip.
  rewrite lstrip_blank by (rewrite forallb_rev; exact H). reflexivity.
Qed.

(** Whitespace around a text does not change what [strip] returns. *)
Lemma strip_padded (ws s ws' : str) :
  forallb isspace ws = true -> forallb isspace ws' = true ->
  strip (ws ++ s ++ ws') = strip s.
Proof.
  intros H H'. unfold strip. rewrite lstrip_blank_app by exact H.
  rewrite lstrip_app. destruct (forallb isspace s) eqn:E.
  - rewrite (lstrip_blank _ H'), (lstrip_blank _ E). reflexivity.
  - apply rstrip_app_blank, H'.
Qed.

Lemma upper_app (s t : str) : upper (s ++ t) = upper s ++ upper t.
Proof. apply map_app. Qed.

(** The cache keys of the system statements, as [hashlib] computes them
    from the literals of the source. *)
Example system_statement_keys :
  QueryCache._generate_key SystemSQL.test_sql None
    = lit "1d8ca2624b836e5b5ccb4c4da74d7afd" /\
  QueryCache._generate_key SystemSQL.all_tables_sql None
    = lit "503cb40db8afd99eb8f4689654f6bc73" /\
  QueryCache._generate_key SystemSQL.indexes_sql None
    = lit "8af61628724f0f3b5a3d10b0449b5cf3" /\
  QueryCache._generate_key SystemSQL.constraints_sql None
    = lit "750f5555642964330af8a007120c7d4c".
Proof. repeat split; vm_compute; reflexivity. Qed.

End PyMoreFacts.

(** X1. For an ASCII statement, the verdict of the validator depends on the
    statement only up to the case of its letters and the ASCII whitespace
    around it. *)
Theorem verdict_ignores_case_and_padding (sql ws ws' : str)
    (m : SecurityMode) (Hascii : isascii sql = true)
    (Hws : Policy.blank ws) (Hws' : Policy.blank ws') :
  SQLValidator.validate_sql (ws ++ sql ++ ws') m
    = SQLValidator.validate_sql sql m /\
  SQLValidator.validate_sql (upper sql) m = SQLValidator.validate_sql sql m /\
  SQLValidator.validate_sql (PyMore.lower sql) m
    = SQLValidator.validate_sql sql m.
Proof.
  unfold SQLValidator.validate_sql.
  assert (E1 : strip (upper (ws ++ sql ++ ws')) = strip (upper sql)).
  { rewrite !PyMoreFacts.upper_app. apply PyMoreFacts.strip_padded.
    - rewrite PyFacts.forallb_isspace_upper. exact Hws.
    - rewrite PyFacts.forallb_isspace_upper. exact Hws'. }
  rewrite E1, PyMoreFacts.upper_idem, PyMoreFacts.upper_lower.
  repeat split.
Qed.

Lemma verdict_ignores_case_and_padding_witness :
  isascii (lit "Select * From t") = true /\
  Policy.blank (lit "  ") /\ Policy.blank [" "; "010"]%char /\
  SQLValidator.validate_sql
    (lit "  " ++ lit "Select * From t" ++ [" "; "010"]%char) READONLY
  = SQLValidator.validate_sql (lit "Select * From t") READONLY.
Proof.
  assert (H0 : isascii (lit "Select * From t") = true) by reflexivity.
  assert (H1 : Policy.blank (lit "  ")) by reflexivity.
  assert (H2 : Policy.blank [" "; "010"]%char) by reflexivity.
  split; [exact H0|]. split; [exact H1|]. split; [exact H2|].
  exact (proj1 (verdict_ignores_case_and_padding (lit "Select * From t")
                  READONLY H0 H1 H2)).
Defined.

(** X2. The tiers are not nested.  A statement with the leading keyword
    SELECT that contains a Dangerous keyword somewhere, but none of the
    embedded clauses, is accepted under ReadOnly and rejected under
    LimitedWrite.  For every other leading keyword, what ReadOnly accepts
    LimitedWrite accepts too.  This holds for text over every character set
    in which the upper-case ASCII letters are word characters. *)
Theorem tiers_not_nested (U : Charset.t)
    (Hword : Charset.letters_are_words U) :
  (forall sql : Text.str U,
      Text._extract_first_keyword (Text.normalized sql)
        = Text.lit U "SELECT" ->
      ~ Text.embedded_clause (Text.normalized sql) ->
      (exists w, In w (Text.Dangerous U) /\
                 Text.keyword_occurs w (Text.normalized sql)) ->
      Text.validate_sql sql READONLY = true /\
      Text.validate_sql sql LIMITED_WRITE = false) /\
  (forall sql : Text.str U,
      Text._extract_first_keyword (Text.normalized sql)
        <> Text.lit U "SELECT" ->
      Text.validate_sql sql READONLY = true ->
      Text.validate_sql sql LIMITED_WRITE = true).
Proof.
  split.
  - intros sql Hkw Hclean [w [Hw Hocc]]. split.
    + apply (TextFacts.cs_validate_readonly_accepts Hword).
      exists (Text.lit U "SELECT"). split; [|split; [|split]].
      * rewrite <- Hkw. apply TextFacts.cs_extract_first_token.
      * left. reflexivity.
      * intros _. exact Hclean.
      * congruence.
    + destruct (Text.validate_sql sql LIMITED_WRITE) eqn:E; [|reflexivity].
      apply TextFacts.cs_validate_limited_write_accepts in E.
      destruct E as (kw & _ & _ & Hnone). exfalso. exact (Hnone w Hw Hocc).
  - intros sql Hkw Hro.
    apply (TextFacts.cs_validate_readonly_accepts Hword) in Hro.
    destruct Hro as (kw & Htok & Hin & _ & Hother).
    pose proof (TextFacts.cs_first_token_extract Htok) as E. subst kw.
    apply TextFacts.cs_validate_limited_write_accepts.
    exists (Text._extract_first_keyword (Text.normalized sql)).
    split; [exact Htok|]. split.
    + apply in_or_app. left. exact Hin.
    + intros w Hw. apply (Hother Hkw). apply in_or_app. right. exact Hw.
Qed.

Lemma tiers_not_nested_witness :
  Charset.letters_are_words Charset.ASCII /\
  SQLValidator.validate_sql (lit "SELECT CREATED_AT FROM T") READONLY = true /\
  SQLValidator.validate_sql (lit "SELECT CREATED_AT FROM T") LIMITED_WRITE
    = false /\
  (SQLValidator.validate_sql (lit "SHOW TABLES") READONLY = true ->
   SQLValidator.validate_sql (lit "SHOW TABLES") LIMITED_WRITE = true).
Proof.
  pose proof TextFacts.ascii_letters_are_words as H0.
  assert (H1 : Text._extract_first_keyword
                 (Text.normalized (U := Charset.ASCII)
                    (lit "SELECT CREATED_AT FROM T"))
               = Text.lit Charset.ASCII "SELECT") by reflexivity.
  assert (H2 : ~ Text.embedded_clause
                 (Text.normalized (U := Charset.ASCII)
                    (lit "SELECT CREATED_AT FROM T"))).
  { intros H. apply (TextFacts.cs_dangerous_patterns_embedded H0) in H.
    vm_compute in H. discriminate H. }
  assert (H3 : exists w, In w (Text.Dangerous Charset.ASCII) /\
                 Text.keyword_occurs w
                   (Text.normalized (U := Charset.ASCII)
                      (lit "SELECT CREATED_AT FROM T"))).
  { exists (lit "CREATE"). split; [simpl; auto|].
    exists (lit "SELECT "), (lit "D_AT FROM T"). reflexivity. }
  assert (H4 : Text._extract_first_keyword
                 (Text.normalized (U := Charset.ASCII) (lit "SHOW TABLES"))
               <> Text.lit Charset.ASCII "SELECT")
    by (vm_compute; discriminate).
  destruct (proj1 (tiers_not_nested H0) _ H1 H2 H3) as [A B].
  split; [exact H0|]. split; [exact A|]. split; [exact B|].
  exact (proj2 (tiers_not_nested H0) _ H4).
Defined.

(** X3. When a statement is rejected although its leading keyword is one
    the tier allows (a Read keyword under ReadOnly, a Read or Write keyword
    under LimitedWrite), the [ValueError] of [execute_query] reports that
    allowed keyword as an unsupported operation. *)
Theorem rejection_reports_leading_keyword (cfg : DamengDatabase.config)
    (clk : DamengDatabase.clock) (db : str -> DamengDatabase.db_outcome)
    (sql : str) (use_cache : bool) (self : DamengDatabase.t)
    (Hrejected :
       SQLValidator.validate_sql sql (DamengDatabase.security_mode cfg)
       = false) :
  let kw := SQLValidator._extract_first_keyword (strip (upper sql)) in
  (DamengDatabase.security_mode cfg = READONLY -> In kw Policy.Read ->
   DamengDatabase.execute_query cfg clk db sql use_cache self =
   (DamengDatabase.Raise
      (DamengDatabase.ValueError
         (lit "SQL操作被安全策略禁止: 只读模式下不支持的操作: " ++ kw)),
    self, [])) /\
  (DamengDatabase.security_mode cfg = LIMITED_WRITE ->
   In kw (Policy.Read ++ Policy.Write) ->
   DamengDatabase.execute_query cfg clk db sql use_cache self =
   (DamengDatabase.Raise
      (DamengDatabase.ValueError
         (lit "SQL操作被安全策略禁止: 限制写入模式下不支持的操作: " ++ kw)),
    self, [])).
Proof.
  intros kw. unfold DamengDatabase.execute_query. rewrite Hrejected.
  cbn [negb]. unfold SQLValidator.get_error_message. fold kw.
  split; intros Hm Hin; rewrite Hm.
  - assert (E : mem kw SQLValidator.WRITE_OPERATIONS = false /\
                mem kw SQLValidator.DANGEROUS_OPERATIONS = false).
    { simpl in Hin.
      destruct Hin as [<-|[<-|[<-|[<-|[<-|[<-|[]]]]]]]; split; reflexivity. }
    destruct E as [-> ->]. reflexivity.
  - assert (E : mem kw SQLValidator.DANGEROUS_OPERATIONS = false).
    { simpl in Hin.
      destruct Hin as [<-|[<-|[<-|[<-|[<-|[<-|[<-|[<-|[]]]]]]]]];
        reflexivity. }
    rewrite E. reflexivity.
Qed.

Lemma rejection_reports_leading_keyword_witness :
  let cfg := DamengDatabase.mk_config READONLY 1000 in
  let clk := DamengDatabase.mk_clock 1 1 1 1 in
  let db := fun _ : str => DamengDatabase.DbDone [] 1 in
  let self := DamengDatabase.mk (QueryCache.init 100 300) [] in
  SQLValidator.validate_sql (lit "select 1; drop table t") READONLY = false /\
  DamengDatabase.execute_query cfg clk db (lit "select 1; drop table t")
    true self =
  (DamengDatabase.Raise
     (DamengDatabase.ValueError
        (lit "SQL操作被安全策略禁止: 只读模式下不支持的操作: SELECT")),
   self, []).
Proof.
  intros cfg clk db self.
  assert (H : SQLValidator.validate_sql (lit "select 1; drop table t")
                (DamengDatabase.security_mode cfg) = false)
    by (vm_compute; reflexivity).
  split; [exact H|].
  refine (proj1 (@rejection_reports_leading_keyword cfg clk db
                   (lit "select 1; drop table t") true self H)
            eq_refl _).
  simpl. auto.
Defined.

(** ** More on the cache *)

Module CacheMoreFacts.
Import Py PyFacts DictFacts QueryCache CacheSpec CacheFacts CacheMoreSpec.

Local Open Scope Z_scope.

Lemma remove_cache_get_some (k key : str) (c : t) (e : entry) :
  Dict.get (cache (_remove k c)) key = Some e ->
  Dict.get (cache c) key = Some e.
Proof.
  destruct (str_eq_dec k key) as [->|Hne].
  - rewrite remove_cache_get_same. discriminate.
  - rewrite remove_cache_get_other by exact Hne. auto.
Qed.

Lemma evict_cache_get_some (key : str) (c : t) (e : entry) :
  Dict.get (cache (_evict_oldest c)) key = Some e ->
  Dict.get (cache c) key = Some e.
Proof.
  unfold _evict_oldest. destruct (oldest_key c); [|auto].
  apply remove_cache_get_some.
Qed.

Lemma stamped_step (key : str) (created : Z) (c : t) (o : op) :
  (forall n1 n2 s d sc,
      o = OpSet n1 n2 s d sc -> _generate_key s sc <> key) ->
  stamped key created c -> stamped key created (step c o).
Proof.
  intros Hother Hc e. destruct o as [n1 n2 s sc | n1 n2 s d sc |]; simpl.
  - unfold get. destruct (Dict.get (cache c) _) as [e'|]; [|apply Hc].
    destruct (_ >? _); simpl; [|apply Hc].
    intros H. apply remove_cache_get_some in H. apply Hc, H.
  - unfold set. cbn [cache].
    rewrite get_set_other by (eapply Hother; reflexivity).
    destruct (_ >=? _); [|apply Hc].
    intros H. apply evict_cache_get_some in H. apply Hc, H.
  - discriminate.
Qed.

Lemma stamped_run (key : str) (created : Z) (ops : list op) :
  forall c,
    Forall (fun o => forall n1 n2 s d sc,
                o = OpSet n1 n2 s d sc -> _generate_key s sc <> key) ops ->
    stamped key created c -> stamped key created (run ops c).
Proof.
  induction ops as [|o ops IH]; intros c Hall Hc; simpl; [exact Hc|].
  inversion Hall as [|? ? Ho Hops]. subst.
  apply IH; [exact Hops|]. apply stamped_step; assumption.
Qed.

Lemma cache_keys_set (now1 now2 : Z) (sql : str) (data : Heap.ref)
    (schema : option str) (c : t) (k : str) :
  wf c -> 1 <= max_size c -> size c = max_size c ->
  oldest_key c = Some k ->
  let key := _generate_key sql schema in
  Dict.keys (cache (set now1 now2 sql data schema c)) =
  if Dict.mem (cache (_remove k c)) key
  then others k (Dict.keys (cache c))
  else others k (Dict.keys (cache c)) ++ [key].
Proof.
  intros Hwf Hcap Hfull Hk key. unfold set. fold (size c).
  assert (E : (size c >=? max_size c) = true) by lia.
  rewrite E. unfold _evict_oldest. rewrite Hk. cbn [cache].
  fold key. rewrite keys_set, remove_cache_keys. reflexivity.
Qed.

End CacheMoreFacts.

(** X4. In every state the cache reaches from the empty one, [get_stats]
    lists as entries exactly the keys that have an access time, in the same
    order and without repetition; [cache_size] is their number, and
    [max_size] and [ttl] are the values given at construction. *)
Theorem stats_consistent (capacity ttl : Z) (ops : list QueryCache.op) :
  let c := QueryCache.run ops (QueryCache.init capacity ttl) in
  let s := QueryCache.get_stats c in
  QueryCache.entries s = Dict.keys (QueryCache.access_times c) /\
  NoDup (QueryCache.entries s) /\
  QueryCache.cache_size s = Z.of_nat (List.length (QueryCache.entries s)) /\
  QueryCache.stats_max_size s = capacity /\
  QueryCache.stats_ttl s = ttl.
Proof.
  intros c s.
  assert (Hwf : CacheSpec.wf c)
    by (apply CacheFacts.wf_run, CacheFacts.wf_init).
  destruct Hwf as [Hk Hnd]. unfold s, QueryCache.get_stats.
  cbn [QueryCache.entries QueryCache.cache_size QueryCache.stats_max_size
       QueryCache.stats_ttl].
  split; [exact Hk|]. split; [exact Hnd|].
  split; [apply DictFacts.len_keys|].
  unfold c. rewrite CacheFacts.max_size_run, CacheFacts.ttl_run.
  split; reflexivity.
Qed.

(** X5. Reading does not extend the life of an entry: the ttl counts from
    the [set] that stored it.  Whatever [get], [clear] and [set] of other
    keys happen in between, a [get] later than ttl after that [set] returns
    [None]. *)
Theorem reads_do_not_extend_life (c : QueryCache.t) (sql : str)
    (namespace : option str) (payload : Heap.ref)
    (created touched now now' : Z) (ops : list QueryCache.op)
    (Hother :
       Forall (fun o => forall n1 n2 s d sc,
                   o = QueryCache.OpSet n1 n2 s d sc ->
                   QueryCache._generate_key s sc <>
                   QueryCache._generate_key sql namespace) ops)
    (Hlate : (now - created > QueryCache.ttl c)%Z) :
  fst (QueryCache.get now now' sql namespace
         (QueryCache.run ops
            (QueryCache.set created touched sql payload namespace c)))
  = None.
Proof.
  set (key := QueryCache._generate_key sql namespace) in *.
  set (c1 := QueryCache.set created touched sql payload namespace c).
  assert (H1 : CacheMoreSpec.stamped key created c1).
  { intros e He. unfold c1, key in He.
    rewrite CacheFacts.get_cache_set in He. injection He as <-.
    reflexivity. }
  pose proof (@CacheMoreFacts.stamped_run key created ops c1 Hother H1)
    as H2.
  unfold QueryCache.get. fold key.
  destruct (Dict.get (QueryCache.cache (QueryCache.run ops c1)) key)
    as [e|] eqn:E; [|reflexivity].
  rewrite (H2 e E), CacheFacts.ttl_run. unfold c1.
  rewrite CacheFacts.ttl_set.
  assert (G : (now - created >? QueryCache.ttl c)%Z = true) by lia.
  rewrite G. reflexivity.
Qed.

Lemma reads_do_not_extend_life_witness :
  let c := QueryCache.init 100 300 in
  let ops := [QueryCache.OpGet 100 100 (lit "SELECT 1") None;
              QueryCache.OpGet 200 200 (lit "SELECT 1") None;
              QueryCache.OpSet 250 250 (lit "SELECT 2") 1%nat None;
              QueryCache.OpGet 300 300 (lit "SELECT 1") None] in
  (301 - 0 > QueryCache.ttl c)%Z /\
  fst (QueryCache.get 301 301 (lit "SELECT 1") None
         (QueryCache.run ops
            (QueryCache.set 0 0 (lit "SELECT 1") 0%nat None c))) = None.
Proof.
  intros c ops.
  assert (H1 : Forall (fun o => forall n1 n2 s d sc,
                   o = QueryCache.OpSet n1 n2 s d sc ->
                   QueryCache._generate_key s sc <>
                   QueryCache._generate_key (lit "SELECT 1") None) ops).
  { unfold ops.
    constructor; [intros n1 n2 s d sc E; discriminate E|].
    constructor; [intros n1 n2 s d sc E; discriminate E|].
    constructor.
    { intros n1 n2 s d sc E. injection E as _ _ <- _ <-.
      vm_compute. discriminate. }
    constructor; [intros n1 n2 s d sc E; discriminate E|].
    constructor. }
  assert (H2 : (301 - 0 > QueryCache.ttl c)%Z) by (simpl; lia).
  split; [exact H2|].
  exact (@reads_do_not_extend_life c (lit "SELECT 1") None 0%nat
           0%Z 0%Z 301%Z 301%Z ops H1 H2).
Defined.

(** X7. Storing again a statement that is already cached, in a cache of
    capacity at least 1 that is full, still evicts the least recently used
    entry.  When that entry is another one, the cache ends with
    capacity - 1 entries; when it is the entry of the statement itself, the
    statement is stored anew and the cache stays full. *)
Theorem overwrite_at_capacity_evicts (capacity ttl : Z)
    (ops : list QueryCache.op) (now1 now2 : Z) (sql : str)
    (data : Heap.ref) (schema : option str) :
  let c := QueryCache.run ops (QueryCache.init capacity ttl) in
  let key := QueryCache._generate_key sql schema in
  let c' := QueryCache.set now1 now2 sql data schema c in
  (1 <= capacity)%Z ->
  Dict.len (QueryCache.cache c) = capacity ->
  In key (Dict.keys (QueryCache.cache c)) ->
  exists k,
    CacheSpec.least_recent c k /\
    In key (Dict.keys (QueryCache.cache c')) /\
    (k <> key ->
     Dict.len (QueryCache.cache c') = (capacity - 1)%Z /\
     ~ In k (Dict.keys (QueryCache.cache c'))) /\
    (k = key -> Dict.len (QueryCache.cache c') = capacity).
Proof.
  intros c key c' Hcap Hfull Hin.
  assert (Hwf : CacheSpec.wf c)
    by (apply CacheFacts.wf_run, CacheFacts.wf_init).
  assert (Hmax : QueryCache.max_size c = capacity)
    by (unfold c; rewrite CacheFacts.max_size_run; reflexivity).
  destruct (@CacheFacts.evict_full c) as (k & Hk & Hlr & Hkin & Hev & Hs);
    [exact Hwf | lia | unfold CacheSpec.size; lia |].
  exists k. split; [exact Hlr|].
  assert (Hkeys := @CacheMoreFacts.cache_keys_set now1 now2 sql data schema
                     c k Hwf).
  cbv zeta in Hkeys. fold key c' in Hkeys.
  rewrite Hkeys by (unfold CacheSpec.size; try assumption; lia).
  unfold c'. rewrite !DictFacts.len_keys.
  fold c'. rewrite Hkeys by (unfold CacheSpec.size; try assumption; lia).
  assert (Hlen : S (List.length
                      (others k (Dict.keys (QueryCache.cache c)))) =
                 List.length (Dict.keys (QueryCache.cache c))).
  { apply DictFacts.others_length; [apply Hwf | exact Hkin]. }
  rewrite DictFacts.len_keys in Hfull.
  destruct (Dict.mem (QueryCache.cache (QueryCache._remove k c)) key) eqn:M.
  - apply DictFacts.mem_keys in M. rewrite CacheFacts.remove_cache_keys in M.
    split; [exact M|]. apply DictFacts.others_In in M. destruct M as [_ Hne].
    split.
    + intros _. split; [lia|].
      intros H. apply DictFacts.others_In in H. tauto.
    + intros E. congruence.
  - apply DictFacts.not_mem_keys in M.
    rewrite CacheFacts.remove_cache_keys in M.
    assert (E : k = key).
    { destruct (str_eq_dec k key) as [E|Hne]; [exact E|].
      exfalso. apply M. apply DictFacts.others_In. split; congruence. }
    split; [apply in_or_app; right; left; reflexivity|].
    split; [congruence|].
    intros _. rewrite length_app. simpl. lia.
Qed.

Lemma overwrite_at_capacity_evicts_witness :
  let ops := [QueryCache.OpSet 1 1 (lit "SELECT 1") 0%nat None;
              QueryCache.OpSet 2 2 (lit "SELECT 2") 1%nat None] in
  let c := QueryCache.run ops (QueryCache.init 2 300) in
  let c' := QueryCache.set 3 3 (lit "SELECT 2") 2%nat None c in
  (1 <= 2)%Z /\ Dict.len (QueryCache.cache c) = 2%Z /\
  In (QueryCache._generate_key (lit "SELECT 2") None)
     (Dict.keys (QueryCache.cache c)) /\
  In (QueryCache._generate_key (lit "SELECT 2") None)
     (Dict.keys (QueryCache.cache c')).
Proof.
  intros ops c c'.
  assert (H1 : (1 <= 2)%Z) by lia.
  assert (H2 : Dict.len (QueryCache.cache c) = 2%Z)
    by (vm_compute; reflexivity).
  assert (H3 : In (QueryCache._generate_key (lit "SELECT 2") None)
                  (Dict.keys (QueryCache.cache c)))
    by (vm_compute; right; left; reflexivity).
  split; [exact H1|]. split; [exact H2|]. split; [exact H3|].
  destruct (@overwrite_at_capacity_evicts 2%Z 300%Z ops 3%Z 3%Z
              (lit "SELECT 2") 2%nat None H1 H2 H3) as (k & _ & H & _).
  exact H.
Defined.

Module CacheLruFacts.
Import Py PyFacts DictFacts QueryCache CacheSpec CacheFacts.

Local Open Scope Z_scope.

(** The cache filled with [r1 :: r2 :: rest] after a hit on [r1] at a time
    later than the insert of [r2]: the next eviction takes [r2]. *)
Lemma oldest_after_touch (capacity ttl0 now' : Z) (r1 r2 : request)
    (rest : list request) :
  NoDup (map key_of (r1 :: r2 :: rest)) ->
  StronglySorted Z.lt (map r_touch (r1 :: r2 :: rest)) ->
  r_touch r2 < now' ->
  oldest_key (mk (cache_of (r1 :: r2 :: rest)) capacity ttl0
                 ((key_of r1, now') :: access_of (r2 :: rest)))
  = Some (key_of r2).
Proof.
  intros Hnd Hsorted Hlater.
  assert (Hnd2 : NoDup (map key_of (r2 :: rest)))
    by (inversion Hnd; assumption).
  assert (H12 : key_of r1 <> key_of r2).
  { inversion Hnd as [|? ? Hnotin _]. subst. intros E. apply Hnotin.
    left. symmetry. exact E. }
  assert (Hrest : forall r, In r (r2 :: rest) ->
            Dict.get ((key_of r1, now') :: access_of (r2 :: rest)) (key_of r)
            = Some (r_touch r)).
  { intros r Hr. cbn [Dict.get].
    assert (E : str_eqb (key_of r1) (key_of r) = false).
    { apply str_eqb_neq. intros E. apply (in_map key_of) in Hr.
      inversion Hnd as [|? ? Hnotin _]. subst.
      apply Hnotin. rewrite E. exact Hr. }
    rewrite E. apply get_access_of; assumption. }
  unfold oldest_key. cbn [access_times].
  set (f := Dict.get ((key_of r1, now') :: access_of (r2 :: rest))).
  change (Dict.keys ((key_of r1, now') :: access_of (r2 :: rest)))
    with (key_of r1 :: key_of r2 :: Dict.keys (access_of rest)).
  cbv iota. f_equal. cbn [Dict.min_by].
  assert (F2 : f (key_of r2) = Some (r_touch r2))
    by (apply Hrest; left; reflexivity).
  assert (F1 : f (key_of r1) = Some now').
  { unfold f. cbn [Dict.get]. rewrite str_eqb_refl. reflexivity. }
  rewrite F2, F1.
  assert (E : (r_touch r2 <? now') = true) by lia. rewrite E.
  apply min_by_best with (tb := r_touch r2).
  - apply Hrest. left. reflexivity.
  - intros x Hx. fold (Dict.keys (access_of rest)) in Hx.
    rewrite keys_access_of in Hx.
    apply in_map_iff in Hx. destruct Hx as [r [<- Hr]].
    exists (r_touch r). split; [apply Hrest; right; exact Hr|].
    cbn [map] in Hsorted. apply StronglySorted_inv in Hsorted.
    destruct Hsorted as [Hs _]. apply StronglySorted_inv in Hs.
    destruct Hs as [_ Hall]. rewrite Forall_forall in Hall.
    assert (r_touch r2 < r_touch r) by (apply Hall, in_map, Hr). lia.
Qed.

End CacheLruFacts.

(** X6. A hit moves an entry to the young end of the eviction order.  Fill
    a cache of capacity at least 2 with distinct statements at increasing
    times, then read the first one before it expires: the next insert of a
    new statement evicts the second one, and the first one stays. *)
Theorem read_entry_survives_eviction (capacity ttl : Z)
    (r1 r2 : QueryCache.request) (rest : list QueryCache.request)
    (new : QueryCache.request) (now now' : Z)
    (Hlen : Z.of_nat (List.length (r1 :: r2 :: rest)) = capacity)
    (Hnd : NoDup (map QueryCache.key_of ((r1 :: r2 :: rest) ++ [new])))
    (Hsorted :
       StronglySorted Z.lt (map QueryCache.r_touch (r1 :: r2 :: rest)))
    (Hfresh : (now - QueryCache.r_stamp r1 <= ttl)%Z)
    (Hlater : (QueryCache.r_touch r2 < now')%Z) :
  let c0 := QueryCache.run (map QueryCache.set_op (r1 :: r2 :: rest))
              (QueryCache.init capacity ttl) in
  let hit := QueryCache.get now now' (QueryCache.r_sql r1)
               (QueryCache.r_schema r1) c0 in
  let c2 := QueryCache.step (snd hit) (QueryCache.set_op new) in
  fst hit = Some (QueryCache.r_data r1) /\
  Dict.keys (QueryCache.cache c2) =
    QueryCache.key_of r1 :: map QueryCache.key_of rest
      ++ [QueryCache.key_of new].
Proof.
  intros c0 hit c2.
  assert (Hnd1 : NoDup (map QueryCache.key_of (r1 :: r2 :: rest))).
  { rewrite map_app in Hnd. apply NoDup_app_remove_r in Hnd. exact Hnd. }
  assert (E0 : c0 = QueryCache.mk (CacheSpec.cache_of (r1 :: r2 :: rest))
                      capacity ttl
                      (CacheSpec.access_of (r1 :: r2 :: rest))).
  { unfold c0. apply CacheFacts.run_fill_init; [exact Hnd1 | lia]. }
  assert (Ehit : hit =
            (Some (QueryCache.r_data r1),
             QueryCache.mk (CacheSpec.cache_of (r1 :: r2 :: rest))
               capacity ttl
               ((QueryCache.key_of r1, now')
                  :: CacheSpec.access_of (r2 :: rest)))).
  { unfold hit. rewrite E0. unfold QueryCache.get.
    fold (QueryCache.key_of r1).
    cbn [QueryCache.cache QueryCache.ttl QueryCache.max_size
         QueryCache.access_times CacheSpec.cache_of CacheSpec.access_of map
         Dict.get Dict.set].
    rewrite !PyFacts.str_eqb_refl.
    cbn [QueryCache.timestamp QueryCache.entry_of QueryCache.data].
    assert (G : (now - QueryCache.r_stamp r1 >? ttl)%Z = false) by lia.
    rewrite G. reflexivity. }
  split; [rewrite Ehit; reflexivity|].
  unfold c2. rewrite Ehit. cbn [snd QueryCache.step QueryCache.set_op].
  unfold QueryCache.set. cbn [QueryCache.cache QueryCache.max_size].
  assert (Efull : (Dict.len (CacheSpec.cache_of (r1 :: r2 :: rest))
                   >=? capacity)%Z = true).
  { unfold Dict.len, CacheSpec.cache_of. rewrite length_map. lia. }
  rewrite Efull. unfold QueryCache._evict_oldest.
  rewrite (@CacheLruFacts.oldest_after_touch capacity ttl now' r1 r2 rest
             Hnd1 Hsorted Hlater).
  cbn [QueryCache.cache]. rewrite DictFacts.keys_set.
  rewrite CacheFacts.remove_cache_keys. cbn [QueryCache.cache].
  rewrite CacheFacts.keys_cache_of.
  fold (QueryCache.key_of new).
  cbn [map app] in Hnd.
  destruct (proj1 (NoDup_cons_iff _ _) Hnd) as [Hn1 Hnd'].
  destruct (proj1 (NoDup_cons_iff _ _) Hnd') as [Hn2 Hnd''].
  assert (H12 : QueryCache.key_of r1 <> QueryCache.key_of r2).
  { intros E. apply Hn1. left. symmetry. exact E. }
  assert (Ekeys : others (QueryCache.key_of r2)
                    (map QueryCache.key_of (r1 :: r2 :: rest)) =
                  QueryCache.key_of r1 :: map QueryCache.key_of rest).
  { cbn [map]. unfold others. cbn [filter].
    apply PyFacts.str_eqb_neq in H12. rewrite H12.
    rewrite PyFacts.str_eqb_refl. cbn [negb]. f_equal.
    apply DictFacts.others_absent. intros H. apply Hn2.
    rewrite map_app. apply in_or_app. left. exact H. }
  rewrite Ekeys.
  assert (Enew : Dict.mem
            (QueryCache.cache
               (QueryCache._remove (QueryCache.key_of r2)
                  (QueryCache.mk (CacheSpec.cache_of (r1 :: r2 :: rest))
                     capacity ttl
                     ((QueryCache.key_of r1, now')
                        :: CacheSpec.access_of (r2 :: rest)))))
            (QueryCache.key_of new) = false).
  { apply DictFacts.not_mem_keys. rewrite CacheFacts.remove_cache_keys.
    cbn [QueryCache.cache]. rewrite CacheFacts.keys_cache_of, Ekeys.
    intros [E | H].
    - apply Hn1. right. rewrite map_app. apply in_or_app. right.
      left. symmetry. exact E.
    - rewrite map_app in Hnd''. apply NoDup_remove_2 in Hnd''.
      apply Hnd''. rewrite app_nil_r. exact H. }
  rewrite Enew. reflexivity.
Qed.

Lemma read_entry_survives_eviction_witness :
  let r1 := QueryCache.mk_request (lit "SELECT 1") None 0 1 1 in
  let r2 := QueryCache.mk_request (lit "SELECT 2") None 1 2 2 in
  let new := QueryCache.mk_request (lit "SELECT 3") None 2 6 6 in
  let c0 := QueryCache.run (map QueryCache.set_op [r1; r2])
              (QueryCache.init 2 300) in
  let hit := QueryCache.get 5 5 (lit "SELECT 1") None c0 in
  (5 - 1 <= 300)%Z /\ (2 < 5)%Z /\
  Dict.keys
    (QueryCache.cache (QueryCache.step (snd hit) (QueryCache.set_op new))) =
  [QueryCache.key_of r1; QueryCache.key_of new].
Proof.
  intros r1 r2 new c0 hit.
  assert (H1 : Z.of_nat (List.length [r1; r2]) = 2%Z) by reflexivity.
  assert (H2 : NoDup (map QueryCache.key_of ([r1; r2] ++ [new]))).
  { assert (E : map QueryCache.key_of ([r1; r2] ++ [new]) =
                [lit "7283ee3fe8246a9210fb01a1307f0ce5";
                 lit "2498be3c0cc7ace939845eed5767109e";
                 lit "5df85581bbadeb43184caef268bb1093"])
      by (vm_compute; reflexivity).
    rewrite E. repeat constructor; simpl; intuition discriminate. }
  assert (H3 : StronglySorted Z.lt (map QueryCache.r_touch [r1; r2])).
  { simpl. repeat constructor; lia. }
  assert (H4 : (5 - QueryCache.r_stamp r1 <= 300)%Z) by (simpl; lia).
  assert (H5 : (QueryCache.r_touch r2 < 5)%Z) by (simpl; lia).
  split; [exact H4|]. split; [exact H5|].
  exact (proj2 (@read_entry_survives_eviction 2%Z 300%Z r1 r2 [] new
                  5%Z 5%Z H1 H2 H3 H4 H5)).
Defined.

(** ** More on [execute_query] *)

Module ExecMoreFacts.
Import SQLValidator DamengDatabase ExecSpec.

Lemma execute_query_hit (cfg : config) (clk : clock)
    (db : str -> db_outcome) (sql : str) (self : t) (r : Heap.ref)
    (qc : QueryCache.t) :
  validate_sql sql (security_mode cfg) = true ->
  is_query sql = true ->
  QueryCache.get (get_check clk) (get_touch clk) sql None (query_cache self)
    = (Some r, qc) ->
  execute_query cfg clk db sql true self
  = (Return r, mk qc (heap self), [CacheGet sql]).
Proof.
  intros Hv Hq Hg. unfold execute_query. rewrite Hv, Hq, Hg. reflexivity.
Qed.

Lemma execute_query_miss (cfg : config) (clk : clock)
    (db : str -> db_outcome) (sql : str) (self : t) (qc : QueryCache.t)
    (rows : list Heap.row) (n : Z) :
  validate_sql sql (security_mode cfg) = true ->
  is_query sql = true ->
  QueryCache.get (get_check clk) (get_touch clk) sql None (query_cache self)
    = (None, qc) ->
  db sql = DbDone rows n ->
  execute_query cfg clk db sql true self
  = (Return (List.length (heap self)),
     mk (QueryCache.set (set_stamp clk) (set_touch clk) sql
           (List.length (heap self)) None qc)
        (heap self ++ [truncate cfg rows]),
     [CacheGet sql; DbExecute sql; CacheSet sql (List.length (heap self))]).
Proof.
  intros Hv Hq Hg Hd. unfold execute_query.
  rewrite Hv, Hq, Hg, Hd. reflexivity.
Qed.

(** A call that is not a cached read leaves the cache as it was. *)
Lemma execute_query_cache_unchanged (cfg : config) (clk : clock)
    (db : str -> db_outcome) (sql : str) (use_cache : bool) (self : t) :
  use_cache && is_query sql = false ->
  query_cache (snd (fst (execute_query cfg clk db sql use_cache self)))
    = query_cache self /\
  existsb is_cache_event (snd (execute_query cfg clk db sql use_cache self))
    = false.
Proof.
  intros H. unfold execute_query.
  destruct (validate_sql sql (security_mode cfg)); cbn [negb];
    [|split; reflexivity].
  rewrite H.
  destruct (db sql) as [|rows n]; [split; reflexivity|].
  destruct (is_query sql) eqn:Hq.
  - rewrite andb_true_r in H. subst use_cache. cbn [Heap.alloc].
    split; reflexivity.
  - cbn [Heap.alloc]. split; reflexivity.
Qed.

Lemma get_ttl (now1 now2 : Z) (sql : str) (schema : option str)
    (c : QueryCache.t) :
  QueryCache.ttl (snd (QueryCache.get now1 now2 sql schema c))
    = QueryCache.ttl c.
Proof. exact (CacheFacts.ttl_step c (QueryCache.OpGet now1 now2 sql schema)). Qed.

(** After a read that went to the database, the same statement within the
    ttl is a hit that returns the same list object. *)
Lemma miss_then_hit (cfg : config) (clk1 clk2 : clock)
    (db1 db2 : str -> db_outcome) (sql : str) (self : t)
    (rows : list Heap.row) (n : Z) :
  validate_sql sql (security_mode cfg) = true ->
  is_query sql = true ->
  fst (QueryCache.get (get_check clk1) (get_touch clk1) sql None
         (query_cache self)) = None ->
  db1 sql = DbDone rows n ->
  (get_check clk2 - set_stamp clk1 <= QueryCache.ttl (query_cache self))%Z ->
  exists self1 qc2,
    execute_query cfg clk1 db1 sql true self
    = (Return (List.length (heap self)), self1,
       [CacheGet sql; DbExecute sql;
        CacheSet sql (List.length (heap self))]) /\
    heap self1 = heap self ++ [truncate cfg rows] /\
    QueryCache.ttl (query_cache self1) = QueryCache.ttl (query_cache self) /\
    execute_query cfg clk2 db2 sql true self1
    = (Return (List.length (heap self)), mk qc2 (heap self1),
       [CacheGet sql]).
Proof.
  intros Hv Hq Hmiss Hdb Hfresh.
  destruct (QueryCache.get (get_check clk1) (get_touch clk1) sql None
              (query_cache self)) as [o qc] eqn:Hg.
  cbn [fst] in Hmiss. subst o.
  assert (Httl : QueryCache.ttl qc = QueryCache.ttl (query_cache self)).
  { rewrite <- (get_ttl (get_check clk1) (get_touch clk1) sql None
                  (query_cache self)).
    rewrite Hg. reflexivity. }
  eexists. eexists.
  split; [exact (@execute_query_miss cfg clk1 db1 sql self qc rows n
                   Hv Hq Hg Hdb)|].
  cbn [heap query_cache]. split; [reflexivity|].
  split; [rewrite CacheFacts.ttl_set; exact Httl|].
  apply execute_query_hit; [exact Hv | exact Hq |].
  cbn [query_cache].
  rewrite (@CacheFacts.get_after_set (set_stamp clk1) (set_touch clk1)
             (get_check clk2) (get_touch clk2) sql sql
             (List.length (heap self)) None None qc eq_refl).
  assert (G : (get_check clk2 - set_stamp clk1 >? QueryCache.ttl qc)%Z
              = false) by lia.
  rewrite G. reflexivity.
Qed.

End ExecMoreFacts.

(** X8. The cache key of [execute_query] is the statement text alone: the
    parameters are not part of it and the database is not asked again.
    After a read that went to the database, a call with the same text
    within the ttl returns the very list object of the first call, with no
    access to the database, whatever the database would answer now. *)
Theorem repeated_statement_served_from_cache (cfg : DamengDatabase.config)
    (clk1 clk2 : DamengDatabase.clock)
    (db1 db2 : str -> DamengDatabase.db_outcome) (sql : str)
    (self : DamengDatabase.t) (rows : list Heap.row) (n : Z)
    (Hvalid :
       SQLValidator.validate_sql sql (DamengDatabase.security_mode cfg)
       = true)
    (Hquery : DamengDatabase.is_query sql = true)
    (Hmiss :
       fst (QueryCache.get (DamengDatabase.get_check clk1)
              (DamengDatabase.get_touch clk1) sql None
              (DamengDatabase.query_cache self)) = None)
    (Hdb : db1 sql = DamengDatabase.DbDone rows n)
    (Hfresh :
       (DamengDatabase.get_check clk2 - DamengDatabase.set_stamp clk1
        <= QueryCache.ttl (DamengDatabase.query_cache self))%Z) :
  let '(res1, self1, _) :=
    DamengDatabase.execute_query cfg clk1 db1 sql true self in
  let '(res2, self2, trace2) :=
    DamengDatabase.execute_query cfg clk2 db2 sql true self1 in
  res2 = res1 /\
  trace2 = [DamengDatabase.CacheGet sql] /\
  DamengDatabase.heap self2 = DamengDatabase.heap self1 /\
  exists r, res2 = DamengDatabase.Return r /\
            Heap.read (DamengDatabase.heap self2) r
            = Some (DamengDatabase.truncate cfg rows).
Proof.
  destruct (@ExecMoreFacts.miss_then_hit cfg clk1 clk2 db1 db2 sql self
              rows n Hvalid Hquery Hmiss Hdb Hfresh)
    as (self1 & qc2 & E1 & Hheap & _ & E2).
  rewrite E1, E2. cbn [DamengDatabase.heap].
  split; [reflexivity|]. split; [reflexivity|]. split; [reflexivity|].
  exists (List.length (DamengDatabase.heap self)).
  split; [reflexivity|]. rewrite Hheap. unfold Heap.read.
  rewrite nth_error_app2 by lia. rewrite Nat.sub_diag. reflexivity.
Qed.

Lemma repeated_statement_served_from_cache_witness :
  let cfg := DamengDatabase.mk_config READONLY 1000 in
  let clk1 := DamengDatabase.mk_clock 1 1 1 1 in
  let clk2 := DamengDatabase.mk_clock 2 2 2 2 in
  let db1 := fun _ : str =>
               DamengDatabase.DbDone [[(lit "x", Heap.VInt 1)]] 1 in
  let db2 := fun _ : str => DamengDatabase.DbError in
  let self := DamengDatabase.mk (QueryCache.init 100 300) [] in
  let sql := lit "select x from t where y = ?" in
  SQLValidator.validate_sql sql READONLY = true /\
  DamengDatabase.is_query sql = true /\
  snd (DamengDatabase.execute_query cfg clk2 db2 sql true
         (snd (fst (DamengDatabase.execute_query cfg clk1 db1 sql true
                      self)))) = [DamengDatabase.CacheGet sql].
Proof.
  intros cfg clk1 clk2 db1 db2 self sql.
  assert (H1 : SQLValidator.validate_sql sql
                 (DamengDatabase.security_mode cfg) = true)
    by (vm_compute; reflexivity).
  assert (H2 : DamengDatabase.is_query sql = true)
    by (vm_compute; reflexivity).
  assert (H3 : fst (QueryCache.get (DamengDatabase.get_check clk1)
                      (DamengDatabase.get_touch clk1) sql None
                      (DamengDatabase.query_cache self)) = None)
    by reflexivity.
  assert (H4 : db1 sql = DamengDatabase.DbDone [[(lit "x", Heap.VInt 1)]] 1)
    by reflexivity.
  assert (H5 : (DamengDatabase.get_check clk2 - DamengDatabase.set_stamp clk1
                <= QueryCache.ttl (DamengDatabase.query_cache self))%Z)
    by (simpl; lia).
  split; [exact H1|]. split; [exact H2|].
  pose proof (@repeated_statement_served_from_cache cfg clk1 clk2 db1 db2
                sql self _ _ H1 H2 H3 H4 H5) as R.
  destruct (DamengDatabase.execute_query cfg clk1 db1 sql true self)
    as [[res1 self1] tr1].
  cbn [fst snd].
  destruct (DamengDatabase.execute_query cfg clk2 db2 sql true self1)
    as [[res2 self2] tr2].
  destruct R as (_ & R & _). exact R.
Defined.

(** X9. A write does not invalidate the cache.  After a read that went to
    the database, any call of [execute_query] with a statement that is not
    a query (INSERT, UPDATE, ...), whether it succeeds, fails or is
    rejected, leaves the cached result in place: the same read within the
    ttl still returns the list object of before, without asking the
    database. *)
Theorem writes_do_not_invalidate (cfg : DamengDatabase.config)
    (clk1 clk2 clk3 : DamengDatabase.clock)
    (db1 db2 db3 : str -> DamengDatabase.db_outcome) (sql sql_w : str)
    (use_cache_w : bool) (self : DamengDatabase.t)
    (rows : list Heap.row) (n : Z)
    (Hvalid :
       SQLValidator.validate_sql sql (DamengDatabase.security_mode cfg)
       = true)
    (Hquery : DamengDatabase.is_query sql = true)
    (Hwrite : DamengDatabase.is_query sql_w = false)
    (Hmiss :
       fst (QueryCache.get (DamengDatabase.get_check clk1)
              (DamengDatabase.get_touch clk1) sql None
              (DamengDatabase.query_cache self)) = None)
    (Hdb : db1 sql = DamengDatabase.DbDone rows n)
    (Hfresh :
       (DamengDatabase.get_check clk3 - DamengDatabase.set_stamp clk1
        <= QueryCache.ttl (DamengDatabase.query_cache self))%Z) :
  let '(res1, self1, _) :=
    DamengDatabase.execute_query cfg clk1 db1 sql true self in
  let '(_, self2, trace2) :=
    DamengDatabase.execute_query cfg clk2 db2 sql_w use_cache_w self1 in
  let '(res3, _, trace3) :=
    DamengDatabase.execute_query cfg clk3 db3 sql true self2 in
  DamengDatabase.query_cache self2 = DamengDatabase.query_cache self1 /\
  existsb ExecSpec.is_cache_event trace2 = false /\
  res3 = res1 /\
  trace3 = [DamengDatabase.CacheGet sql].
Proof.
  destruct (@ExecMoreFacts.miss_then_hit cfg clk1 clk3 db1 db3 sql self
              rows n Hvalid Hquery Hmiss Hdb Hfresh)
    as (self1 & qc3 & E1 & _ & _ & E3).
  rewrite E1.
  assert (Hw : use_cache_w && DamengDatabase.is_query sql_w = false)
    by (rewrite Hwrite; apply andb_false_r).
  pose proof (@ExecMoreFacts.execute_query_cache_unchanged cfg clk2 db2
                sql_w use_cache_w self1 Hw) as [Hqc Htr].
  destruct (DamengDatabase.execute_query cfg clk2 db2 sql_w use_cache_w
              self1) as [[res2 self2] tr2].
  cbn [fst snd] in Hqc, Htr.
  assert (E3' : DamengDatabase.execute_query cfg clk3 db3 sql true self2 =
                (DamengDatabase.Return
                   (List.length (DamengDatabase.heap self)),
                 DamengDatabase.mk qc3 (DamengDatabase.heap self2),
                 [DamengDatabase.CacheGet sql])).
  { unfold DamengDatabase.execute_query in E3 |- *.
    rewrite Hvalid, Hquery in E3 |- *. cbn [negb andb] in E3 |- *.
    rewrite Hqc.
    destruct (QueryCache.get (DamengDatabase.get_check clk3)
                (DamengDatabase.get_touch clk3) sql None
                (DamengDatabase.query_cache self1)) as [[r|] qc] eqn:Hg.
    - injection E3 as -> ->. reflexivity.
    - exfalso. destruct (db3 sql); [discriminate E3|].
      cbn [Heap.alloc] in E3. discriminate E3. }
  rewrite E3'. auto.
Qed.

Lemma writes_do_not_invalidate_witness :
  let cfg := DamengDatabase.mk_config LIMITED_WRITE 1000 in
  let clk1 := DamengDatabase.mk_clock 1 1 1 1 in
  let clk2 := DamengDatabase.mk_clock 2 2 2 2 in
  let clk3 := DamengDatabase.mk_clock 3 3 3 3 in
  let db1 := fun _ : str =>
               DamengDatabase.DbDone [[(lit "x", Heap.VInt 1)]] 1 in
  let db2 := fun _ : str => DamengDatabase.DbDone [] 1 in
  let db3 := fun _ : str =>
               DamengDatabase.DbDone [[(lit "x", Heap.VInt 2)]] 1 in
  let self := DamengDatabase.mk (QueryCache.init 100 300) [] in
  let sql := lit "select x from t" in
  let sql_w := lit "update t set x = 2" in
  SQLValidator.validate_sql sql LIMITED_WRITE = true /\
  DamengDatabase.is_query sql = true /\
  DamengDatabase.is_query sql_w = false /\
  snd (DamengDatabase.execute_query cfg clk3 db3 sql true
         (snd (fst (DamengDatabase.execute_query cfg clk2 db2 sql_w true
            (snd (fst (DamengDatabase.execute_query cfg clk1 db1 sql true
                         self)))))))
  = [DamengDatabase.CacheGet sql].
Proof.
  intros cfg clk1 clk2 clk3 db1 db2 db3 self sql sql_w.
  assert (H1 : SQLValidator.validate_sql sql
                 (DamengDatabase.security_mode cfg) = true)
    by (vm_compute; reflexivity).
  assert (H2 : DamengDatabase.is_query sql = true)
    by (vm_compute; reflexivity).
  assert (H3 : DamengDatabase.is_query sql_w = false)
    by (vm_compute; reflexivity).
  assert (H4 : fst (QueryCache.get (DamengDatabase.get_check clk1)
                      (DamengDatabase.get_touch clk1) sql None
                      (DamengDatabase.query_cache self)) = None)
    by reflexivity.
  assert (H5 : db1 sql = DamengDatabase.DbDone [[(lit "x", Heap.VInt 1)]] 1)
    by reflexivity.
  assert (H6 : (DamengDatabase.get_check clk3 - DamengDatabase.set_stamp clk1
                <= QueryCache.ttl (DamengDatabase.query_cache self))%Z)
    by (simpl; lia).
  split; [exact H1|]. split; [exact H2|]. split; [exact H3|].
  pose proof (@writes_do_not_invalidate cfg clk1 clk2 clk3 db1 db2 db3
                sql sql_w true self _ _ H1 H2 H3 H4 H5 H6) as R.
  destruct (DamengDatabase.execute_query cfg clk1 db1 sql true self)
    as [[res1 self1] tr1].
  cbn [fst snd].
  destruct (DamengDatabase.execute_query cfg clk2 db2 sql_w true self1)
    as [[res2 self2] tr2].
  cbn [fst snd].
  destruct (DamengDatabase.execute_query cfg clk3 db3 sql true self2)
    as [[res3 self3] tr3].
  destruct R as (_ & _ & _ & R). exact R.
Defined.

(** X10. The row limit.  On a read that reaches the database, with the
    cache in use or not, the list that [execute_query] returns holds the
    first [max_result_rows] of the fetched rows when the limit is not
    negative, so never more rows than the limit; with a negative limit -k
    the slice drops the last k rows instead.  The read reaches the database
    when the cache is not used or does not answer. *)
Theorem result_rows_limited (cfg : DamengDatabase.config)
    (clk : DamengDatabase.clock) (db : str -> DamengDatabase.db_outcome)
    (sql : str) (use_cache : bool) (self : DamengDatabase.t)
    (rows : list Heap.row) (n : Z)
    (Hvalid :
       SQLValidator.validate_sql sql (DamengDatabase.security_mode cfg)
       = true)
    (Hquery : DamengDatabase.is_query sql = true)
    (Hdb : db sql = DamengDatabase.DbDone rows n) :
  let '(res, self', trace) :=
    DamengDatabase.execute_query cfg clk db sql use_cache self in
  let limit := DamengDatabase.max_result_rows cfg in
  let missed :=
    fst (QueryCache.get (DamengDatabase.get_check clk)
           (DamengDatabase.get_touch clk) sql None
           (DamengDatabase.query_cache self)) = None in
  (In (DamengDatabase.DbExecute sql) trace <->
   (use_cache = true -> missed)) /\
  (In (DamengDatabase.DbExecute sql) trace ->
   exists r kept,
     res = DamengDatabase.Return r /\
     Heap.read (DamengDatabase.heap self') r = Some kept /\
     ((0 <= limit)%Z ->
      kept = firstn (Z.to_nat limit) rows /\
      (Z.of_nat (List.length kept) <= limit)%Z) /\
     ((limit < 0)%Z ->
      kept = firstn (List.length rows - Z.to_nat (- limit)) rows)).
Proof.
  assert (Hkept :
    forall h : Heap.heap,
    exists r kept,
      DamengDatabase.Return (List.length h) = DamengDatabase.Return r /\
      Heap.read (h ++ [DamengDatabase.truncate cfg rows]) r = Some kept /\
      ((0 <= DamengDatabase.max_result_rows cfg)%Z ->
       kept = firstn (Z.to_nat (DamengDatabase.max_result_rows cfg)) rows /\
       (Z.of_nat (List.length kept)
        <= DamengDatabase.max_result_rows cfg)%Z) /\
      ((DamengDatabase.max_result_rows cfg < 0)%Z ->
       kept = firstn (List.length rows
                      - Z.to_nat (- DamengDatabase.max_result_rows cfg))
                rows)).
  { intros h. exists (List.length h), (DamengDatabase.truncate cfg rows).
    split; [reflexivity|]. split.
    { unfold Heap.read. rewrite nth_error_app2 by lia.
      rewrite Nat.sub_diag. reflexivity. }
    unfold DamengDatabase.truncate, DamengDatabase.slice_to.
    split; intros Hl.
    - assert (E : (0 <=? DamengDatabase.max_result_rows cfg)%Z = true)
        by lia.
      rewrite E.
      destruct (Z.of_nat (List.length rows)
                >? DamengDatabase.max_result_rows cfg)%Z eqn:G.
      + split; [reflexivity|]. rewrite length_firstn. lia.
      + split; [|lia]. symmetry. apply firstn_all2. lia.
    - assert (E : (0 <=? DamengDatabase.max_result_rows cfg)%Z = false)
        by lia.
      assert (G : (Z.of_nat (List.length rows)
                   >? DamengDatabase.max_result_rows cfg)%Z = true)
        by (apply Z.gtb_lt; lia).
      rewrite G, E. f_equal. lia. }
  unfold DamengDatabase.execute_query. rewrite Hvalid, Hquery.
  cbn [negb]. rewrite andb_true_r.
  destruct use_cache.
  - destruct (QueryCache.get (DamengDatabase.get_check clk)
                (DamengDatabase.get_touch clk) sql None
                (DamengDatabase.query_cache self)) as [[r0|] qc];
      cbn [fst].
    + split.
      * split.
        -- intros [H|[]]. discriminate H.
        -- intros H. discriminate (H eq_refl).
      * intros [H|[]]. discriminate H.
    + rewrite Hdb. cbn [Heap.alloc app DamengDatabase.heap].
      split.
      * split; [reflexivity | intros _; simpl; auto].
      * intros _. apply Hkept.
  - rewrite Hdb. cbn [Heap.alloc app DamengDatabase.heap].
    split.
    + split; [discriminate | intros _; simpl; auto].
    + intros _. apply Hkept.
Qed.

Lemma result_rows_limited_witness :
  let cfg := DamengDatabase.mk_config READONLY 2 in
  let clk := DamengDatabase.mk_clock 1 1 1 1 in
  let rows := [[(lit "x", Heap.VInt 1)]; [(lit "x", Heap.VInt 2)];
               [(lit "x", Heap.VInt 3)]] in
  let db := fun _ : str => DamengDatabase.DbDone rows 3 in
  let self := DamengDatabase.mk (QueryCache.init 100 300) [] in
  let sql := lit "select x from t" in
  SQLValidator.validate_sql sql READONLY = true /\
  DamengDatabase.is_query sql = true /\
  exists r,
    fst (fst (DamengDatabase.execute_query cfg clk db sql true self))
      = DamengDatabase.Return r /\
    Heap.read
      (DamengDatabase.heap
         (snd (fst (DamengDatabase.execute_query cfg clk db sql true self))))
      r = Some (firstn 2 rows).
Proof.
  intros cfg clk rows db self sql.
  assert (H1 : SQLValidator.validate_sql sql
                 (DamengDatabase.security_mode cfg) = true)
    by (vm_compute; reflexivity).
  assert (H2 : DamengDatabase.is_query sql = true)
    by (vm_compute; reflexivity).
  assert (H3 : db sql = DamengDatabase.DbDone rows 3) by reflexivity.
  split; [exact H1|]. split; [exact H2|].
  pose proof (@result_rows_limited cfg clk db sql true self rows 3%Z
                H1 H2 H3) as R.
  destruct (DamengDatabase.execute_query cfg clk db sql true self)
    as [[res self'] tr].
  cbv zeta in R. destruct R as [Hreach R].
  assert (Hin : In (DamengDatabase.DbExecute sql) tr).
  { apply Hreach. intros _. reflexivity. }
  destruct (R Hin) as (r & kept & Hres & Hread & Hpos & _).
  exists r. cbn [fst snd]. split; [exact Hres|].
  rewrite Hread. f_equal. apply Hpos. simpl. lia.
Defined.

(** X11. A call with [use_cache=False] neither reads nor writes the cache,
    whatever the statement and whatever the database answers. *)
Theorem uncached_call_leaves_cache (cfg : DamengDatabase.config)
    (clk : DamengDatabase.clock) (db : str -> DamengDatabase.db_outcome)
    (sql : str) (self : DamengDatabase.t) :
  let '(_, self', trace) :=
    DamengDatabase.execute_query cfg clk db sql false self in
  DamengDatabase.query_cache self' = DamengDatabase.query_cache self /\
  existsb ExecSpec.is_cache_event trace = false.
Proof.
  pose proof (@ExecMoreFacts.execute_query_cache_unchanged cfg clk db sql
                false self eq_refl) as H.
  destruct (DamengDatabase.execute_query cfg clk db sql false self)
    as [[res self'] tr].
  exact H.
Qed.

(** ** The system queries *)

Module MetadataFacts.
Import Py PyFacts SQLValidator DamengDatabase Metadata SystemSQL.

Lemma test_sql_read_only : validate_sql test_sql READONLY = true.
Proof. vm_compute. reflexivity. Qed.

Lemma all_tables_sql_read_only : validate_sql all_tables_sql READONLY = true.
Proof. vm_compute. reflexivity. Qed.

Lemma indexes_sql_read_only : validate_sql indexes_sql READONLY = true.
Proof. vm_compute. reflexivity. Qed.

Lemma indexes_sql_full_access : validate_sql indexes_sql FULL_ACCESS = true.
Proof. reflexivity. Qed.

Lemma test_sql_is_query : is_query test_sql = true.
Proof. vm_compute. reflexivity. Qed.

Lemma all_tables_sql_is_query : is_query all_tables_sql = true.
Proof. vm_compute. reflexivity. Qed.

Lemma test_sql_valid (m : SecurityMode) : validate_sql test_sql m = true.
Proof. destruct m; vm_compute; reflexivity. Qed.

Lemma all_tables_sql_valid (m : SecurityMode) :
  validate_sql all_tables_sql m = true.
Proof. destruct m; vm_compute; reflexivity. Qed.

Lemma constraints_sql_valid (m : SecurityMode) :
  validate_sql constraints_sql m = true.
Proof. destruct m; vm_compute; reflexivity. Qed.

Lemma indexes_sql_limited_write :
  validate_sql indexes_sql LIMITED_WRITE = false.
Proof. vm_compute. reflexivity. Qed.

Lemma execute_safe_query_accepted (cfg : config) (w : call) (sql : str)
    (ps : params) (self : t) :
  validate_sql sql READONLY = true ->
  execute_safe_query cfg w sql ps self =
  execute_query cfg (call_clock w) (fun s => call_db w s ps) sql true self.
Proof. intros H. unfold execute_safe_query. rewrite H. reflexivity. Qed.

Lemma schema_check_star (cfg : Config.DamengConfig) (w : call)
    (schema : str) (self : t) :
  Config.is_all_schemas_allowed cfg = true ->
  _is_schema_allowed cfg w schema self = (true, self, []).
Proof. intros H. unfold _is_schema_allowed. rewrite H. reflexivity. Qed.

(** A hit leaves the entries of the cache as they were. *)
Lemma get_hit_cache (now1 now2 : Z) (sql : str) (schema : option str)
    (c qc : QueryCache.t) (r : Heap.ref) :
  QueryCache.get now1 now2 sql schema c = (Some r, qc) ->
  QueryCache.cache qc = QueryCache.cache c.
Proof.
  unfold QueryCache.get.
  destruct (Dict.get _ _) as [e|]; [|discriminate].
  destruct (_ >? _)%Z; [discriminate|].
  intros H. injection H as _ <-. reflexivity.
Qed.

(** A schema check that does not ask the database leaves the heap and the
    entries of the cache as they were: it is decided from the
    configuration, or answered from the cache. *)
Lemma schema_check_frame (cfg : Config.DamengConfig) (w : call)
    (schema : str) (self : t) :
  (forall s, ~ In (DbExecute s)
                  (snd (_is_schema_allowed cfg w schema self))) ->
  let self' := snd (fst (_is_schema_allowed cfg w schema self)) in
  heap self' = heap self /\
  QueryCache.ttl (query_cache self') = QueryCache.ttl (query_cache self) /\
  QueryCache.cache (query_cache self')
    = QueryCache.cache (query_cache self).
Proof.
  unfold _is_schema_allowed.
  destruct (Config.is_all_schemas_allowed cfg); [intros _; repeat split|].
  destruct (Config.is_auto_discover_schemas cfg); [|intros _; repeat split].
  rewrite execute_safe_query_accepted by exact test_sql_read_only.
  unfold execute_query.
  rewrite test_sql_valid, test_sql_is_query. cbn [negb andb].
  destruct (QueryCache.get (get_check (call_clock w))
              (get_touch (call_clock w)) test_sql None (query_cache self))
    as [[r|] qc] eqn:G.
  - intros _. cbn [fst snd heap query_cache].
    split; [reflexivity|]. split.
    + pose proof (ExecMoreFacts.get_ttl (get_check (call_clock w))
                    (get_touch (call_clock w)) test_sql None
                    (query_cache self)) as T.
      rewrite G in T. exact T.
    + exact (get_hit_cache _ _ _ _ _ G).
  - destruct (call_db w test_sql [Heap.VStr schema]) as [|rows n].
    + intros H. exfalso. apply (H test_sql). simpl. auto.
    + cbn [Heap.alloc]. intros H. exfalso. apply (H test_sql). simpl. auto.
Qed.

End MetadataFacts.

(** X12. [execute_safe_query] holds every statement to the ReadOnly policy,
    whatever tier is configured: a statement that ReadOnly rejects raises
    the fixed [ValueError] before any access to the cache or the database,
    under FullAccess too; and a statement reaches the database only when
    both the ReadOnly policy and the configured tier accept it. *)
Theorem safe_query_is_read_only (cfg : DamengDatabase.config)
    (w : Metadata.call) (sql : str) (ps : Metadata.params)
    (self : DamengDatabase.t) :
  let '(res, self', trace) :=
    Metadata.execute_safe_query cfg w sql ps self in
  (SQLValidator.validate_sql sql READONLY = false ->
   res = DamengDatabase.Raise
           (DamengDatabase.ValueError (lit "系统查询必须是只读操作")) /\
   self' = self /\ trace = []) /\
  ((exists s, In (DamengDatabase.DbExecute s) trace) ->
   SQLValidator.validate_sql sql READONLY = true /\
   SQLValidator.validate_sql sql (DamengDatabase.security_mode cfg) = true).
Proof.
  unfold Metadata.execute_safe_query.
  destruct (SQLValidator.validate_sql sql READONLY) eqn:Hro; cbn [negb].
  - unfold DamengDatabase.execute_query.
    destruct (SQLValidator.validate_sql sql
                (DamengDatabase.security_mode cfg)) eqn:Hcfg; cbn [negb].
    + destruct (true && DamengDatabase.is_query sql);
        [destruct (QueryCache.get _ _ _ _ _) as [[r|] qc]|];
        try (destruct (Metadata.call_db w sql ps));
        try (destruct (DamengDatabase.is_query sql));
        cbn [Heap.alloc]; (split; [discriminate | auto]).
    + split; [discriminate|]. intros [s []].
  - split; [auto|]. intros [s []].
Qed.

Lemma safe_query_is_read_only_witness :
  let cfg := DamengDatabase.mk_config FULL_ACCESS 1000 in
  let w := Metadata.mk_call (DamengDatabase.mk_clock 1 1 1 1)
             (fun _ _ => DamengDatabase.DbDone [] 1) in
  let self := DamengDatabase.mk (QueryCache.init 100 300) [] in
  SQLValidator.validate_sql (lit "DROP TABLE T") READONLY = false /\
  Metadata.execute_safe_query cfg w (lit "DROP TABLE T") [] self =
  (DamengDatabase.Raise
     (DamengDatabase.ValueError (lit "系统查询必须是只读操作")), self, []).
Proof.
  intros cfg w self.
  assert (H : SQLValidator.validate_sql (lit "DROP TABLE T") READONLY
              = false) by (vm_compute; reflexivity).
  split; [exact H|].
  pose proof (safe_query_is_read_only cfg w (lit "DROP TABLE T") [] self)
    as R.
  destruct (Metadata.execute_safe_query cfg w (lit "DROP TABLE T") [] self)
    as [[res self'] tr].
  destruct R as [R _]. destruct (R H) as (-> & -> & ->). reflexivity.
Defined.

(** X13. The schema check asks the database only in auto-discover mode.
    With "*" among the allowed schemas every schema is allowed, also when
    "auto" is listed as well; with neither "*" nor "auto" the check is
    membership in the configured list.  In both cases neither the cache nor
    the database is touched. *)
Theorem schema_check_without_database (cfg : Config.DamengConfig)
    (w : Metadata.call) (schema : str) (self : DamengDatabase.t) :
  (In (lit "*") (Config.allowed_schemas cfg) ->
   Metadata._is_schema_allowed cfg w schema self = (true, self, [])) /\
  (~ In (lit "*") (Config.allowed_schemas cfg) ->
   ~ In (lit "auto") (Config.allowed_schemas cfg) ->
   exists b,
     Metadata._is_schema_allowed cfg w schema self = (b, self, []) /\
     (b = true <-> In schema (Config.allowed_schemas cfg))).
Proof.
  unfold Metadata._is_schema_allowed, Config.is_all_schemas_allowed,
    Config.is_auto_discover_schemas.
  split.
  - intros H. apply PyFacts.mem_In in H. rewrite H. reflexivity.
  - intros Hstar Hauto.
    destruct (mem (lit "*") (Config.allowed_schemas cfg)) eqn:E1.
    { apply PyFacts.mem_In in E1. contradiction. }
    destruct (mem (lit "auto") (Config.allowed_schemas cfg)) eqn:E2.
    { apply PyFacts.mem_In in E2. contradiction. }
    eexists. split; [reflexivity|]. apply PyFacts.mem_In.
Qed.

Lemma schema_check_without_database_witness :
  let cfg := Config.mk READONLY [lit "auto"; lit "*"] false 1000 in
  let cfg' := Config.mk READONLY [lit "SYSDBA"; lit "HR"] false 1000 in
  let w := Metadata.mk_call (DamengDatabase.mk_clock 1 1 1 1)
             (fun _ _ => DamengDatabase.DbError) in
  let self := DamengDatabase.mk (QueryCache.init 100 300) [] in
  Metadata._is_schema_allowed cfg w (lit "ANY") self = (true, self, []) /\
  Metadata._is_schema_allowed cfg' w (lit "HR") self = (true, self, []) /\
  Metadata._is_schema_allowed cfg' w (lit "hr") self = (false, self, []).
Proof.
  intros cfg cfg' w self.
  assert (H1 : In (lit "*") (Config.allowed_schemas cfg))
    by (simpl; auto).
  assert (H2 : ~ In (lit "*") (Config.allowed_schemas cfg'))
    by (simpl; intuition discriminate).
  assert (H3 : ~ In (lit "auto") (Config.allowed_schemas cfg'))
    by (simpl; intuition discriminate).
  split;
    [exact (proj1 (schema_check_without_database cfg w (lit "ANY") self) H1)|].
  split.
  - destruct (proj2 (schema_check_without_database cfg' w (lit "HR") self)
                H2 H3) as (b & E & Hb).
    rewrite E. f_equal. f_equal. apply Hb. simpl. auto.
  - destruct (proj2 (schema_check_without_database cfg' w (lit "hr") self)
                H2 H3) as (b & E & Hb).
    rewrite E. f_equal. f_equal. destruct b; [|reflexivity].
    exfalso. assert (Hin : In (lit "hr") (Config.allowed_schemas cfg'))
      by (apply Hb; reflexivity).
    simpl in Hin. intuition discriminate.
Defined.

(** X14. In auto-discover mode the answer to one schema check is reused
    for every other schema.  The check runs one fixed statement with the
    schema as parameter, and the cache key is the statement text; once a
    check has fetched a non-empty result, the check of any other schema
    within the ttl is answered from the cache with "allowed", and the
    database is not asked. *)
Theorem schema_check_answer_reused (cfg : Config.DamengConfig)
    (w1 w2 : Metadata.call) (schema1 schema2 : str)
    (self : DamengDatabase.t) (rows : list Heap.row) (n : Z)
    (Hstar : ~ In (lit "*") (Config.allowed_schemas cfg))
    (Hauto : In (lit "auto") (Config.allowed_schemas cfg))
    (Hmiss :
       fst (QueryCache.get
              (DamengDatabase.get_check (Metadata.call_clock w1))
              (DamengDatabase.get_touch (Metadata.call_clock w1))
              SystemSQL.test_sql None (DamengDatabase.query_cache self))
       = None)
    (Hdb :
       Metadata.call_db w1 SystemSQL.test_sql [Heap.VStr schema1]
       = DamengDatabase.DbDone rows n)
    (Hrows : DamengDatabase.truncate (Config.exec_config cfg) rows <> [])
    (Hfresh :
       (DamengDatabase.get_check (Metadata.call_clock w2)
        - DamengDatabase.set_stamp (Metadata.call_clock w1)
        <= QueryCache.ttl (DamengDatabase.query_cache self))%Z) :
  let '(allowed1, self1, _) :=
    Metadata._is_schema_allowed cfg w1 schema1 self in
  let '(allowed2, _, trace2) :=
    Metadata._is_schema_allowed cfg w2 schema2 self1 in
  allowed1 = true /\ allowed2 = true /\
  trace2 = [DamengDatabase.CacheGet SystemSQL.test_sql].
Proof.
  unfold Metadata._is_schema_allowed, Config.is_all_schemas_allowed,
    Config.is_auto_discover_schemas.
  destruct (mem (lit "*") (Config.allowed_schemas cfg)) eqn:E1.
  { apply PyFacts.mem_In in E1. contradiction. }
  apply PyFacts.mem_In in Hauto. rewrite Hauto.
  destruct (@ExecMoreFacts.miss_then_hit (Config.exec_config cfg)
              (Metadata.call_clock w1) (Metadata.call_clock w2)
              (fun s => Metadata.call_db w1 s [Heap.VStr schema1])
              (fun s => Metadata.call_db w2 s [Heap.VStr schema2])
              SystemSQL.test_sql self rows n)
    as (self1 & qc2 & F1 & Hheap & _ & F2);
    [apply MetadataFacts.test_sql_valid
    | exact MetadataFacts.test_sql_is_query
    | exact Hmiss | exact Hdb | exact Hfresh |].
  rewrite MetadataFacts.execute_safe_query_accepted
    by exact MetadataFacts.test_sql_read_only.
  rewrite F1. cbv beta iota zeta.
  rewrite MetadataFacts.execute_safe_query_accepted
    by exact MetadataFacts.test_sql_read_only.
  rewrite F2. cbv beta iota zeta. cbn [DamengDatabase.heap].
  assert (Hlen : (0 <? Metadata.len_at (DamengDatabase.heap self1)
                         (List.length (DamengDatabase.heap self)))%nat
                 = true).
  { unfold Metadata.len_at, Heap.read. rewrite Hheap.
    rewrite nth_error_app2 by lia. rewrite Nat.sub_diag. cbn [nth_error].
    apply Nat.ltb_lt.
    destruct (DamengDatabase.truncate (Config.exec_config cfg) rows);
      [congruence | simpl; lia]. }
  rewrite Hlen. auto.
Qed.

Lemma schema_check_answer_reused_witness :
  let cfg := Config.mk READONLY [lit "auto"] false 1000 in
  let w1 := Metadata.mk_call (DamengDatabase.mk_clock 1 1 1 1)
              (fun _ _ =>
                 DamengDatabase.DbDone
                   [[(lit "USERNAME", Heap.VStr (lit "SYSDBA"))]] 1) in
  let w2 := Metadata.mk_call (DamengDatabase.mk_clock 2 2 2 2)
              (fun _ _ => DamengDatabase.DbDone [] 0) in
  let self := DamengDatabase.mk (QueryCache.init 100 300) [] in
  fst (fst (Metadata._is_schema_allowed cfg w2 (lit "NO_SUCH_SCHEMA")
              (snd (fst (Metadata._is_schema_allowed cfg w1 (lit "SYSDBA")
                           self))))) = true.
Proof.
  intros cfg w1 w2 self.
  assert (H1 : ~ In (lit "*") (Config.allowed_schemas cfg))
    by (simpl; intuition discriminate).
  assert (H2 : In (lit "auto") (Config.allowed_schemas cfg))
    by (simpl; auto).
  assert (H3 : fst (QueryCache.get
                      (DamengDatabase.get_check (Metadata.call_clock w1))
                      (DamengDatabase.get_touch (Metadata.call_clock w1))
                      SystemSQL.test_sql None
                      (DamengDatabase.query_cache self)) = None)
    by reflexivity.
  assert (H4 : Metadata.call_db w1 SystemSQL.test_sql
                 [Heap.VStr (lit "SYSDBA")]
               = DamengDatabase.DbDone
                   [[(lit "USERNAME", Heap.VStr (lit "SYSDBA"))]] 1)
    by reflexivity.
  assert (H5 : DamengDatabase.truncate (Config.exec_config cfg)
                 [[(lit "USERNAME", Heap.VStr (lit "SYSDBA"))]] <> [])
    by (vm_compute; discriminate).
  assert (H6 : (DamengDatabase.get_check (Metadata.call_clock w2)
                - DamengDatabase.set_stamp (Metadata.call_clock w1)
                <= QueryCache.ttl (DamengDatabase.query_cache self))%Z)
    by (simpl; lia).
  pose proof (@schema_check_answer_reused cfg w1 w2 (lit "SYSDBA")
                (lit "NO_SUCH_SCHEMA") self _ _ H1 H2 H3 H4 H5 H6) as R.
  destruct (Metadata._is_schema_allowed cfg w1 (lit "SYSDBA") self)
    as [[a1 self1] tr1].
  cbn [fst snd].
  destruct (Metadata._is_schema_allowed cfg w2 (lit "NO_SUCH_SCHEMA") self1)
    as [[a2 self2] tr2].
  destruct R as (_ & R & _). exact R.
Defined.

(** X15. Under LimitedWrite [get_table_indexes] never reaches the database.
    Its own statement contains 'CREATE INDEX', which the LimitedWrite tier
    rejects as a Dangerous keyword; the [except] turns the rejection into an
    empty list.  So for every table of an allowed schema the result is a
    fresh empty list, with no event besides those of the schema check and
    with the cache as the schema check left it.  ReadOnly and FullAccess
    accept the statement. *)
Theorem index_listing_empty_under_limited_write
    (repr_list : list str -> str) (cfg : Config.DamengConfig)
    (w1 w2 : Metadata.call) (table_name : str) (schema : option str)
    (self : DamengDatabase.t)
    (Hmode : Config.security_mode cfg = LIMITED_WRITE) :
  let '(allowed, self1, trace1) :=
    Metadata._is_schema_allowed cfg w1 (Metadata.schema_or_default schema)
      self in
  let '(res, self2, trace) :=
    Metadata.get_table_indexes repr_list cfg w1 w2 table_name schema self in
  (allowed = true ->
   trace = trace1 /\
   DamengDatabase.query_cache self2 = DamengDatabase.query_cache self1 /\
   exists r,
     res = DamengDatabase.Return r /\
     Heap.read (DamengDatabase.heap self1) r = None /\
     Heap.read (DamengDatabase.heap self2) r = Some []) /\
  SQLValidator.validate_sql SystemSQL.indexes_sql READONLY = true /\
  SQLValidator.validate_sql SystemSQL.indexes_sql FULL_ACCESS = true.
Proof.
  unfold Metadata.get_table_indexes, Metadata.query_or_empty.
  destruct (Metadata._is_schema_allowed cfg w1
              (Metadata.schema_or_default schema) self)
    as [[allowed self1] tr1].
  destruct allowed; cbn [negb].
  - rewrite MetadataFacts.execute_safe_query_accepted
      by exact MetadataFacts.indexes_sql_read_only.
    unfold DamengDatabase.execute_query.
    cbn [Config.exec_config DamengDatabase.security_mode].
    rewrite Hmode, MetadataFacts.indexes_sql_limited_write.
    cbn [negb Heap.alloc].
    split; [|split; [exact MetadataFacts.indexes_sql_read_only
                    | exact MetadataFacts.indexes_sql_full_access]].
    intros _. split; [apply app_nil_r|]. split; [reflexivity|].
    exists (List.length (DamengDatabase.heap self1)).
    split; [reflexivity|]. cbn [DamengDatabase.heap]. unfold Heap.read.
    split.
    + apply nth_error_None. lia.
    + rewrite nth_error_app2 by lia. rewrite Nat.sub_diag. reflexivity.
  - split; [discriminate|].
    split; [exact MetadataFacts.indexes_sql_read_only
           | exact MetadataFacts.indexes_sql_full_access].
Qed.

Lemma index_listing_empty_under_limited_write_witness :
  let cfg := Config.mk LIMITED_WRITE [lit "*"] false 1000 in
  let w := Metadata.mk_call (DamengDatabase.mk_clock 1 1 1 1)
             (fun _ _ =>
                DamengDatabase.DbDone
                  [[(lit "indexname", Heap.VStr (lit "IDX_T"))]] 1) in
  let self := DamengDatabase.mk (QueryCache.init 100 300) [] in
  Config.security_mode cfg = LIMITED_WRITE /\
  snd (Metadata.get_table_indexes (fun _ => lit "[]") cfg w w (lit "T") None
         self) = [].
Proof.
  intros cfg w self.
  assert (H : Config.security_mode cfg = LIMITED_WRITE) by reflexivity.
  split; [exact H|].
  pose proof (@index_listing_empty_under_limited_write
                (fun _ => lit "[]") cfg w w (lit "T") None self H) as R.
  assert (E : Metadata._is_schema_allowed cfg w
                (Metadata.schema_or_default None) self = (true, self, []))
    by reflexivity.
  rewrite E in R.
  destruct (Metadata.get_table_indexes (fun _ => lit "[]") cfg w w (lit "T")
              None self) as [[res self2] tr].
  destruct R as [R _]. destruct (R eq_refl) as [-> _]. reflexivity.
Defined.

(** X16. [get_all_tables] returns the tables of the schema that was asked
    for first.  Its statement is the same for every schema, the schema being
    a parameter, and the cache key is the statement text.  Under every
    configuration of the allowed schemas: after a call for an allowed schema
    that went to the database, a call within the ttl for any other schema
    that the schema check allows without asking the database (from the
    configuration, or in auto-discover mode from the cache) returns the list
    object of the first call, and the database is not asked. *)
Theorem table_list_reused_across_schemas (repr_list : list str -> str)
    (cfg : Config.DamengConfig) (w1 w1' w2 w2' : Metadata.call)
    (schema1 schema2 : option str) (self checked : DamengDatabase.t)
    (trace0 : list DamengDatabase.event) (rows : list Heap.row) (n : Z)
    (Hallowed :
       Metadata._is_schema_allowed cfg w1
         (Metadata.schema_or_default schema1) self
       = (true, checked, trace0))
    (Hmiss :
       fst (QueryCache.get
              (DamengDatabase.get_check (Metadata.call_clock w1'))
              (DamengDatabase.get_touch (Metadata.call_clock w1'))
              SystemSQL.all_tables_sql None
              (DamengDatabase.query_cache checked)) = None)
    (Hdb :
       Metadata.call_db w1' SystemSQL.all_tables_sql
         [Heap.VStr (Metadata.schema_or_default schema1)]
       = DamengDatabase.DbDone rows n)
    (Hfresh :
       (DamengDatabase.get_check (Metadata.call_clock w2')
        - DamengDatabase.set_stamp (Metadata.call_clock w1')
        <= QueryCache.ttl (DamengDatabase.query_cache checked))%Z) :
  let '(res1, self1, _) :=
    Metadata.get_all_tables repr_list cfg w1 w1' schema1 self in
  let '(allowed2, _, check2) :=
    Metadata._is_schema_allowed cfg w2
      (Metadata.schema_or_default schema2) self1 in
  let '(res2, self2, trace2) :=
    Metadata.get_all_tables repr_list cfg w2 w2' schema2 self1 in
  allowed2 = true ->
  (forall s, ~ In (DamengDatabase.DbExecute s) check2) ->
  res2 = res1 /\
  trace2 = check2 ++ [DamengDatabase.CacheGet SystemSQL.all_tables_sql] /\
  exists r,
    res2 = DamengDatabase.Return r /\
    Heap.read (DamengDatabase.heap self2) r
    = Some (DamengDatabase.truncate (Config.exec_config cfg) rows).
Proof.
  destruct (QueryCache.get
              (DamengDatabase.get_check (Metadata.call_clock w1'))
              (DamengDatabase.get_touch (Metadata.call_clock w1'))
              SystemSQL.all_tables_sql None
              (DamengDatabase.query_cache checked)) as [o qc] eqn:Hg.
  cbn [fst] in Hmiss. subst o.
  assert (Httl : QueryCache.ttl qc
                 = QueryCache.ttl (DamengDatabase.query_cache checked)).
  { pose proof (ExecMoreFacts.get_ttl
                  (DamengDatabase.get_check (Metadata.call_clock w1'))
                  (DamengDatabase.get_touch (Metadata.call_clock w1'))
                  SystemSQL.all_tables_sql None
                  (DamengDatabase.query_cache checked)) as T.
    rewrite Hg in T. exact T. }
  unfold Metadata.get_all_tables.
  rewrite Hallowed. cbn [negb].
  rewrite MetadataFacts.execute_safe_query_accepted
    by exact MetadataFacts.all_tables_sql_read_only.
  rewrite (@ExecMoreFacts.execute_query_miss (Config.exec_config cfg)
             (Metadata.call_clock w1')
             (fun s => Metadata.call_db w1' s
                         [Heap.VStr (Metadata.schema_or_default schema1)])
             SystemSQL.all_tables_sql checked qc rows n
             (MetadataFacts.all_tables_sql_valid _)
             MetadataFacts.all_tables_sql_is_query Hg Hdb).
  cbv beta iota zeta.
  set (r := List.length (DamengDatabase.heap checked)).
  set (self1 :=
         DamengDatabase.mk
           (QueryCache.set
              (DamengDatabase.set_stamp (Metadata.call_clock w1'))
              (DamengDatabase.set_touch (Metadata.call_clock w1'))
              SystemSQL.all_tables_sql r None qc)
           (DamengDatabase.heap checked
              ++ [DamengDatabase.truncate (Config.exec_config cfg) rows])).
  pose proof (@MetadataFacts.schema_check_frame cfg w2
                (Metadata.schema_or_default schema2) self1) as Fr.
  destruct (Metadata._is_schema_allowed cfg w2
              (Metadata.schema_or_default schema2) self1)
    as [[allowed2 self1'] check2].
  cbn [fst snd] in Fr.
  destruct allowed2; cbn [negb];
    [|cbv beta iota; intros H; discriminate H].
  rewrite MetadataFacts.execute_safe_query_accepted
    by exact MetadataFacts.all_tables_sql_read_only.
  destruct (DamengDatabase.execute_query (Config.exec_config cfg)
              (Metadata.call_clock w2')
              (fun s => Metadata.call_db w2' s
                          [Heap.VStr (Metadata.schema_or_default schema2)])
              SystemSQL.all_tables_sql true self1')
    as [[res2 self2] tr2] eqn:EQ.
  cbv beta iota zeta. intros _ Hnodb.
  destruct (Fr Hnodb) as (Hheap & Httl' & Hcache).
  assert (Hhit :
    QueryCache.get (DamengDatabase.get_check (Metadata.call_clock w2'))
      (DamengDatabase.get_touch (Metadata.call_clock w2'))
      SystemSQL.all_tables_sql None (DamengDatabase.query_cache self1')
    = (Some r,
       QueryCache.mk
         (QueryCache.cache (DamengDatabase.query_cache self1'))
         (QueryCache.max_size (DamengDatabase.query_cache self1'))
         (QueryCache.ttl (DamengDatabase.query_cache self1'))
         (Dict.set
            (QueryCache.access_times (DamengDatabase.query_cache self1'))
            (QueryCache._generate_key SystemSQL.all_tables_sql None)
            (DamengDatabase.get_touch (Metadata.call_clock w2'))))).
  { unfold QueryCache.get. rewrite Hcache, Httl'.
    unfold self1. cbn [DamengDatabase.query_cache].
    rewrite CacheFacts.get_cache_set, CacheFacts.ttl_set.
    cbn [QueryCache.timestamp QueryCache.data].
    assert (G : (DamengDatabase.get_check (Metadata.call_clock w2')
                 - DamengDatabase.set_stamp (Metadata.call_clock w1')
                 >? QueryCache.ttl qc)%Z = false) by lia.
    rewrite G. reflexivity. }
  rewrite (@ExecMoreFacts.execute_query_hit (Config.exec_config cfg)
             (Metadata.call_clock w2')
             (fun s => Metadata.call_db w2' s
                         [Heap.VStr (Metadata.schema_or_default schema2)])
             SystemSQL.all_tables_sql self1' r _
             (MetadataFacts.all_tables_sql_valid _)
             MetadataFacts.all_tables_sql_is_query Hhit) in EQ.
  injection EQ as <- <- <-.
  split; [reflexivity|]. split; [reflexivity|].
  exists r. split; [reflexivity|].
  cbn [DamengDatabase.heap]. rewrite Hheap. unfold self1.
  cbn [DamengDatabase.heap]. unfold Heap.read, r.
  rewrite nth_error_app2 by lia. rewrite Nat.sub_diag. reflexivity.
Qed.

Lemma table_list_reused_across_schemas_witness :
  (let cfg := Config.mk READONLY [lit "HR"; lit "SALES"] false 1000 in
   let w1 := Metadata.mk_call (DamengDatabase.mk_clock 1 1 1 1)
               (fun _ _ =>
                  DamengDatabase.DbDone
                    [[(lit "tablename", Heap.VStr (lit "EMPLOYEES"))]] 1) in
   let w2 := Metadata.mk_call (DamengDatabase.mk_clock 2 2 2 2)
               (fun _ _ => DamengDatabase.DbDone [] 0) in
   let self := DamengDatabase.mk (QueryCache.init 100 300) [] in
   let first := Metadata.get_all_tables (fun _ => lit "[]") cfg w1 w1
                  (Some (lit "HR")) self in
   let second := Metadata.get_all_tables (fun _ => lit "[]") cfg w2 w2
                   (Some (lit "SALES")) (snd (fst first)) in
   fst (fst second) = fst (fst first) /\
   snd second = [DamengDatabase.CacheGet SystemSQL.all_tables_sql]) /\
  (let cfg := Config.mk READONLY [lit "auto"] false 1000 in
   let w1 := Metadata.mk_call (DamengDatabase.mk_clock 1 1 1 1)
               (fun _ _ =>
                  DamengDatabase.DbDone
                    [[(lit "tablename", Heap.VStr (lit "EMPLOYEES"))]] 1) in
   let w2 := Metadata.mk_call (DamengDatabase.mk_clock 2 2 2 2)
               (fun _ _ => DamengDatabase.DbDone [] 0) in
   let self := DamengDatabase.mk (QueryCache.init 100 300) [] in
   let first := Metadata.get_all_tables (fun _ => lit "[]") cfg w1 w1
                  (Some (lit "HR")) self in
   let second := Metadata.get_all_tables (fun _ => lit "[]") cfg w2 w2
                   (Some (lit "SALES")) (snd (fst first)) in
   fst (fst second) = fst (fst first) /\
   snd second = [DamengDatabase.CacheGet SystemSQL.test_sql;
                 DamengDatabase.CacheGet SystemSQL.all_tables_sql]).
Proof.
  split.
  - intros cfg w1 w2 self first second.
    assert (H1 : Metadata._is_schema_allowed cfg w1
                   (Metadata.schema_or_default (Some (lit "HR"))) self
                 = (true, self, [])) by reflexivity.
    assert (H2 : fst (QueryCache.get
                        (DamengDatabase.get_check (Metadata.call_clock w1))
                        (DamengDatabase.get_touch (Metadata.call_clock w1))
                        SystemSQL.all_tables_sql None
                        (DamengDatabase.query_cache self)) = None)
      by reflexivity.
    assert (H3 : Metadata.call_db w1 SystemSQL.all_tables_sql
                   [Heap.VStr
                      (Metadata.schema_or_default (Some (lit "HR")))]
                 = DamengDatabase.DbDone
                     [[(lit "tablename", Heap.VStr (lit "EMPLOYEES"))]] 1)
      by reflexivity.
    assert (H4 : (DamengDatabase.get_check (Metadata.call_clock w2)
                  - DamengDatabase.set_stamp (Metadata.call_clock w1)
                  <= QueryCache.ttl (DamengDatabase.query_cache self))%Z)
      by (simpl; lia).
    pose proof (@table_list_reused_across_schemas (fun _ => lit "[]") cfg
                  w1 w1 w2 w2 (Some (lit "HR")) (Some (lit "SALES")) self
                  self [] _ _ H1 H2 H3 H4) as R.
    unfold second, first.
    destruct (Metadata.get_all_tables (fun _ => lit "[]") cfg w1 w1
                (Some (lit "HR")) self) as [[res1 self1] tr1].
    cbn [fst snd].
    assert (E : Metadata._is_schema_allowed cfg w2
                  (Metadata.schema_or_default (Some (lit "SALES"))) self1
                = (true, self1, [])) by reflexivity.
    rewrite E in R.
    destruct (Metadata.get_all_tables (fun _ => lit "[]") cfg w2 w2
                (Some (lit "SALES")) self1) as [[res2 self2] tr2].
    destruct (R eq_refl (fun s H => H)) as (R1 & R2 & _).
    split; [exact R1 | exact R2].
  - intros cfg w1 w2 self first second.
    set (check1 := Metadata._is_schema_allowed cfg w1
                     (Metadata.schema_or_default (Some (lit "HR"))) self).
    assert (H1 : check1 = (true, snd (fst check1), snd check1))
      by (vm_compute; reflexivity).
    assert (H2 : fst (QueryCache.get
                        (DamengDatabase.get_check (Metadata.call_clock w1))
                        (DamengDatabase.get_touch (Metadata.call_clock w1))
                        SystemSQL.all_tables_sql None
                        (DamengDatabase.query_cache (snd (fst check1))))
                 = None)
      by (vm_compute; reflexivity).
    assert (H3 : Metadata.call_db w1 SystemSQL.all_tables_sql
                   [Heap.VStr
                      (Metadata.schema_or_default (Some (lit "HR")))]
                 = DamengDatabase.DbDone
                     [[(lit "tablename", Heap.VStr (lit "EMPLOYEES"))]] 1)
      by reflexivity.
    assert (H4 : (DamengDatabase.get_check (Metadata.call_clock w2)
                  - DamengDatabase.set_stamp (Metadata.call_clock w1)
                  <= QueryCache.ttl
                       (DamengDatabase.query_cache (snd (fst check1))))%Z)
      by (vm_compute; discriminate).
    pose proof (@table_list_reused_across_schemas (fun _ => lit "[]") cfg
                  w1 w1 w2 w2 (Some (lit "HR")) (Some (lit "SALES")) self
                  (snd (fst check1)) (snd check1) _ _ H1 H2 H3 H4) as R.
    vm_compute in R.
    assert (Hno : forall s : str,
               DamengDatabase.CacheGet SystemSQL.test_sql
                 = DamengDatabase.DbExecute s \/ False -> False)
      by (intros s [H|[]]; discriminate H).
    vm_compute in Hno.
    destruct (R eq_refl Hno) as (R1 & R2 & _).
    vm_compute. split; [exact R1 | exact R2].
Defined.

(** ** The configuration *)

Module ConfigFacts.
Import Py PyFacts PyMore Config.

Lemma of_value_value (v : str) (m : SecurityMode) :
  of_value v = Some m <-> v = value m.
Proof.
  unfold of_value.
  destruct (str_eqb v (lit "readonly")) eqn:E1.
  { apply str_eqb_eq in E1. subst v.
    destruct m; split; intros H; try reflexivity; discriminate H. }
  destruct (str_eqb v (lit "limited_write")) eqn:E2.
  { apply str_eqb_eq in E2. subst v.
    destruct m; split; intros H; try reflexivity; discriminate H. }
  destruct (str_eqb v (lit "full_access")) eqn:E3.
  { apply str_eqb_eq in E3. subst v.
    destruct m; split; intros H; try reflexivity; discriminate H. }
  apply str_eqb_neq in E1, E2, E3.
  split; [discriminate|]. intros ->. destruct m; contradiction.
Qed.

Lemma split_on_nonempty (sep : ascii) (s : str) : split_on sep s <> [].
Proof.
  induction s as [|c s IH]; simpl; [discriminate|].
  destruct (ascii_dec c sep); [discriminate|].
  destruct (split_on sep s); discriminate.
Qed.

Lemma join_cons_char (sep : str) (c : ascii) (w : str) (ws : list str) :
  join sep ((c :: w) :: ws) = c :: join sep (w :: ws).
Proof. destruct ws; reflexivity. Qed.

Lemma join_split_on (sep : ascii) (s : str) :
  join [sep] (split_on sep s) = s.
Proof.
  induction s as [|c s IH]; [reflexivity|]. simpl split_on.
  pose proof (split_on_nonempty sep s) as Hne.
  destruct (ascii_dec c sep) as [->|Hc].
  - destruct (split_on sep s) as [|w ws] eqn:E; [congruence|].
    change (join [sep] ([] :: w :: ws)) with (sep :: join [sep] (w :: ws)).
    rewrite IH. reflexivity.
  - destruct (split_on sep s) as [|w ws] eqn:E; [congruence|].
    rewrite join_cons_char, IH. reflexivity.
Qed.

Lemma split_on_pieces (sep : ascii) (s : str) :
  Forall (fun piece => ~ In sep piece) (split_on sep s).
Proof.
  induction s as [|c s IH]; simpl.
  - constructor; [intros [] | constructor].
  - destruct (ascii_dec c sep) as [->|Hc].
    + constructor; [intros [] | exact IH].
    + destruct (split_on sep s) as [|w ws]; [repeat constructor|].
      * intros [E | []]. congruence.
      * inversion IH as [|? ? Hw Hws]. subst.
        constructor; [|exact Hws]. intros [E | H]; [congruence | auto].
Qed.

Lemma split_on_length (sep : ascii) (s : str) :
  List.length (split_on sep s) = S (count_occ ascii_dec s sep).
Proof.
  induction s as [|c s IH]; [reflexivity|]. simpl.
  pose proof (split_on_nonempty sep s) as Hne.
  destruct (ascii_dec c sep) as [->|Hc].
  - simpl. rewrite IH. reflexivity.
  - destruct (split_on sep s) as [|w ws] eqn:E; [congruence|].
    simpl in *. exact IH.
Qed.

End ConfigFacts.

(** X17. The security mode is read from its text without regard to case:
    [validate_security_mode] returns the tier whose value is the lower-cased
    text, so it inverts [value] on the values and on their upper-case forms,
    and for every other text it raises the [ValueError] that quotes the
    text and lists the three values. *)
Theorem security_mode_parsed_case_insensitively (v : str)
    (m : SecurityMode) :
  (Config.validate_security_mode v = inl m <->
   PyMore.lower v = Config.value m) /\
  Config.validate_security_mode (Config.value m) = inl m /\
  Config.validate_security_mode (upper (Config.value m)) = inl m /\
  ((exists m', Config.validate_security_mode v = inl m') \/
   Config.validate_security_mode v =
   inr (lit "无效的安全模式: " ++ v
        ++ lit "，支持的模式: ['readonly', 'limited_write', 'full_access']")).
Proof.
  unfold Config.validate_security_mode. split; [|split; [|split]].
  - destruct (Config.of_value (PyMore.lower v)) as [m'|] eqn:E.
    + apply ConfigFacts.of_value_value in E. split.
      * intros H. injection H as <-. exact E.
      * intros H. rewrite H in E. f_equal. destruct m, m'; try reflexivity;
          discriminate E.
    + split; [discriminate|]. intros H.
      apply ConfigFacts.of_value_value in H. congruence.
  - destruct m; reflexivity.
  - destruct m; reflexivity.
  - destruct (Config.of_value (PyMore.lower v)) as [m'|]; [left | right];
      eauto.
Qed.

(** X18. The flags that [get_security_info] reports agree with the
    validator.  Writing is reported as not allowed exactly when every
    accepted statement has a leading keyword of the Read set; dangerous
    operations are reported as not allowed exactly when no accepted
    statement has a leading keyword of the Dangerous set; and the read-only
    flag is the negation of the write flag. *)
Theorem flags_agree_with_validator (c : Config.DamengConfig) :
  let accepted sql :=
    SQLValidator.validate_sql sql (Config.security_mode c) = true in
  let keyword sql :=
    SQLValidator._extract_first_keyword (Policy.normalized sql) in
  (Config.is_write_allowed c = false <->
   forall sql, accepted sql -> In (keyword sql) Policy.Read) /\
  (Config.is_dangerous_operation_allowed c = false <->
   forall sql, accepted sql -> ~ In (keyword sql) Policy.Dangerous) /\
  Config.is_readonly_mode c = negb (Config.is_write_allowed c).
Proof.
  intros accepted keyword. unfold accepted, keyword.
  unfold Config.is_write_allowed, Config.is_dangerous_operation_allowed,
    Config.is_readonly_mode.
  assert (Hro : forall sql,
             SQLValidator.validate_sql sql READONLY = true ->
             In (SQLValidator._extract_first_keyword (Policy.normalized sql))
                Policy.Read).
  { intros sql H. apply ValidatorFacts.validate_readonly_accepts in H.
    destruct H as (kw & Htok & Hin & _).
    rewrite (PolicyFacts.first_token_extract Htok). exact Hin. }
  assert (Hlw : forall sql,
             SQLValidator.validate_sql sql LIMITED_WRITE = true ->
             In (SQLValidator._extract_first_keyword (Policy.normalized sql))
                (Policy.Read ++ Policy.Write)).
  { intros sql H. apply ValidatorFacts.validate_limited_write_accepts in H.
    destruct H as (kw & Htok & Hin & _).
    rewrite (PolicyFacts.first_token_extract Htok). exact Hin. }
  assert (Hdis : forall kw, In kw (Policy.Read ++ Policy.Write) ->
                            ~ In kw Policy.Dangerous).
  { intros kw Hin Hd. simpl in Hin, Hd.
    repeat (destruct Hin as [<- | Hin];
            [repeat (destruct Hd as [Hd | Hd]; [discriminate Hd|]);
             exact Hd|]).
    exact Hin. }
  destruct (Config.security_mode c); split; [| split | | split | | split];
    try reflexivity.
  - split; [intros _; exact Hro | reflexivity].
  - split; [|reflexivity]. intros _ sql H. apply Hdis.
    apply in_or_app. left. apply Hro, H.
  - split; [discriminate|]. intros H. exfalso.
    specialize (H (lit "INSERT INTO T VALUES (1)") eq_refl).
    vm_compute in H. intuition discriminate.
  - split; [|reflexivity]. intros _ sql H. apply Hdis, Hlw, H.
  - split; [discriminate|]. intros H. exfalso.
    specialize (H (lit "INSERT INTO T VALUES (1)") eq_refl).
    vm_compute in H. intuition discriminate.
  - split; [discriminate|]. intros H. exfalso.
    apply (H (lit "DROP TABLE T") eq_refl). vm_compute. auto.
Qed.

(** X19. The allowed schemas read from the environment are the pieces of
    the text between its commas: joining them with commas gives the text
    back, no piece contains a comma, and there is one piece more than there
    are commas.  The list is therefore never empty, the empty text giving
    one empty name, and [validate_schemas] never rejects it. *)
Theorem allowed_schemas_from_env (x : str) :
  PyMore.join (lit ",") (Config.schemas_of_env x) = x /\
  Forall (fun piece => ~ In ","%char piece) (Config.schemas_of_env x) /\
  List.length (Config.schemas_of_env x)
    = S (count_occ ascii_dec x ","%char) /\
  Config.schemas_of_env x <> [] /\
  Config.validate_schemas (Config.schemas_of_env x)
    = inl (Config.schemas_of_env x) /\
  Config.schemas_of_env (lit "") = [lit ""].
Proof.
  unfold Config.schemas_of_env.
  split; [apply ConfigFacts.join_split_on|].
  split; [apply ConfigFacts.split_on_pieces|].
  split; [apply ConfigFacts.split_on_length|].
  pose proof (ConfigFacts.split_on_nonempty ","%char x) as Hne.
  split; [exact Hne|]. split; [|reflexivity].
  unfold Config.validate_schemas.
  destruct (PyMore.split_on ","%char x); [congruence | reflexivity].
Qed.

(** ** [normalize_data] and [_get_field_value] *)

Module NormalizeFacts.
Import Py PyFacts PyMore DictFacts.

Section Facts.
Variable V : Type.
Implicit Types (n item : Dict.dict V) (x k : str).

Lemma normalize_item_fold item :
  Main.normalize_item item = fold_left (@Main.normalize_step V) item (Dict.empty V).
Proof. reflexivity. Qed.

Lemma get_set_frame n k x (v : V) :
  k <> x -> Dict.get (Dict.set n k v) x = Dict.get n x.
Proof. apply get_set_other. Qed.

Lemma fold_get_frame (l : list (str * V)) :
  forall n x,
    (forall kv, In kv l -> fst kv <> x /\ lower (fst kv) <> x) ->
    Dict.get (fold_left (@Main.normalize_step V) l n) x = Dict.get n x.
Proof.
  induction l as [|kv l IH]; intros n x H; simpl; [reflexivity|].
  rewrite IH by (intros kv' Hin; apply H; right; exact Hin).
  destruct (H kv (or_introl eq_refl)) as [H1 H2].
  unfold Main.normalize_step. rewrite !get_set_other by assumption. reflexivity.
Qed.

Lemma keys_set_incl n k (v : V) x :
  In x (Dict.keys n) -> In x (Dict.keys (Dict.set n k v)).
Proof.
  intros H. rewrite keys_set. destruct (Dict.mem n k); [exact H|].
  apply in_or_app. left. exact H.
Qed.

Lemma keys_set_new n k (v : V) : In k (Dict.keys (Dict.set n k v)).
Proof.
  rewrite keys_set. destruct (Dict.mem n k) eqn:E.
  - apply mem_keys, E.
  - apply in_or_app. right. left. reflexivity.
Qed.

Lemma keys_set_origin n k (v : V) x :
  In x (Dict.keys (Dict.set n k v)) -> In x (Dict.keys n) \/ x = k.
Proof.
  rewrite keys_set. destruct (Dict.mem n k); [auto|].
  intros H. apply in_app_iff in H. destruct H as [H | [H | []]]; auto.
Qed.

Lemma fold_keys_incl (l : list (str * V)) :
  forall n x, In x (Dict.keys n) -> In x (Dict.keys (fold_left (@Main.normalize_step V) l n)).
Proof.
  induction l as [|kv l IH]; intros n x H; simpl; [exact H|].
  apply IH. unfold Main.normalize_step. apply keys_set_incl, keys_set_incl, H.
Qed.

Lemma fold_keys_present (l : list (str * V)) :
  forall n kv,
    In kv l ->
    In (fst kv) (Dict.keys (fold_left (@Main.normalize_step V) l n)) /\
    In (lower (fst kv)) (Dict.keys (fold_left (@Main.normalize_step V) l n)).
Proof.
  induction l as [|kv0 l IH]; intros n kv Hin; simpl; [contradiction|].
  destruct Hin as [-> | Hin]; [|apply IH, Hin].
  split; apply fold_keys_incl; unfold Main.normalize_step.
  - apply keys_set_incl, keys_set_new.
  - apply keys_set_new.
Qed.

Lemma fold_keys_origin (l : list (str * V)) :
  forall n x,
    In x (Dict.keys (fold_left (@Main.normalize_step V) l n)) ->
    In x (Dict.keys n) \/
    exists kv, In kv l /\ (x = fst kv \/ x = lower (fst kv)).
Proof.
  induction l as [|kv l IH]; intros n x H; simpl in *; [auto|].
  destruct (IH _ _ H) as [H1 | [kv' [Hin Hx]]].
  - unfold Main.normalize_step in H1. apply keys_set_origin in H1.
    destruct H1 as [H1 | ->]; [|right; exists kv; auto].
    apply keys_set_origin in H1.
    destruct H1 as [H1 | ->]; [auto | right; exists kv; auto].
  - right. exists kv'. auto.
Qed.

Lemma fold_get_alone (l1 l2 : list (str * V)) k (v : V) :
  NoDup (Dict.keys (l1 ++ (k, v) :: l2)) ->
  (forall k', In k' (Dict.keys (l1 ++ (k, v) :: l2)) ->
              lower k' = lower k -> k' = k) ->
  forall n,
    Dict.get (fold_left (@Main.normalize_step V) (l1 ++ (k, v) :: l2) n) k = Some v /\
    Dict.get (fold_left (@Main.normalize_step V) (l1 ++ (k, v) :: l2) n) (lower k) = Some v.
Proof.
  intros Hnd Halone n. rewrite fold_left_app. cbn [fold_left].
  set (n1 := fold_left (@Main.normalize_step V) l1 n).
  assert (Hl2 : forall kv, In kv l2 ->
                  fst kv <> k /\ lower (fst kv) <> k /\
                  fst kv <> lower k /\ lower (fst kv) <> lower k).
  { intros [k' v'] Hin. cbn [fst].
    assert (Hk' : In k' (Dict.keys (l1 ++ (k, v) :: l2))).
    { unfold Dict.keys. rewrite map_app. apply in_or_app. right. right.
      apply (in_map fst) in Hin. exact Hin. }
    assert (Hne : k' <> k).
    { intros ->. unfold Dict.keys in Hnd. rewrite map_app in Hnd.
      apply NoDup_remove_2 in Hnd. apply Hnd. apply in_or_app. right.
      apply (in_map fst) in Hin. exact Hin. }
    assert (Hcls : lower k' <> lower k)
      by (intros E; apply Hne, Halone; assumption).
    repeat split; try assumption.
    - intros E. apply Hcls. rewrite <- (PyMoreFacts.lower_idem k'), E.
      reflexivity.
    - intros E. apply Hcls. rewrite E. apply PyMoreFacts.lower_idem. }
  split.
  - rewrite fold_get_frame by (intros kv Hin; destruct (Hl2 kv Hin); tauto).
    unfold Main.normalize_step. cbn [fst snd].
    destruct (str_eq_dec (lower k) k) as [E | Hne].
    + rewrite E. apply get_set_same.
    + rewrite get_set_other by exact Hne. apply get_set_same.
  - rewrite fold_get_frame by (intros kv Hin; destruct (Hl2 kv Hin); tauto).
    unfold Main.normalize_step. cbn [fst snd]. apply get_set_same.
Qed.

End Facts.

End NormalizeFacts.

(** X20. [normalize_data] keeps the rows in number and order.  In the
    output row every field of the input row is present under its own name
    and under its lower-case name, and there is no other field: each name
    of the output is a name of the input or its lower-case form. *)
Theorem normalized_rows_have_both_names (V : Type)
    (data_list : list (Dict.dict V)) :
  List.length (Main.normalize_data data_list) = List.length data_list /\
  (forall i,
      nth_error (Main.normalize_data data_list) i =
      option_map (@Main.normalize_item V) (nth_error data_list i)) /\
  (forall (item : Dict.dict V) k,
      In k (Dict.keys item) ->
      In k (Dict.keys (Main.normalize_item item)) /\
      In (PyMore.lower k) (Dict.keys (Main.normalize_item item))) /\
  (forall (item : Dict.dict V) x,
      In x (Dict.keys (Main.normalize_item item)) ->
      exists k, In k (Dict.keys item) /\ (x = k \/ x = PyMore.lower k)).
Proof.
  unfold Main.normalize_data.
  split; [apply length_map|]. split; [intros i; apply nth_error_map|].
  split.
  - intros item k Hk. apply in_map_iff in Hk. destruct Hk as [kv [<- Hin]].
    rewrite NormalizeFacts.normalize_item_fold.
    apply NormalizeFacts.fold_keys_present, Hin.
  - intros item x Hx. rewrite NormalizeFacts.normalize_item_fold in Hx.
    apply NormalizeFacts.fold_keys_origin in Hx.
    destruct Hx as [[] | [kv [Hin Hx]]].
    exists (fst kv). split; [apply in_map, Hin | exact Hx].
Qed.

(** X21. [normalize_data] keeps the value of a field under both names when
    no other field of the row has the same lower-case name: the output row
    holds the value under the name of the field and under its lower-case
    form. *)
Theorem normalized_row_keeps_value (V : Type) (item : Dict.dict V)
    (k : str) (v : V)
    (Hnd : NoDup (Dict.keys item))
    (Hin : In (k, v) item)
    (Halone : forall k', In k' (Dict.keys item) ->
                         PyMore.lower k' = PyMore.lower k -> k' = k) :
  Dict.get (Main.normalize_item item) k = Some v /\
  Dict.get (Main.normalize_item item) (PyMore.lower k) = Some v.
Proof.
  apply in_split in Hin. destruct Hin as (l1 & l2 & ->).
  rewrite NormalizeFacts.normalize_item_fold.
  apply NormalizeFacts.fold_get_alone; assumption.
Qed.

Lemma normalized_row_keeps_value_witness :
  let item := [(lit "TABLE_NAME", 1%Z); (lit "owner", 2%Z)] in
  NoDup (Dict.keys item) /\
  Dict.get (Main.normalize_item item) (lit "TABLE_NAME") = Some 1%Z /\
  Dict.get (Main.normalize_item item) (lit "table_name") = Some 1%Z.
Proof.
  intros item.
  assert (H1 : NoDup (Dict.keys item)).
  { simpl. repeat constructor; simpl; intuition discriminate. }
  assert (H2 : In (lit "TABLE_NAME", 1%Z) item) by (left; reflexivity).
  assert (H3 : forall k', In k' (Dict.keys item) ->
                 PyMore.lower k' = PyMore.lower (lit "TABLE_NAME") ->
                 k' = lit "TABLE_NAME").
  { intros k' [<- | [<- | []]] E; [reflexivity | discriminate E]. }
  split; [exact H1|].
  exact (@normalized_row_keeps_value Z item (lit "TABLE_NAME") 1%Z
           H1 H2 H3).
Defined.

(** X22. [_get_field_value] returns the default or the text of a value that
    is stored under the lower-case, the upper-case or the given form of the
    field name and that is neither [None] nor false; it never returns the
    text of [None] or of a false value such as 0 or the empty string.  A
    value under the lower-case name that is false but not [None] ends the
    search: the result is the default whatever the other two names hold. *)
Theorem field_value_default_or_text (V : Type) (is_none truthy : V -> bool)
    (to_str : V -> str) (data : Dict.dict V) (field_name default : str) :
  let result :=
    DocumentGenerator._get_field_value is_none truthy to_str data field_name
      default in
  (result = default \/
   exists name v,
     In name [PyMore.lower field_name; upper field_name; field_name] /\
     Dict.get data name = Some v /\ is_none v = false /\ truthy v = true /\
     result = to_str v) /\
  (forall v,
      Dict.get data (PyMore.lower field_name) = Some v ->
      is_none v = false -> truthy v = false -> result = default).
Proof.
  intros result. unfold result, DocumentGenerator._get_field_value,
    DocumentGenerator.lookup.
  split.
  - destruct (Dict.get data (PyMore.lower field_name)) as [v1|] eqn:E1.
    + destruct (is_none v1) eqn:N1.
      * destruct (Dict.get data (upper field_name)) as [v2|] eqn:E2.
        -- destruct (is_none v2) eqn:N2.
           ++ destruct (Dict.get data field_name) as [v3|] eqn:E3; [|auto].
              destruct (is_none v3) eqn:N3; [auto|].
              destruct (truthy v3) eqn:T3; [|auto].
              right. exists field_name, v3. simpl. auto 10.
           ++ destruct (truthy v2) eqn:T2; [|auto].
              right. exists (upper field_name), v2. simpl. auto 10.
        -- destruct (Dict.get data field_name) as [v3|] eqn:E3; [|auto].
           destruct (is_none v3) eqn:N3; [auto|].
           destruct (truthy v3) eqn:T3; [|auto].
           right. exists field_name, v3. simpl. auto 10.
      * destruct (truthy v1) eqn:T1; [|auto].
        right. exists (PyMore.lower field_name), v1. simpl. auto 10.
    + destruct (Dict.get data (upper field_name)) as [v2|] eqn:E2.
      * destruct (is_none v2) eqn:N2.
        -- destruct (Dict.get data field_name) as [v3|] eqn:E3; [|auto].
           destruct (is_none v3) eqn:N3; [auto|].
           destruct (truthy v3) eqn:T3; [|auto].
           right. exists field_name, v3. simpl. auto 10.
        -- destruct (truthy v2) eqn:T2; [|auto].
           right. exists (upper field_name), v2. simpl. auto 10.
      * destruct (Dict.get data field_name) as [v3|] eqn:E3; [|auto].
        destruct (is_none v3) eqn:N3; [auto|].
        destruct (truthy v3) eqn:T3; [|auto].
        right. exists field_name, v3. simpl. auto 10.
  - intros v E N T. rewrite E, N, T. reflexivity.
Qed.

Lemma field_value_default_or_text_witness :
  let is_none := fun v => match v with Heap.VNone => true | _ => false end in
  let truthy := fun v => match v with
                         | Heap.VNone => false
                         | Heap.VInt n => negb (n =? 0)%Z
                         | Heap.VStr s => negb (str_eqb s [])
                         end in
  let to_str := fun v => match v with
                         | Heap.VStr s => s
                         | _ => lit "?"
                         end in
  let data := [(lit "comments", Heap.VStr (lit ""));
               (lit "COMMENTS", Heap.VStr (lit "orders"))] in
  Dict.get data (PyMore.lower (lit "Comments")) = Some (Heap.VStr (lit "")) /\
  DocumentGenerator._get_field_value is_none truthy to_str data
    (lit "Comments") (lit "-") = lit "-".
Proof.
  intros is_none truthy to_str data.
  assert (H : Dict.get data (PyMore.lower (lit "Comments"))
              = Some (Heap.VStr (lit ""))) by reflexivity.
  split; [exact H|].
  exact (proj2 (field_value_default_or_text is_none truthy to_str data
                  (lit "Comments") (lit "-"))
           (Heap.VStr (lit "")) H eq_refl eq_refl).
Defined.

Module GateFacts.
Import Py PyFacts PyMoreFacts Policy PolicyFacts.

Lemma lstrip_head (s : str) :
  match lstrip s with
  | [] => True
  | c :: _ => isspace c = false
  end.
Proof.
  induction s as [|c s IH]; simpl; [exact I|].
  destruct (isspace c) eqn:E; [exact IH | exact E].
Qed.

(** [strip] leaves no whitespace at the front. *)
Lemma strip_head (s : str) :
  match strip s with
  | [] => True
  | c :: _ => isspace c = false
  end.
Proof.
  unfold strip, rstrip.
  pose proof (lstrip_head s) as H.
  set (t := lstrip s) in *. clearbody t.
  destruct (rev (lstrip (rev t))) as [|c u] eqn:E; [exact I|].
  assert (Hpre : exists v, t = rev (lstrip (rev t)) ++ v).
  { generalize (rev t) (rev_involutive t). intros r Hr. rewrite <- Hr.
    clear. induction r as [|x r IH]; simpl.
    - exists []. reflexivity.
    - destruct (isspace x).
      + destruct IH as [v Hv]. exists (v ++ [x]).
        rewrite app_assoc, <- Hv. reflexivity.
      + exists []. rewrite app_nil_r. reflexivity. }
  destruct Hpre as [v Hv]. rewrite E in Hv. rewrite Hv in H. exact H.
Qed.

(** The first keyword of a stripped text is a prefix of it. *)
Lemma first_keyword_prefix (sql : str) :
  exists rest,
    normalized sql =
    SQLValidator._extract_first_keyword (normalized sql) ++ rest.
Proof.
  pose proof (extract_first_token (normalized sql)) as Htok.
  pose proof (strip_head (upper sql)) as Hhead. fold (normalized sql) in Hhead.
  set (text := normalized sql) in *.
  set (kw := SQLValidator._extract_first_keyword text) in *.
  destruct Htok as [[Hb ->] | (ws & rest & Heq & Hws & _)].
  - exists text. reflexivity.
  - destruct ws as [|c ws]; [exists rest; exact Heq|].
    exfalso. rewrite Heq in Hhead. simpl in Hhead.
    unfold blank in Hws. simpl in Hws. rewrite Hhead in Hws. discriminate.
Qed.

Lemma keyword_is_query (sql : str) :
  In (SQLValidator._extract_first_keyword (normalized sql))
     DamengDatabase.query_prefixes ->
  DamengDatabase.is_query sql = true.
Proof.
  intros Hin. unfold DamengDatabase.is_query, startswith_any.
  apply existsb_exists.
  exists (SQLValidator._extract_first_keyword (normalized sql)).
  split; [exact Hin|]. apply startswith_prefix.
  destruct (first_keyword_prefix sql) as [rest E]. exists rest. exact E.
Qed.

Lemma query_keyword (sql : str) :
  In (SQLValidator._extract_first_keyword (normalized sql))
     (Read ++ Write) ->
  DamengDatabase.is_query sql = true ->
  In (SQLValidator._extract_first_keyword (normalized sql))
     DamengDatabase.query_prefixes.
Proof.
  intros Hkw Hq. unfold DamengDatabase.is_query, startswith_any in Hq.
  apply existsb_exists in Hq. destruct Hq as [p [Hp Hs]].
  apply startswith_prefix in Hs. destruct Hs as [post Hpost].
  destruct (first_keyword_prefix sql) as [rest E].
  fold (normalized sql) in Hpost.
  set (kw := SQLValidator._extract_first_keyword (normalized sql)) in *.
  rewrite Hpost in E. clear Hpost.
  simpl in Hkw.
  destruct Hkw as [K|[K|[K|[K|[K|[K|[K|[K|[]]]]]]]]]; rewrite <- K in *;
    simpl; auto 10;
    simpl in Hp;
    destruct Hp as [P|[P|[P|[P|[P|[]]]]]]; rewrite <- P in E;
    discriminate E.
Qed.

End GateFacts.

(** X24. Under ReadOnly and LimitedWrite the cache gate of [execute_query]
    follows the leading keyword: for a statement the tier accepts, the
    prefix test holds exactly when the leading keyword is SELECT, WITH,
    SHOW, DESCRIBE or EXPLAIN.  Accepted statements that start with ANALYZE,
    INSERT or UPDATE are so never cached. *)
Theorem cache_gate_follows_keyword (sql : str) (m : SecurityMode)
    (Hmode : m = READONLY \/ m = LIMITED_WRITE)
    (Haccepted : SQLValidator.validate_sql sql m = true) :
  DamengDatabase.is_query sql = true <->
  In (SQLValidator._extract_first_keyword (Policy.normalized sql))
     [lit "SELECT"; lit "WITH"; lit "SHOW"; lit "DESCRIBE"; lit "EXPLAIN"].
Proof.
  assert (Hkw : In (SQLValidator._extract_first_keyword
                      (Policy.normalized sql))
                   (Policy.Read ++ Policy.Write)).
  { destruct Hmode as [-> | ->].
    - apply ValidatorFacts.validate_readonly_accepts in Haccepted.
      destruct Haccepted as (kw & Htok & Hin & _).
      rewrite (PolicyFacts.first_token_extract Htok).
      apply in_or_app. left. exact Hin.
    - apply ValidatorFacts.validate_limited_write_accepts in Haccepted.
      destruct Haccepted as (kw & Htok & Hin & _).
      rewrite (PolicyFacts.first_token_extract Htok). exact Hin. }
  split.
  - apply GateFacts.query_keyword, Hkw.
  - apply GateFacts.keyword_is_query.
Qed.

Lemma cache_gate_follows_keyword_witness :
  SQLValidator.validate_sql (lit "  explain select 1") READONLY = true /\
  DamengDatabase.is_query (lit "  explain select 1") = true.
Proof.
  assert (H : SQLValidator.validate_sql (lit "  explain select 1") READONLY
              = true) by (vm_compute; reflexivity).
  split; [exact H|].
  apply (proj2 (@cache_gate_follows_keyword (lit "  explain select 1")
                  READONLY (or_introl eq_refl) H)).
  vm_compute. auto 10.
Defined.

Module ListingFacts.
Import Py DamengDatabase Metadata.

Lemma query_or_empty_outcome (sql : str) (repr_list : list str -> str)
    (cfg : Config.DamengConfig) (w1 w2 : call) (table_name : str)
    (schema : option str) (self : t) :
  let '(allowed, self1, trace1) :=
    _is_schema_allowed cfg w1 (schema_or_default schema) self in
  let '(res, self2, trace) :=
    query_or_empty sql repr_list cfg w1 w2 table_name schema self in
  (allowed = true -> exists r, res = Return r) /\
  (allowed = false ->
   res = Raise (ValueError
                  (lit "不允许访问模式: " ++ schema_or_default schema
                     ++ lit "，允许的模式: "
                     ++ _get_allowed_schemas_display repr_list cfg)) /\
   self2 = self1 /\ trace = trace1).
Proof.
  unfold query_or_empty.
  destruct (_is_schema_allowed cfg w1 (schema_or_default schema) self)
    as [[allowed self1] tr1].
  destruct allowed; cbn [negb].
  - destruct (execute_safe_query (Config.exec_config cfg) w2 sql
                [Heap.VStr table_name] self1) as [[[e|r] self2] tr2];
      cbn [Heap.alloc]; (split; [intros _; eauto | discriminate]).
  - split; [discriminate | auto].
Qed.

End ListingFacts.

(** X23. [get_table_indexes] and [get_table_constraints] raise only for a
    schema that is not allowed: then the [ValueError] names the schema and
    the allowed ones, and nothing is done after the schema check.  For an
    allowed schema they always return a list; a rejection by the policy or
    an error of the database inside them is not passed on. *)
Theorem listings_raise_only_for_schema (repr_list : list str -> str)
    (cfg : Config.DamengConfig) (w1 w2 : Metadata.call) (table_name : str)
    (schema : option str) (self : DamengDatabase.t) :
  let '(allowed, self1, trace1) :=
    Metadata._is_schema_allowed cfg w1 (Metadata.schema_or_default schema)
      self in
  let denied :=
    DamengDatabase.Raise
      (DamengDatabase.ValueError
         (lit "不允许访问模式: " ++ Metadata.schema_or_default schema
            ++ lit "，允许的模式: "
            ++ Metadata._get_allowed_schemas_display repr_list cfg)) in
  (let '(res, self2, trace) :=
     Metadata.get_table_indexes repr_list cfg w1 w2 table_name schema self in
   (allowed = true -> exists r, res = DamengDatabase.Return r) /\
   (allowed = false -> res = denied /\ self2 = self1 /\ trace = trace1)) /\
  (let '(res, self2, trace) :=
     Metadata.get_table_constraints repr_list cfg w1 w2 table_name schema
       self in
   (allowed = true -> exists r, res = DamengDatabase.Return r) /\
   (allowed = false -> res = denied /\ self2 = self1 /\ trace = trace1)).
Proof.
  pose proof (ListingFacts.query_or_empty_outcome SystemSQL.indexes_sql
                repr_list cfg w1 w2 table_name schema self) as H1.
  pose proof (ListingFacts.query_or_empty_outcome SystemSQL.constraints_sql
                repr_list cfg w1 w2 table_name schema self) as H2.
  unfold Metadata.get_table_indexes, Metadata.get_table_constraints.
  destruct (Metadata._is_schema_allowed cfg w1
              (Metadata.schema_or_default schema) self)
    as [[allowed self1] tr1].
  cbv zeta. split; [exact H1 | exact H2].
Qed.

Lemma listings_raise_only_for_schema_witness :
  let cfg := Config.mk READONLY [lit "HR"] false 1000 in
  let w := Metadata.mk_call (DamengDatabase.mk_clock 1 1 1 1)
             (fun _ _ => DamengDatabase.DbError) in
  let self := DamengDatabase.mk (QueryCache.init 100 300) [] in
  (exists r,
      fst (fst (Metadata.get_table_constraints (fun _ => lit "['HR']") cfg
                  w w (lit "T") (Some (lit "HR")) self))
      = DamengDatabase.Return r) /\
  fst (fst (Metadata.get_table_constraints (fun _ => lit "['HR']") cfg
              w w (lit "T") None self))
  = DamengDatabase.Raise
      (DamengDatabase.ValueError
         (lit "不允许访问模式: SYSDBA，允许的模式: ['HR']")).
Proof.
  intros cfg w self. split.
  - pose proof (listings_raise_only_for_schema (fun _ => lit "['HR']") cfg
                  w w (lit "T") (Some (lit "HR")) self) as R.
    assert (E : Metadata._is_schema_allowed cfg w
                  (Metadata.schema_or_default (Some (lit "HR"))) self
                = (true, self, [])) by reflexivity.
    rewrite E in R. cbv zeta in R. destruct R as [_ R].
    destruct (Metadata.get_table_constraints (fun _ => lit "['HR']") cfg
                w w (lit "T") (Some (lit "HR")) self) as [[res s2] tr].
    destruct R as [R _]. exact (R eq_refl).
  - pose proof (listings_raise_only_for_schema (fun _ => lit "['HR']") cfg
                  w w (lit "T") None self) as R.
    assert (E : Metadata._is_schema_allowed cfg w
                  (Metadata.schema_or_default None) self
                = (false, self, [])) by reflexivity.
    rewrite E in R. cbv zeta in R. destruct R as [_ R].
    destruct (Metadata.get_table_constraints (fun _ => lit "['HR']") cfg
                w w (lit "T") None self) as [[res s2] tr].
    destruct R as [_ R]. destruct (R eq_refl) as [-> _]. reflexivity.
Defined.

(** X25. After [clear_cache] the cache reports no entries, and the next
    cached read of any statement misses: [execute_query] asks the cache
    first and then the database. *)
Theorem cleared_cache_misses (cfg : DamengDatabase.config)
    (clk : DamengDatabase.clock) (db : str -> DamengDatabase.db_outcome)
    (sql : str) (self : DamengDatabase.t)
    (Hvalid :
       SQLValidator.validate_sql sql (DamengDatabase.security_mode cfg)
       = true)
    (Hquery : DamengDatabase.is_query sql = true) :
  let cleared := Metadata.clear_cache self in
  QueryCache.cache_size (Metadata.get_cache_info cleared) = 0%Z /\
  QueryCache.entries (Metadata.get_cache_info cleared) = [] /\
  DamengDatabase.heap cleared = DamengDatabase.heap self /\
  let '(_, _, trace) :=
    DamengDatabase.execute_query cfg clk db sql true cleared in
  firstn 2 trace =
  [DamengDatabase.CacheGet sql; DamengDatabase.DbExecute sql].
Proof.
  intros cleared. split; [reflexivity|]. split; [reflexivity|].
  split; [reflexivity|].
  unfold DamengDatabase.execute_query. rewrite Hvalid, Hquery.
  cbn [negb andb]. unfold cleared, Metadata.clear_cache.
  cbn [DamengDatabase.query_cache]. unfold QueryCache.get, QueryCache.clear.
  cbn [QueryCache.cache Dict.get Dict.empty].
  destruct (db sql); cbn [Heap.alloc]; reflexivity.
Qed.

Lemma cleared_cache_misses_witness :
  let cfg := DamengDatabase.mk_config READONLY 1000 in
  let clk := DamengDatabase.mk_clock 5 5 5 5 in
  let db := fun _ : str => DamengDatabase.DbDone [] 0 in
  let self :=
    DamengDatabase.mk
      (QueryCache.set 1 1 (lit "select 1") 0 None (QueryCache.init 100 300))
      [[]] in
  SQLValidator.validate_sql (lit "select 1") READONLY = true /\
  DamengDatabase.is_query (lit "select 1") = true /\
  firstn 2 (snd (DamengDatabase.execute_query cfg clk db (lit "select 1")
                   true (Metadata.clear_cache self)))
  = [DamengDatabase.CacheGet (lit "select 1");
     DamengDatabase.DbExecute (lit "select 1")].
Proof.
  intros cfg clk db self.
  assert (H1 : SQLValidator.validate_sql (lit "select 1")
                 (DamengDatabase.security_mode cfg) = true)
    by (vm_compute; reflexivity).
  assert (H2 : DamengDatabase.is_query (lit "select 1") = true)
    by (vm_compute; reflexivity).
  split; [exact H1|]. split; [exact H2|].
  pose proof (@cleared_cache_misses cfg clk db (lit "select 1") self H1 H2)
    as R.
  cbv zeta in R. destruct R as (_ & _ & _ & R).
  destruct (DamengDatabase.execute_query cfg clk db (lit "select 1") true
              (Metadata.clear_cache self)) as [[res s'] tr].
  exact R.
Defined.
